(** * Element classification and prioritisation core

    A shallow embedding of the decision logic of [click_api.py]
    (class [SmartButtonAutomation]) and [enhanced_web_analyzer.py]
    (class [WebPageAnalyzer]), with the properties the specification states
    about it.

    Conventions.
    - A Python [str] is a sequence of Unicode code points: [pystr] is
      [list N].  ASCII literals are written [py "..."]; the Arabic literals
      of the source are given by their code points.
    - A Python [int] is a [Z].
    - The browser is an external collaborator.  What it answers is given by
      an oracle over the history of the interaction so far (reads, sleeps,
      clicks, console output), so that every theorem holds for every possible
      behaviour of the page.
    - An element found on the page is a snapshot of what its reads answer,
      together with a table [raises] of the reads that raise instead.  The
      functions that read elements do so inside [try] blocks; their [except]
      paths are followed wherever [raises] says so. *)

From Stdlib Require Import List Bool ZArith NArith Arith Lia.
From Stdlib Require Import Ascii String DecimalString.
From Stdlib Require Import Permutation Sorted.
Import ListNotations.

Local Open Scope list_scope.

(** ** Python strings *)

Definition pystr := list N.

Definition py (s : string) : pystr :=
  List.map N_of_ascii (list_ascii_of_string s).

Fixpoint pystr_eqb (a b : pystr) : bool :=
  match a, b with
  | [], [] => true
  | x :: a', y :: b' => N.eqb x y && pystr_eqb a' b'
  | _, _ => false
  end.

(** [s.startswith(p)] *)
Fixpoint startswith (p s : pystr) : bool :=
  match p, s with
  | [], _ => true
  | x :: p', y :: s' => N.eqb x y && startswith p' s'
  | _ :: _, [] => false
  end.

(** [p in s] on strings: [p] occurs in [s] as a contiguous substring. *)
Fixpoint contains (p s : pystr) : bool :=
  startswith p s ||
  match s with
  | [] => false
  | _ :: s' => contains p s'
  end.

(** [x in l] for a list of strings. *)
Definition str_in (x : pystr) (l : list pystr) : bool :=
  existsb (pystr_eqb x) l.

Arguments str_in : simpl never.

(** [s[:n]] *)
Definition slice_to (n : nat) (s : pystr) : pystr := firstn n s.

(** ** ButtonPrioritizer: [SmartButtonAutomation.categorize_button] *)

Definition cookie_patterns : list pystr :=
  [ py "accept all"; py "accept cookies"; py "allow all"; py "allow cookies";
    py "agree and continue"; py "accept and continue"; py "cookie"; py "consent";
    py "i accept"; py "i agree";
    [1605; 1608; 1575; 1601; 1602; 32; 1593; 1604; 1609; 32;
     1575; 1604; 1603; 1608; 1603; 1610; 1586]%N;
    [1602; 1576; 1608; 1604; 32; 1575; 1604; 1603; 1608; 1603; 1610; 1586]%N;
    [1605; 1608; 1575; 1601; 1602]%N ].

Definition terms_patterns : list pystr :=
  [ py "accept terms"; py "agree terms"; py "accept conditions";
    py "agree conditions"; py "i agree to terms"; py "accept privacy";
    [1605; 1608; 1575; 1601; 1602; 32; 1593; 1604; 1609; 32;
     1575; 1604; 1588; 1585; 1608; 1591]%N;
    [1602; 1576; 1608; 1604; 32; 1575; 1604; 1588; 1585; 1608; 1591]%N;
    py "terms"; py "privacy policy";
    [1605; 1608; 1575; 1601; 1602; 1577; 32; 1593; 1604; 1609; 32;
     1575; 1604; 1588; 1585; 1608; 1591]%N ].

Definition navigation_patterns : list pystr :=
  [ py "next"; py "continue"; py "proceed"; py "forward";
    [1575; 1604; 1578; 1575; 1604; 1610]%N;
    [1605; 1578; 1575; 1576; 1593; 1577]%N;
    [1575; 1604; 1605; 1578; 1575; 1576; 1593; 1577]%N ].

(** Defined by the source but read by no branch of [categorize_button]. *)
Definition submit_patterns : list pystr :=
  [ py "submit"; py "send"; py "post"; py "save";
    [1573; 1585; 1587; 1575; 1604]%N;
    [1581; 1601; 1592]%N;
    [1578; 1602; 1583; 1610; 1605]%N ].

Definition search_patterns : list pystr :=
  [ py "search"; py "find";
    [1576; 1581; 1579]%N;
    [1575; 1604; 1576; 1581; 1579]%N ].

Definition cancel_patterns : list pystr :=
  [ py "cancel"; py "close"; py "dismiss"; py "skip"; py "not now"; py "later";
    [1573; 1604; 1594; 1575; 1569]%N;
    [1573; 1594; 1604; 1575; 1602]%N;
    [1578; 1580; 1575; 1607; 1604]%N;
    [1604; 1575; 1581; 1602; 1575; 1611]%N;
    [1604; 1610; 1587; 32; 1575; 1604; 1570; 1606]%N ].

Definition choice_patterns : list pystr :=
  [ py "yes"; py "no"; py "ok"; py "confirm";
    [1606; 1593; 1605]%N;
    [1604; 1575]%N;
    [1605; 1608; 1575; 1601; 1602]%N;
    [1578; 1571; 1603; 1610; 1583]%N ].

(** [for pattern in patterns: if pattern in combined_text: return ...]:
    the pattern the loop returns on, if any. *)
Definition first_pattern_in (patterns : list pystr) (combined_text : pystr)
  : option pystr :=
  find (fun pattern => contains pattern combined_text) patterns.

(** The test of the submit branch.  Python's [and] binds tighter than [or]. *)
Definition is_form_submit (combined_text type_attr tag_name : pystr) : bool :=
  pystr_eqb type_attr (py "submit")
  || (pystr_eqb tag_name (py "button") && contains (py "submit") combined_text).

Definition categorize_button (combined_text type_attr tag_name : pystr)
  : pystr * Z * pystr :=
  match first_pattern_in cookie_patterns combined_text with
  | Some pattern =>
      (py "cookie_consent", 10%Z, py "Cookie Consent Button: " ++ pattern)
  | None =>
  match first_pattern_in terms_patterns combined_text with
  | Some pattern =>
      (py "terms_agreement", 9%Z, py "Terms Agreement Button: " ++ pattern)
  | None =>
  if is_form_submit combined_text type_attr tag_name then
    (py "submit", 8%Z, py "Form Submit Button")
  else
  match first_pattern_in navigation_patterns combined_text with
  | Some pattern =>
      (py "navigation", 7%Z, py "Navigation Button: " ++ pattern)
  | None =>
  match first_pattern_in search_patterns combined_text with
  | Some pattern =>
      (py "search", 6%Z, py "Search Button: " ++ pattern)
  | None =>
  match first_pattern_in choice_patterns combined_text with
  | Some pattern =>
      (py "choice", 5%Z, py "Choice Button: " ++ pattern)
  | None =>
  match first_pattern_in cancel_patterns combined_text with
  | Some pattern =>
      (py "cancel", 2%Z, py "Cancel/Close Button: " ++ pattern)
  | None =>
      (py "general", 3%Z, py "General Button: " ++ slice_to 50 combined_text)
  end end end end end end.

Definition category_of (r : pystr * Z * pystr) : pystr := fst (fst r).
Definition priority_of (r : pystr * Z * pystr) : Z := snd (fst r).
Definition description_of (r : pystr * Z * pystr) : pystr := snd r.

(** *** The ordered table of the specification

    The specification describes the categorizer as a first-match-wins scan
    of an ordered table of (category, priority, trigger).  [first_match] and
    [category_table] follow these words; the theorems below compare them with
    [categorize_button]. *)

Definition matches_any (patterns : list pystr) (combined_text : pystr) : bool :=
  existsb (fun pattern => contains pattern combined_text) patterns.

Definition trigger := pystr -> pystr -> pystr -> bool.

Definition category_table : list (pystr * Z * trigger) :=
  [ (py "cookie_consent", 10%Z, fun ct _ _ => matches_any cookie_patterns ct);
    (py "terms_agreement", 9%Z, fun ct _ _ => matches_any terms_patterns ct);
    (py "submit", 8%Z, is_form_submit);
    (py "navigation", 7%Z, fun ct _ _ => matches_any navigation_patterns ct);
    (py "search", 6%Z, fun ct _ _ => matches_any search_patterns ct);
    (py "choice", 5%Z, fun ct _ _ => matches_any choice_patterns ct);
    (py "cancel", 2%Z, fun ct _ _ => matches_any cancel_patterns ct) ].

Fixpoint first_match (table : list (pystr * Z * trigger))
    (combined_text type_attr tag_name : pystr) : pystr * Z :=
  match table with
  | [] => (py "general", 3%Z)
  | (category, priority, trig) :: rest =>
      if trig combined_text type_attr tag_name then (category, priority)
      else first_match rest combined_text type_attr tag_name
  end.

(** Category and priority of every row of the table of section 4.5,
    the default row included. *)
Definition priority_table : list (pystr * Z) :=
  [ (py "cookie_consent", 10%Z); (py "terms_agreement", 9%Z);
    (py "submit", 8%Z); (py "navigation", 7%Z); (py "search", 6%Z);
    (py "choice", 5%Z); (py "cancel", 2%Z); (py "general", 3%Z) ].

Fixpoint priority_for (table : list (pystr * Z)) (category : pystr) : option Z :=
  match table with
  | [] => None
  | (c, p) :: rest => if pystr_eqb category c then Some p else priority_for rest category
  end.


(** ** Unicode tables

    [str.strip], [str.lower] and the regular-expression classes [\w] and [\d]
    read the Unicode character database, which is not part of the repository.
    The functions that need them take them as parameters:
    - [isspace c]: [c] is whitespace for [str.strip()];
    - [lower s]: [s.lower()];
    - [isword c]: [c] is matched by [\w];
    - [isdigit c]: [c] is matched by [\d].
    [ascii_isspace], [ascii_lower], [ascii_isword] and [ascii_isdigit] are
    what these tables say on ASCII text; code points above 127 are left
    alone by [ascii_lower] and belong to no class. *)

Definition ascii_isspace (c : N) : bool :=
  ((9 <=? c) && (c <=? 13) || (28 <=? c) && (c <=? 32))%N.

Definition ascii_lower_char (c : N) : N :=
  if ((65 <=? c) && (c <=? 90))%N then (c + 32)%N else c.

Definition ascii_lower (s : pystr) : pystr := List.map ascii_lower_char s.

Definition ascii_isdigit (c : N) : bool := ((48 <=? c) && (c <=? 57))%N.

Definition ascii_isword (c : N) : bool :=
  (ascii_isdigit c || (65 <=? c) && (c <=? 90) || (97 <=? c) && (c <=? 122)
   || (c =? 95))%N.

Fixpoint lstrip (isspace : N -> bool) (s : pystr) : pystr :=
  match s with
  | [] => []
  | c :: s' => if isspace c then lstrip isspace s' else s
  end.

Definition rstrip (isspace : N -> bool) (s : pystr) : pystr :=
  rev (lstrip isspace (rev s)).

(** [s.strip()] *)
Definition strip (isspace : N -> bool) (s : pystr) : pystr :=
  rstrip isspace (lstrip isspace s).

(** Truth value of a string: [bool(s)]. *)
Definition truthy (s : pystr) : bool :=
  match s with [] => false | _ :: _ => true end.

(** [sep.join(parts)] *)
Fixpoint join (sep : pystr) (parts : list pystr) : pystr :=
  match parts with
  | [] => []
  | [p] => p
  | p :: rest => p ++ sep ++ join sep rest
  end.

(** [str(n)] for an integer. *)
Definition str_of_int (n : Z) : pystr :=
  py (NilEmpty.string_of_int (Z.to_int n)).

(** ** Sorting: [list.sort(key=..., reverse=True)]

    Python's sort is stable, also with [reverse=True]: the result is in
    descending key order and elements of equal key keep their relative order.
    There is one such arrangement of a list ([stable_sort_unique] below); it
    is computed here by stable insertion. *)

Fixpoint insert_desc {A : Type} (key : A -> Z) (x : A) (l : list A) : list A :=
  match l with
  | [] => [x]
  | y :: l' => if (key x <? key y)%Z then y :: insert_desc key x l' else x :: l
  end.

Definition sort_reverse {A : Type} (key : A -> Z) (l : list A) : list A :=
  fold_right (insert_desc key) [] l.

(** [b] may follow [a] in a list sorted in descending key order. *)
Definition descending {A : Type} (key : A -> Z) (a b : A) : Prop :=
  (key b <= key a)%Z.

Definition has_key {A : Type} (key : A -> Z) (p : Z) (x : A) : bool :=
  (key x =? p)%Z.

(** ** The page as [click_api.py] sees it *)

(** Identity of an element handle. *)
Definition handle := nat.

(** A snapshot of a DOM element: what [tag_name], [inner_text()],
    [get_attribute(name)], [is_visible()], [is_enabled()] and
    [input_value()] answer at scan time when they answer, and its children
    in document order.  Whether a read answers or raises is told apart by
    [raises] below. *)
#[warnings="-register-all"]
Inductive Node : Type :=
  mkNode {
    node_handle : handle;
    node_tag : pystr;
    node_text : pystr;
    node_attrs : list (pystr * pystr);
    node_visible : bool;
    node_enabled : bool;
    node_value : pystr;
    node_children : list Node
  }.

(** An element handle together with what [query_selector('xpath=..')]
    answers for it. *)
Record Element : Type :=
  mkElement {
    el_node : Node;
    el_parent : option Node
  }.

(** The reads the code makes of an element handle.  Each of them is made
    inside a [try] block, and each of them can raise: a call of the browser
    on a detached element, the attribute [tag_name] on a handle that has no
    such attribute. *)
Inductive read : Type :=
| ReadTagName                    (* element.tag_name *)
| ReadInnerText                  (* element.inner_text() *)
| ReadAttribute (name : pystr)   (* element.get_attribute(name) *)
| ReadVisible                    (* element.is_visible() *)
| ReadEnabled                    (* element.is_enabled() *)
| ReadParent                     (* element.query_selector('xpath=..') *)
| ReadInputs                     (* element.query_selector_all('input, textarea') *)
| ReadValue.                     (* element.input_value() *)

(** [raises n r]: at scan time, the read [r] of the element [n] raises an
    exception instead of answering what the snapshot holds. *)
Definition Faults : Type := Node -> read -> bool.

(** Handles all of whose reads answer. *)
Definition no_faults : Faults := fun _ _ => false.

(** Handles without an attribute [tag_name]: reading it raises
    [AttributeError]; every other read answers. *)
Definition no_tag_name : Faults :=
  fun _ r => match r with ReadTagName => true | _ => false end.


(** No read raises. *)
Definition reads_answer (raises : Faults) : Prop :=
  forall (n : Node) (r : read), raises n r = false.

(** [element.get_attribute(name)]: [None] when the attribute is absent. *)
Fixpoint get_attribute (attrs : list (pystr * pystr)) (name : pystr)
  : option pystr :=
  match attrs with
  | [] => None
  | (k, v) :: rest => if pystr_eqb k name then Some v else get_attribute rest name
  end.

(** [element.get_attribute(name) or default] *)
Definition attr_or (n : Node) (name default : pystr) : pystr :=
  match get_attribute (node_attrs n) name with
  | Some v => if truthy v then v else default
  | None => default
  end.

(** Proper descendants of a node, in document order. *)
Fixpoint descendants (n : Node) : list Node :=
  match n with
  | mkNode _ _ _ _ _ _ _ children =>
      (fix over (l : list Node) : list Node :=
         match l with
         | [] => []
         | c :: l' => c :: descendants c ++ over l'
         end) children
  end.

(** The element matches the selector ['input, textarea']. *)
Definition is_input_or_textarea (n : Node) : bool :=
  pystr_eqb (node_tag n) (py "input") || pystr_eqb (node_tag n) (py "textarea").

(** [parent.query_selector_all('input, textarea')] *)
Definition query_selector_all_input_textarea (parent : Node) : list Node :=
  filter is_input_or_textarea (descendants parent).

(** The dictionary returned by [find_associated_input]. *)
Record InputRef : Type :=
  mkInputRef {
    ai_element : Node;
    ai_type : pystr;
    ai_placeholder : pystr;
    ai_value : pystr
  }.

Definition text_like_types : list pystr :=
  [py "text"; py "search"; py "email"; py "url"].

(** The loop of [find_associated_input] over the query result.  The outer
    [None] is an exception raised by one of the reads; [Some r] is what the
    loop comes to when every read it makes answers: the dictionary it returns
    from, or [None] at the end of the list. *)
Fixpoint first_text_like (raises : Faults) (inputs : list Node)
  : option (option InputRef) :=
  match inputs with
  | [] => Some None
  | inp :: rest =>
      if raises inp ReadVisible then None
      else if node_visible inp then
        if raises inp ReadEnabled then None
        else if node_enabled inp then
          if raises inp (ReadAttribute (py "type")) then None
          else
            let inp_type := attr_or inp (py "type") (py "text") in
            if str_in inp_type text_like_types then
              if raises inp (ReadAttribute (py "placeholder"))
                 || raises inp ReadValue
              then None
              else Some (Some {| ai_element := inp;
                                 ai_type := inp_type;
                                 ai_placeholder := attr_or inp (py "placeholder") [];
                                 ai_value := node_value inp |})
            else first_text_like raises rest
        else first_text_like raises rest
      else first_text_like raises rest
  end.

(** [find_associated_input]: the whole body is inside
    [try: ... except Exception: return None]. *)
Definition find_associated_input (raises : Faults) (button_element : Element)
  : option InputRef :=
  if raises (el_node button_element) ReadParent then None
  else
    match el_parent button_element with
    | Some parent =>
        if raises parent ReadInputs then None
        else
          match first_text_like raises (query_selector_all_input_textarea parent) with
          | Some r => r
          | None => None
          end
    | None => None
    end.

(** The dictionary returned by [analyze_button] (a Button Record). *)
Record ButtonInfo : Type :=
  mkButtonInfo {
    bi_element : Node;
    bi_text : pystr;
    bi_category : pystr;
    bi_priority : Z;
    bi_description : pystr;
    bi_combined_text : pystr;
    bi_associated_input : option InputRef;
    bi_tag_name : pystr;
    bi_type : pystr;
    bi_clickable : bool
  }.

(** The reads [analyze_button] makes of the element itself, in the order
    of the source: the text, seven attributes, and [tag_name]. *)
Definition analyze_button_reads : list read :=
  [ReadInnerText; ReadAttribute (py "onclick"); ReadAttribute (py "class");
   ReadAttribute (py "id"); ReadAttribute (py "title");
   ReadAttribute (py "aria-label"); ReadAttribute (py "role");
   ReadAttribute (py "type"); ReadTagName].

(** The dictionary [analyze_button] builds when each of its reads
    answers. *)
Definition button_record (isspace : N -> bool) (lower : pystr -> pystr)
    (raises : Faults) (element : Element) : ButtonInfo :=
  let e := el_node element in
  let text := lower (strip isspace (node_text e)) in
  let onclick := attr_or e (py "onclick") [] in
  let class_name := attr_or e (py "class") [] in
  let id_attr := attr_or e (py "id") [] in
  let title := attr_or e (py "title") [] in
  let aria_label := attr_or e (py "aria-label") [] in
  let type_attr := attr_or e (py "type") [] in
  let combined_text :=
    lower (text ++ py " " ++ class_name ++ py " " ++ id_attr ++ py " " ++ title
           ++ py " " ++ aria_label ++ py " " ++ onclick) in
  let r := categorize_button combined_text type_attr (lower (node_tag e)) in
  {| bi_element := e;
     bi_text := text;
     bi_category := category_of r;
     bi_priority := priority_of r;
     bi_description := description_of r;
     bi_combined_text := combined_text;
     bi_associated_input := find_associated_input raises element;
     bi_tag_name := lower (node_tag e);
     bi_type := type_attr;
     bi_clickable := true |}.

(** [analyze_button]: the whole body is inside
    [try: ... except Exception as e: ... return None], so a read that raises
    makes the answer [None]; [find_associated_input] catches its own
    exceptions. *)
Definition analyze_button (isspace : N -> bool) (lower : pystr -> pystr)
    (raises : Faults) (element : Element) : option ButtonInfo :=
  if existsb (raises (el_node element)) analyze_button_reads then None
  else Some (button_record isspace lower raises element).

(** An entry of the list [/scan_buttons] returns. *)
Record ButtonSummary : Type :=
  mkButtonSummary {
    bs_category : pystr;
    bs_priority : Z;
    bs_description : pystr;
    bs_text : pystr;
    bs_tag_name : pystr;
    bs_has_associated_input : bool
  }.

Definition summarize (button : ButtonInfo) : ButtonSummary :=
  {| bs_category := bi_category button;
     bs_priority := bi_priority button;
     bs_description := bi_description button;
     bs_text := bi_text button;
     bs_tag_name := bi_tag_name button;
     bs_has_associated_input :=
       match bi_associated_input button with Some _ => true | None => false end |}.

(** The list [/scan_buttons] answers with, from the list [find_all_buttons]
    returned. *)
Definition scan_buttons_info (buttons : list ButtonInfo) : list ButtonSummary :=
  sort_reverse bs_priority (List.map summarize buttons).

(** ** The interaction with the browser

    The calls [click_api.py] makes while it waits and clicks are recorded,
    most recent first, in a [history].  What the browser answers to a call is
    decided by a [Browser] from the history up to the call: the value of a
    field may depend on how many times it was read, on the seconds slept so
    far, and on anything else that happened.  Of the console output, the
    lines of [wait_for_typing_completion] are recorded: they tell apart the
    ways out of the function, which all return [True]. *)

(** Lines written to the console by [wait_for_typing_completion]. *)
Inductive message : Type :=
| MsgWaiting            (* Waiting for typing completion... *)
| MsgFieldEmpty         (* Field is empty, waiting for typing to start... *)
| MsgNoTyping           (* No typing detected, proceeding... *)
| MsgTypingProgress (length : nat) (* Typing in progress... Current length: n *)
| MsgTypingComplete     (* Typing appears to be complete! *)
| MsgMonitorError       (* Error monitoring typing: e *)
| MsgMaxWait.           (* Maximum wait time reached, proceeding... *)

Inductive event : Type :=
| Print (m : message)
| Sleep (seconds : nat)          (* time.sleep(seconds) *)
| InputValue (el : handle)       (* el.input_value() *)
| Click (el : handle)            (* el.click() *)
| WaitForLoadState.              (* page.wait_for_load_state('networkidle') *)

Definition history := list event.

Record Browser : Type :=
  mkBrowser {
    (** [el.input_value()]: the value, or [None] when the call raises. *)
    input_value : history -> handle -> option pystr;
    (** [el.click()]: [None] when it returns, [Some e] when it raises an
        exception whose [str] is [e]. *)
    click : history -> handle -> option pystr;
    (** [is_typing_in_progress()]:
        [time.time() - self.last_typing_time < 3.0]. *)
    is_typing_in_progress : history -> bool
  }.

(** *** TypingGuard: [wait_for_typing_completion] *)

(** The [while wait_cycles < max_wait] loop; [cycles] is
    [max_wait - wait_cycles], the number of iterations left. *)
Fixpoint monitor_typing (B : Browser) (input_element : handle) (cycles : nat)
    (last_value : pystr) (stable_count : Z) (h : history) : bool * history :=
  match cycles with
  | O => (true, Print MsgMaxWait :: h)
  | S cycles' =>
      let h := Sleep 1 :: h in
      match input_value B h input_element with
      | Some current_value =>
          let h := InputValue input_element :: h in
          if pystr_eqb current_value last_value then
            let stable_count := (stable_count + 1)%Z in
            if (3 <=? stable_count)%Z then
              (true, Print MsgTypingComplete :: h)
            else
              monitor_typing B input_element cycles' current_value stable_count h
          else
            monitor_typing B input_element cycles' current_value 0%Z
              (Print (MsgTypingProgress (List.length current_value)) :: h)
      | None =>
          (true,
           Print MsgMaxWait :: Print MsgMonitorError
             :: InputValue input_element :: h)
      end
  end.

Definition wait_for_typing_completion (isspace : N -> bool) (B : Browser)
    (input_element : handle) (max_wait : Z) (h : history) : bool * history :=
  let h := Print MsgWaiting :: h in
  let initial_value :=
    match input_value B h input_element with
    | Some v => v
    | None => []
    end in
  let h := InputValue input_element :: h in
  if negb (truthy (strip isspace initial_value)) then
    let h := Sleep 5 :: Print MsgFieldEmpty :: h in
    match input_value B h input_element with
    | Some current_value =>
        let h := InputValue input_element :: h in
        if negb (truthy (strip isspace current_value)) then
          (true, Print MsgNoTyping :: h)
        else
          monitor_typing B input_element (Z.to_nat max_wait) initial_value 0%Z h
    | None => (true, InputValue input_element :: h)
    end
  else
    monitor_typing B input_element (Z.to_nat max_wait) initial_value 0%Z h.

(** *** InteractionOrchestrator: [smart_button_click], [process_all_buttons] *)

(** The dictionary returned by [smart_button_click]. *)
Record ClickResult : Type :=
  mkClickResult {
    cr_success : bool;
    cr_message : pystr;
    cr_category : pystr;
    cr_button_text : option pystr
  }.

(** From [button.click()] to the end of [smart_button_click]. *)
Definition click_and_settle (B : Browser) (button_info : ButtonInfo)
    (h : history) : ClickResult * history :=
  let button := node_handle (bi_element button_info) in
  let category := bi_category button_info in
  match click B h button with
  | Some e =>
      ({| cr_success := false;
          cr_message := py "Error clicking button: " ++ e;
          cr_category := category;
          cr_button_text := None |},
       Click button :: h)
  | None =>
      ({| cr_success := true;
          cr_message := py "Successfully clicked " ++ category ++ py " button";
          cr_category := category;
          cr_button_text := Some (bi_text button_info) |},
       WaitForLoadState :: Sleep 2 :: Click button :: h)
  end.

Definition guarded_categories : list pystr :=
  [py "submit"; py "search"; py "navigation"].

Definition smart_button_click (isspace : N -> bool) (B : Browser)
    (button_info : ButtonInfo) (h : history) : ClickResult * history :=
  let category := bi_category button_info in
  match bi_associated_input button_info with
  | Some associated_input =>
      if str_in category guarded_categories then
        let input_element := node_handle (ai_element associated_input) in
        let current_value := ai_value associated_input in
        if negb (truthy (strip isspace current_value))
           || is_typing_in_progress B h then
          let (success, h) :=
            wait_for_typing_completion isspace B input_element 30%Z h in
          if negb success then
            ({| cr_success := false;
                cr_message := py "Timeout waiting for typing completion";
                cr_category := category;
                cr_button_text := None |}, h)
          else click_and_settle B button_info h
        else click_and_settle B button_info h
      else click_and_settle B button_info h
  | None => click_and_settle B button_info h
  end.

Definition exit_categories : list pystr := [py "navigation"; py "submit"].

(** The [for i, button_info in enumerate(buttons, 1)] loop of
    [process_all_buttons]. *)
Fixpoint process_loop (isspace : N -> bool) (B : Browser)
    (buttons : list ButtonInfo) (results : list ClickResult)
    (processed_count : Z) (h : history)
  : list ClickResult * Z * history :=
  match buttons with
  | [] => (results, processed_count, h)
  | button_info :: rest =>
      let (result, h) := smart_button_click isspace B button_info h in
      let results := results ++ [result] in
      let (processed_count, h) :=
        if cr_success result then ((processed_count + 1)%Z, Sleep 1 :: h)
        else (processed_count, h) in
      if str_in (bi_category button_info) exit_categories then
        (results, processed_count, Sleep 2 :: h)
      else process_loop isspace B rest results processed_count h
  end.

(** The dictionary returned by [process_all_buttons]. *)
Record ProcessReport : Type :=
  mkProcessReport {
    pr_success : bool;
    pr_message : pystr;
    pr_total_buttons : option Z;
    pr_processed_buttons : option Z;
    pr_results : option (list ClickResult)
  }.

(** The list [process_all_buttons] iterates over: the buttons found, kept
    when their category is in [categories_filter] if one is given (and not
    empty), sorted by priority, highest first. *)
Definition filter_and_sort (found : list ButtonInfo)
    (categories_filter : option (list pystr)) : list ButtonInfo :=
  let buttons :=
    match categories_filter with
    | Some (c :: cs) =>
        filter (fun b => str_in (bi_category b) (c :: cs)) found
    | _ => found
    end in
  sort_reverse bi_priority buttons.

(** [process_all_buttons]: [loaded] is what [navigate_to_url(url)] returned
    and [found] the list [find_all_buttons()] returned, each of them a page
    operation; [categories_filter] is [None] or the list given by the
    caller. *)
Definition process_all_buttons (isspace : N -> bool) (B : Browser)
    (loaded : bool) (found : list ButtonInfo)
    (categories_filter : option (list pystr)) (h : history)
  : ProcessReport * history :=
  if negb loaded then
    ({| pr_success := false; pr_message := py "Failed to load page";
        pr_total_buttons := None; pr_processed_buttons := None;
        pr_results := None |}, h)
  else
  match found with
  | [] =>
    ({| pr_success := false; pr_message := py "No buttons found on this page";
        pr_total_buttons := None; pr_processed_buttons := None;
        pr_results := None |}, h)
  | _ :: _ =>
    let buttons := filter_and_sort found categories_filter in
    let '(results, processed_count, h) :=
      process_loop isspace B buttons [] 0%Z h in
    ({| pr_success := true;
        pr_message :=
          py "Processed " ++ str_of_int processed_count
             ++ py " buttons successfully";
        pr_total_buttons := Some (Z.of_nat (List.length buttons));
        pr_processed_buttons := Some processed_count;
        pr_results := Some results |}, h)
  end.

(** ** The page as [enhanced_web_analyzer.py] sees it *)

(** A [bs4.element.Tag]: its [name], its single-valued attributes, the value
    of its [class] attribute (a list of class names, when the attribute is
    present), what [get_text(strip=True)] answers, and its [parent]. *)
#[warnings="-register-all"]
Inductive Tag : Type :=
  mkTag {
    tag_name : pystr;
    tag_attrs : list (pystr * pystr);
    tag_class : option (list pystr);
    tag_text : pystr;
    tag_parent : option Tag
  }.

(** *** SelectorBuilder: [generate_advanced_selector] *)

(** What one turn of the path loop appends for an element without [id]. *)
Definition class_or_tag (name : pystr) (class : option (list pystr)) : pystr :=
  match class with
  | Some cl =>
      match filter truthy cl with
      | c :: _ => name ++ py "." ++ c
      | [] => name
      end
  | None => name
  end.

(** The [while current and current.name] loop; [path_parts] is the list built
    so far. *)
Fixpoint build_path (current : Tag) (path_parts : list pystr) : list pystr :=
  match current with
  | mkTag name attrs class _ parent =>
      if negb (truthy name) then path_parts
      else
        match get_attribute attrs (py "id") with
        | Some id => path_parts ++ [name ++ py "#" ++ id]
        | None =>
            let path_parts := path_parts ++ [class_or_tag name class] in
            if (5 <? List.length path_parts)%nat then path_parts
            else
              match parent with
              | Some p => build_path p path_parts
              | None => path_parts
              end
        end
  end.

(** The dictionary returned by [generate_advanced_selector]; [sel_path_parts]
    is the list [path_parts] that [hierarchical_path] is joined from. *)
Record Selectors : Type :=
  mkSelectors {
    sel_id_selector : option pystr;
    sel_priority : option pystr;
    sel_class_selector : option pystr;
    sel_classes : option (list pystr);
    sel_name_selector : option pystr;
    sel_type_selector : option pystr;
    sel_tag_selector : pystr;
    sel_path_parts : list pystr;
    sel_hierarchical_path : pystr
  }.

Definition generate_advanced_selector (element : Tag) : Selectors :=
  let name := tag_name element in
  let id := get_attribute (tag_attrs element) (py "id") in
  let classes :=
    match tag_class element with
    | Some cl => match filter truthy cl with [] => None | cs => Some cs end
    | None => None
    end in
  let path_parts := build_path element [] in
  {| sel_id_selector := option_map (fun i => py "#" ++ i) id;
     sel_priority := option_map (fun _ => py "high") id;
     sel_class_selector :=
       option_map (fun cs => name ++ py "." ++ join (py ".") cs) classes;
     sel_classes := classes;
     sel_name_selector :=
       option_map (fun v => name ++ py "[name='" ++ v ++ py "']")
                  (get_attribute (tag_attrs element) (py "name"));
     sel_type_selector :=
       option_map (fun v => name ++ py "[type='" ++ v ++ py "']")
                  (get_attribute (tag_attrs element) (py "type"));
     sel_tag_selector := name;
     sel_path_parts := path_parts;
     sel_hierarchical_path := join (py " > ") (rev path_parts) |}.

(** How the path names an element: [tag#id], [tag.firstclass] or [tag]. *)
Definition descriptor (t : Tag) : pystr :=
  match get_attribute (tag_attrs t) (py "id") with
  | Some id => tag_name t ++ py "#" ++ id
  | None => class_or_tag (tag_name t) (tag_class t)
  end.

(** The chain [element, element.parent, element.parent.parent, ...]. *)
Fixpoint ancestry (t : Tag) : list Tag :=
  match t with
  | mkTag _ _ _ _ parent =>
      t :: match parent with Some p => ancestry p | None => [] end
  end.

(** *** SemanticTagger: [extract_semantic_info] *)

Definition is_word_at (isword : N -> bool) (c : option N) : bool :=
  match c with Some x => isword x | None => false end.

(** [\b] between the character [before] and the character [after] (each
    [None] at an end of the string). *)
Definition word_boundary (isword : N -> bool) (before after : option N) : bool :=
  xorb (is_word_at isword before) (is_word_at isword after).

(** [\b alt \b] matches at the head of [s], where [before] is the character
    in front of [s]. *)
Definition phrase_here (isword : N -> bool) (before : option N)
    (alt s : pystr) : bool :=
  word_boundary isword before (hd_error s)
  && startswith alt s
  && word_boundary isword
       (match rev alt with c :: _ => Some c | [] => before end)
       (hd_error (skipn (List.length alt) s)).

(** [re.search(r'\b(alt1|alt2|...)\b', s)] finds a match. *)
Fixpoint search_phrases (isword : N -> bool) (alts : list pystr)
    (before : option N) (s : pystr) : bool :=
  existsb (fun alt => phrase_here isword before alt s) alts
  || match s with
     | [] => false
     | c :: s' => search_phrases isword alts (Some c) s'
     end.

Definition login_phrases : list pystr :=
  [ [1578; 1587; 1580; 1610; 1604; 32; 1583; 1582; 1608; 1604]%N;
    py "login"; py "sign in" ].

Definition search_phrases_list : list pystr :=
  [ [1576; 1581; 1579]%N; py "search" ].

Definition submit_phrases : list pystr :=
  [ [1573; 1585; 1587; 1575; 1604]%N; py "submit"; py "send" ].

Definition cancel_phrases : list pystr :=
  [ [1573; 1604; 1594; 1575; 1569]%N; py "cancel"; py "close" ].

(** [re.search(r'^\d+$', s)]: [$] also matches in front of a newline that
    ends the string. *)
Definition search_all_digits (isdigit : N -> bool) (s : pystr) : bool :=
  let body := match rev s with 10%N :: r => rev r | _ => s end in
  truthy body && forallb isdigit body.

(** [.*\.(com|org|net)] matches at the head of [s]; [.] is any character
    but a newline. *)
Fixpoint dot_tld_follows (s : pystr) : bool :=
  existsb (fun tld => startswith (46%N :: tld) s) [py "com"; py "org"; py "net"]
  || match s with
     | [] => false
     | c :: s' => negb (N.eqb c 10) && dot_tld_follows s'
     end.

(** [re.search(r'@.*\.(com|org|net)', s)] *)
Fixpoint search_email (s : pystr) : bool :=
  match s with
  | [] => false
  | c :: s' => (N.eqb c 64 && dot_tld_follows s') || search_email s'
  end.

(** The [if]/[elif] chain that sets [semantic['text_type']]. *)
Definition text_type_of (lower : pystr -> pystr) (isword isdigit : N -> bool)
    (text : pystr) : option pystr :=
  if search_phrases isword login_phrases None (lower text) then Some (py "login")
  else if search_phrases isword search_phrases_list None (lower text)
  then Some (py "search")
  else if search_phrases isword submit_phrases None (lower text)
  then Some (py "submit")
  else if search_phrases isword cancel_phrases None (lower text)
  then Some (py "cancel")
  else if search_all_digits isdigit text then Some (py "numeric")
  else if search_email text then Some (py "email")
  else if startswith (py "http") text then Some (py "url")
  else None.

(** The dictionary returned by [extract_semantic_info]. *)
Record Semantic : Type :=
  mkSemantic {
    sem_text_content : option pystr;
    sem_text_length : option Z;
    sem_text_type : option pystr;
    sem_placeholder : option pystr;
    sem_title : option pystr;
    sem_alt_text : option pystr;
    sem_aria_label : option pystr;
    sem_role : option pystr
  }.

Definition extract_semantic_info (lower : pystr -> pystr)
    (isword isdigit : N -> bool) (element : Tag) : Semantic :=
  let text := tag_text element in
  {| sem_text_content := if truthy text then Some text else None;
     sem_text_length :=
       if truthy text then Some (Z.of_nat (List.length text)) else None;
     sem_text_type :=
       if truthy text then text_type_of lower isword isdigit text else None;
     sem_placeholder := get_attribute (tag_attrs element) (py "placeholder");
     sem_title := get_attribute (tag_attrs element) (py "title");
     sem_alt_text := get_attribute (tag_attrs element) (py "alt");
     sem_aria_label := get_attribute (tag_attrs element) (py "aria-label");
     sem_role := get_attribute (tag_attrs element) (py "role") |}.

(** *** The ordered pattern list of the specification

    [first_true] scans an ordered list of (type, test result) and answers
    with the first type whose test holds.  [text_type_patterns_lowered]
    follows the words of the specification: the seven tests in order, every
    one of them on the lower-cased text.  [text_type_patterns] differs in the
    last three tests, which it makes on the text as it is. *)

Fixpoint first_true (tests : list (pystr * bool)) : option pystr :=
  match tests with
  | [] => None
  | (type, holds) :: rest => if holds then Some type else first_true rest
  end.

Definition text_type_patterns_lowered (lower : pystr -> pystr)
    (isword isdigit : N -> bool) (text : pystr) : list (pystr * bool) :=
  [ (py "login", search_phrases isword login_phrases None (lower text));
    (py "search", search_phrases isword search_phrases_list None (lower text));
    (py "submit", search_phrases isword submit_phrases None (lower text));
    (py "cancel", search_phrases isword cancel_phrases None (lower text));
    (py "numeric", search_all_digits isdigit (lower text));
    (py "email", search_email (lower text));
    (py "url", startswith (py "http") (lower text)) ].

Definition text_type_patterns (lower : pystr -> pystr)
    (isword isdigit : N -> bool) (text : pystr) : list (pystr * bool) :=
  [ (py "login", search_phrases isword login_phrases None (lower text));
    (py "search", search_phrases isword search_phrases_list None (lower text));
    (py "submit", search_phrases isword submit_phrases None (lower text));
    (py "cancel", search_phrases isword cancel_phrases None (lower text));
    (py "numeric", search_all_digits isdigit text);
    (py "email", search_email text);
    (py "url", startswith (py "http") text) ].

(** The order of categories the specification gives for a list sorted by
    priority. *)
Definition category_order : list pystr :=
  [ py "cookie_consent"; py "terms_agreement"; py "submit"; py "navigation";
    py "search"; py "choice"; py "general"; py "cancel" ].

(** Position of a category in [category_order]. *)
Fixpoint position (category : pystr) (order : list pystr) : nat :=
  match order with
  | [] => O
  | c :: rest => if pystr_eqb category c then O else S (position category rest)
  end.

Definition category_rank (category : pystr) : nat :=
  position category category_order.


(** The button is one after which [process_all_buttons] leaves its loop. *)
Definition is_exit (b : ButtonInfo) : bool :=
  str_in (bi_category b) exit_categories.

Definition button_handle (b : ButtonInfo) : handle :=
  node_handle (bi_element b).

(** The buttons the orchestrator has clicked or tried to click, oldest
    first. *)
Definition clicks (h : history) : list handle :=
  rev (flat_map (fun e => match e with Click el => [el] | _ => [] end) h).

(** ** Scenarios *)

(** Number of [input_value()] calls made so far. *)
Definition reads_so_far (h : history) : nat :=
  List.length (filter (fun e => match e with InputValue _ => true | _ => false end) h).

(** Seconds slept so far. *)
Definition seconds_so_far (h : history) : nat :=
  list_sum (List.map (fun e => match e with Sleep s => s | _ => O end) h).

(** A browser whose successive [input_value()] calls answer the elements of
    [readings] in turn; once they are used up, and for everything else, it
    behaves as [B]. *)
Definition successive_reads (readings : list pystr) (B : Browser) : Browser :=
  {| input_value := fun h el =>
       match nth_error readings (reads_so_far h) with
       | Some v => Some v
       | None => input_value B h el
       end;
     click := click B;
     is_typing_in_progress := is_typing_in_progress B |}.

(** A browser whose field holds [samples[t]] during second [t] and keeps the
    last sample afterwards; for everything else it behaves as [B]. *)
Definition timed_reads (samples : list pystr) (B : Browser) : Browser :=
  {| input_value := fun h el =>
       Some (nth (Nat.min (seconds_so_far h) (List.length samples - 1)) samples []);
     click := click B;
     is_typing_in_progress := is_typing_in_progress B |}.

(** A browser where every read answers the empty string, every click
    returns and nobody is typing. *)
Definition quiet_browser : Browser :=
  {| input_value := fun _ _ => Some [];
     click := fun _ _ => None;
     is_typing_in_progress := fun _ => false |}.

(** A browser where every call raises. *)
Definition failing_browser : Browser :=
  {| input_value := fun _ _ => None;
     click := fun _ _ => Some (py "detached");
     is_typing_in_progress := fun _ => true |}.

(** The value stream of the TypingGuard property of section 8. *)
Definition spec_stream : list pystr :=
  [ []; []; []; py "a"; py "ab"; py "ab"; py "ab"; py "ab" ].

(** The same stream from its first non-empty value on. *)
Definition typed_stream : list pystr :=
  [ py "a"; py "ab"; py "ab"; py "ab"; py "ab" ].

Definition leaf (id : handle) (tag text : pystr) (attrs : list (pystr * pystr))
  : Node :=
  {| node_handle := id; node_tag := tag; node_text := text;
     node_attrs := attrs; node_visible := true; node_enabled := true;
     node_value := []; node_children := [] |}.

(** [<button class="btn accept-cookies">Accept All Cookies</button>] *)
Definition cookie_button : Element :=
  {| el_node := leaf 1 (py "button") (py "Accept All Cookies")
                  [(py "class", py "btn accept-cookies")];
     el_parent := None |}.

(** [<button type="submit">Send</button>] *)
Definition send_button : Element :=
  {| el_node := leaf 2 (py "button") (py "Send") [(py "type", py "submit")];
     el_parent := None |}.

(** [<button>Close</button>] *)
Definition close_button : Element :=
  {| el_node := leaf 3 (py "button") (py "Close") []; el_parent := None |}.

(** [<button>Share</button>] *)
Definition share_button : Element :=
  {| el_node := leaf 4 (py "button") (py "Share") []; el_parent := None |}.

(** [<button>Help</button>] *)
Definition help_button : Element :=
  {| el_node := leaf 5 (py "button") (py "Help") []; el_parent := None |}.

(** [<form><textarea></textarea><button type="submit">Send</button></form>] *)
Definition comment_box : Node := leaf 11 (py "textarea") [] [].

Definition comment_form : Node :=
  {| node_handle := 10; node_tag := py "form"; node_text := py "Send";
     node_attrs := []; node_visible := true; node_enabled := true;
     node_value := [];
     node_children :=
       [comment_box;
        leaf 12 (py "button") (py "Send") [(py "type", py "submit")]] |}.

Definition comment_send_button : Element :=
  {| el_node := leaf 12 (py "button") (py "Send") [(py "type", py "submit")];
     el_parent := Some comment_form |}.

Definition plain_tag (name : pystr) (parent : option Tag) : Tag :=
  {| tag_name := name; tag_attrs := []; tag_class := None; tag_text := [];
     tag_parent := parent |}.

(** The [a] of
    [<html><body><div><div><ul><li><a>x</a></li></ul></div></div></body></html>]. *)
Definition deep_link : Tag :=
  {| tag_name := py "a"; tag_attrs := []; tag_class := None;
     tag_text := py "x";
     tag_parent :=
       Some (plain_tag (py "li")
         (Some (plain_tag (py "ul")
           (Some (plain_tag (py "div")
             (Some (plain_tag (py "div")
               (Some (plain_tag (py "body")
                 (Some (plain_tag (py "html")
                   (Some (plain_tag (py "[document]") None))))))))))))) |}.

(** The [span] of [<div id="main"><p class="lead big"><span>x</span></p></div>]. *)
Definition main_div : Tag :=
  {| tag_name := py "div"; tag_attrs := [(py "id", py "main")];
     tag_class := None; tag_text := py "x";
     tag_parent := Some (plain_tag (py "body") None) |}.

Definition lead_paragraph : Tag :=
  {| tag_name := py "p"; tag_attrs := [];
     tag_class := Some [py "lead"; py "big"]; tag_text := py "x";
     tag_parent := Some main_div |}.

Definition inner_span : Tag :=
  {| tag_name := py "span"; tag_attrs := []; tag_class := None;
     tag_text := py "x"; tag_parent := Some lead_paragraph |}.

(** The same [a] in a document whose [html] element has [id="root"]. *)
Definition deep_link_rooted : Tag :=
  {| tag_name := py "a"; tag_attrs := []; tag_class := None;
     tag_text := py "x";
     tag_parent :=
       Some (plain_tag (py "li")
         (Some (plain_tag (py "ul")
           (Some (plain_tag (py "div")
             (Some (plain_tag (py "div")
               (Some (plain_tag (py "body")
                 (Some {| tag_name := py "html";
                          tag_attrs := [(py "id", py "root")];
                          tag_class := None; tag_text := py "x";
                          tag_parent :=
                            Some (plain_tag (py "[document]") None) |})))))))))) |}.

(** [<a>HTTP://EXAMPLE</a>] *)
Definition shouting_link : Tag :=
  {| tag_name := py "a"; tag_attrs := []; tag_class := None;
     tag_text := py "HTTP://EXAMPLE"; tag_parent := None |}.

(** ** Button discovery: [find_all_buttons] *)

(** The double quote character. *)
Definition dquote : pystr := [34%N].

(** [input[type="t"]] *)
Definition input_of_type (t : pystr) : pystr :=
  py "input[type=" ++ dquote ++ t ++ dquote ++ py "]".

(** [tag[role="button"]] *)
Definition role_button (tag : pystr) : pystr :=
  tag ++ py "[role=" ++ dquote ++ py "button" ++ dquote ++ py "]".

Definition button_selectors : list pystr :=
  [ py "button"; input_of_type (py "button"); input_of_type (py "submit");
    input_of_type (py "reset");
    role_button (py "a"); py "a[onclick]"; role_button (py "div");
    role_button (py "span");
    py "[onclick]"; py ".btn"; py ".button"; py ".click"; py ".submit";
    py ".send"; py ".next"; py ".continue"; py ".accept"; py ".agree";
    py ".confirm"; py ".ok"; py ".yes"; py ".no"; py ".cancel"; py ".close";
    py ".dismiss"; py ".skip" ].

(** What [page.query_selector_all(selector)] answers for each selector:
    the matching elements in document order, or [None] when the call
    raises. *)
Definition Page := pystr -> option (list Element).

(** [f"{element.tag_name}-{element.get_attribute('class')}-{element.inner_text()}"];
    an absent class is formatted as [None]. *)
Definition element_hash (e : Node) : pystr :=
  node_tag e ++ py "-"
  ++ match get_attribute (node_attrs e) (py "class") with
     | Some c => c
     | None => py "None"
     end
  ++ py "-" ++ node_text e.

(** The reads that build the hash. *)
Definition element_hash_reads : list read :=
  [ReadTagName; ReadAttribute (py "class"); ReadInnerText].

(** The [for element in elements] loop; [found_elements] is the set of
    hashes seen so far and [buttons] the list built so far.  The loop runs
    inside the [try] block of its selector: a read that raises ends it, and
    the elements that follow are not looked at.  An element whose hash is new
    has the hash recorded before [analyze_button] is called, and is appended
    only if [analyze_button] answers a record. *)
Fixpoint scan_elements (isspace : N -> bool) (lower : pystr -> pystr)
    (raises : Faults) (elements : list Element) (found_elements : list pystr)
    (buttons : list ButtonInfo) : list pystr * list ButtonInfo :=
  match elements with
  | [] => (found_elements, buttons)
  | element :: rest =>
      let e := el_node element in
      if raises e ReadVisible then (found_elements, buttons)
      else if node_visible e then
        if raises e ReadEnabled then (found_elements, buttons)
        else if node_enabled e then
          if existsb (raises e) element_hash_reads then (found_elements, buttons)
          else
            let hash := element_hash e in
            if str_in hash found_elements then
              scan_elements isspace lower raises rest found_elements buttons
            else
              match analyze_button isspace lower raises element with
              | Some button_info =>
                  scan_elements isspace lower raises rest
                    (hash :: found_elements) (buttons ++ [button_info])
              | None =>
                  scan_elements isspace lower raises rest
                    (hash :: found_elements) buttons
              end
        else scan_elements isspace lower raises rest found_elements buttons
      else scan_elements isspace lower raises rest found_elements buttons
  end.

(** One turn of the [for selector in button_selectors] loop: a query that
    raises leaves the state as it is. *)
Definition scan_selector (isspace : N -> bool) (lower : pystr -> pystr)
    (raises : Faults) (page : Page) (state : list pystr * list ButtonInfo)
    (selector : pystr) : list pystr * list ButtonInfo :=
  match page selector with
  | Some elements =>
      scan_elements isspace lower raises elements (fst state) (snd state)
  | None => state
  end.

Definition find_all_buttons (isspace : N -> bool) (lower : pystr -> pystr)
    (raises : Faults) (page : Page) : list ButtonInfo :=
  snd (fold_left (scan_selector isspace lower raises page) button_selectors
         ([], [])).

Definition button_hash (b : ButtonInfo) : pystr := element_hash (bi_element b).

(** ** The route [/click_specific_button] *)

(** A JSON answer of the service: [success], [message], and [category] and
    [button_text] when the answer has them. *)
Record Response : Type :=
  mkResponse {
    rs_success : bool;
    rs_message : pystr;
    rs_category : option pystr;
    rs_button_text : option pystr
  }.

Definition failure (message : pystr) : Response :=
  {| rs_success := false; rs_message := message;
     rs_category := None; rs_button_text := None |}.

(** [jsonify(result)] for a result of [smart_button_click]. *)
Definition response_of (result : ClickResult) : Response :=
  {| rs_success := cr_success result;
     rs_message := cr_message result;
     rs_category := Some (cr_category result);
     rs_button_text := cr_button_text result |}.

(** Truth value of [data.get(key)]: an absent key and an empty string are
    both false. *)
Definition given (value : option pystr) : bool :=
  match value with Some s => truthy s | None => false end.

Definition category_matches (button_category : option pystr)
    (button : ButtonInfo) : bool :=
  match button_category with
  | Some c => truthy c && pystr_eqb (bi_category button) c
  | None => false
  end.

Definition text_matches (lower : pystr -> pystr) (button_text : option pystr)
    (button : ButtonInfo) : bool :=
  match button_text with
  | Some t => truthy t && contains (lower t) (lower (bi_text button))
  | None => false
  end.

(** The [for button in buttons] loop that picks [target_button]. *)
Fixpoint find_target (lower : pystr -> pystr)
    (button_category button_text : option pystr) (buttons : list ButtonInfo)
  : option ButtonInfo :=
  match buttons with
  | [] => None
  | button :: rest =>
      if category_matches button_category button then Some button
      else if text_matches lower button_text button then Some button
      else find_target lower button_category button_text rest
  end.

(** [click_specific_button]: [url], [button_category] and [button_text] are
    the fields of the request, [connected] tells whether a session is open,
    [loaded] is what [navigate_to_url(url)] returned, [page] what the
    loaded page answers to queries and [raises] which reads of its elements
    raise. *)
Definition click_specific_button (isspace : N -> bool)
    (lower : pystr -> pystr) (raises : Faults) (B : Browser)
    (url button_category button_text : option pystr)
    (connected loaded : bool) (page : Page) (h : history)
  : Response * history :=
  if negb (given url) then (failure (py "Please provide page URL"), h)
  else if negb (given button_category) && negb (given button_text) then
    (failure (py "Please provide either button category or text"), h)
  else if negb connected then (failure (py "Please start session first"), h)
  else if negb loaded then (failure (py "Failed to load page"), h)
  else
    match find_target lower button_category button_text
            (find_all_buttons isspace lower raises page) with
    | None => (failure (py "Button not found"), h)
    | Some target_button =>
        let (result, h) := smart_button_click isspace B target_button h in
        (response_of result, h)
    end.

(** A page with two like "Add" buttons, a hidden button and a link. *)
Definition add_button (id : handle) : Element :=
  {| el_node := leaf id (py "button") (py "Add") [(py "class", py "btn")];
     el_parent := None |}.

Definition hidden_button : Element :=
  {| el_node :=
       {| node_handle := 23; node_tag := py "button"; node_text := py "Secret";
          node_attrs := []; node_visible := false; node_enabled := true;
          node_value := []; node_children := [] |};
     el_parent := None |}.

Definition shop_page : Page :=
  fun selector =>
    if pystr_eqb selector (py "button")
    then Some [add_button 21; add_button 22; hidden_button; send_button]
    else if pystr_eqb selector (py ".btn")
    then Some [add_button 21; add_button 22]
    else if pystr_eqb selector (py "[onclick]") then None
    else Some [].

(** The record was built by [analyze_button] from a visible, enabled
    element that the page returned for one of the selectors. *)
Definition from_page (isspace : N -> bool) (lower : pystr -> pystr)
    (raises : Faults) (page : Page) (b : ButtonInfo) : Prop :=
  exists selector elements element,
    In selector button_selectors
    /\ page selector = Some elements
    /\ In element elements
    /\ node_visible (el_node element) = true
    /\ node_enabled (el_node element) = true
    /\ analyze_button isspace lower raises element = Some b.

(** The last thing [wait_for_typing_completion] did was to report that
    typing is complete. *)
Definition reports_complete (h : history) : bool :=
  match h with
  | Print MsgTypingComplete :: _ => true
  | _ => false
  end.

(** The last [n] events of the history are [n] polls of [el], one second
    apart, that all answered [v]. *)
Fixpoint polls_agree (B : Browser) (el : handle) (v : pystr) (n : nat)
    (h : history) : Prop :=
  match n with
  | O => True
  | S n' =>
      match h with
      | InputValue e :: Sleep 1 :: h' =>
          e = el
          /\ input_value B (Sleep 1 :: h') el = Some v
          /\ polls_agree B el v n' h'
      | _ => False
      end
  end.

(** A browser whose field changes at every read and then raises. *)
Definition restless_browser : Browser :=
  successive_reads [py "a"; py "b"; py "c"; py "d"] failing_browser.

(** A cookie banner inside a form that also holds an empty text field:
    [<form><input type="text"><button>Accept cookies</button></form>]. *)
Definition banner_form : Node :=
  {| node_handle := 30; node_tag := py "form"; node_text := py "Accept cookies";
     node_attrs := []; node_visible := true; node_enabled := true;
     node_value := [];
     node_children :=
       [leaf 31 (py "input") [] [(py "type", py "text")];
        leaf 32 (py "button") (py "Accept cookies") []] |}.

Definition banner_button : Element :=
  {| el_node := leaf 32 (py "button") (py "Accept cookies") [];
     el_parent := Some banner_form |}.

(** The categories for which [smart_button_click] never runs the typing
    guard. *)
Definition unguarded_categories : list pystr :=
  [ py "cookie_consent"; py "terms_agreement"; py "choice"; py "cancel";
    py "general" ].

(** The patterns of [later] that contain a pattern of [earlier]. *)
Definition shadowed_by (earlier later : list pystr) : list pystr :=
  filter (fun p => existsb (fun q => contains q p) earlier) later.

(** ** ElementClassifier: [categorize_element_advanced] *)

(** A value stored in a result dictionary. *)
Inductive pyvalue : Type :=
| VStr (s : pystr)
| VInt (n : Z).

(** A dictionary with string keys, as the list of its items. *)
Definition pydict := list (pystr * pyvalue).

(** [d.get(key)] *)
Fixpoint dict_get {V : Type} (d : list (pystr * V)) (key : pystr) : option V :=
  match d with
  | [] => None
  | (k, v) :: rest => if pystr_eqb k key then Some v else dict_get rest key
  end.

(** [d.get(key, default)] *)
Definition dict_get_or {V : Type} (d : list (pystr * V)) (key : pystr)
    (default : V) : V :=
  match dict_get d key with Some v => v | None => default end.

Definition MEDIA_TAGS : list pystr :=
  [ py "img"; py "video"; py "audio"; py "source"; py "picture"; py "iframe";
    py "embed"; py "object" ].

Definition INTERACTIVE_TAGS : list pystr :=
  [ py "a"; py "button"; py "input"; py "select"; py "textarea"; py "form";
    py "details"; py "summary" ].

Definition TEXT_TAGS : list pystr :=
  [ py "p"; py "h1"; py "h2"; py "h3"; py "h4"; py "h5"; py "h6"; py "li";
    py "blockquote"; py "span"; py "div"; py "article"; py "section" ].

Definition NAVIGATION_TAGS : list pystr := [ py "nav"; py "menu"; py "menuitem" ].

Definition LIST_TAGS : list pystr := [ py "ul"; py "ol"; py "dl" ].

Definition HEADING_TAGS : list pystr :=
  [ py "h1"; py "h2"; py "h3"; py "h4"; py "h5"; py "h6" ].

(** [self.INPUT_TYPES] *)
Definition INPUT_TYPES : list (pystr * pystr) :=
  [ (py "text", [1606; 1589]%N);
    (py "email",
     [1576; 1585; 1610; 1583; 32; 1573; 1604; 1603; 1578; 1585; 1608; 1606;
      1610]%N);
    (py "password", [1603; 1604; 1605; 1577; 32; 1605; 1585; 1608; 1585]%N);
    (py "number", [1585; 1602; 1605]%N);
    (py "tel", [1607; 1575; 1578; 1601]%N);
    (py "url", [1585; 1575; 1576; 1591]%N);
    (py "search", [1576; 1581; 1579]%N);
    (py "date", [1578; 1575; 1585; 1610; 1582]%N);
    (py "time", [1608; 1602; 1578]%N);
    (py "checkbox",
     [1605; 1585; 1576; 1593; 32; 1575; 1582; 1578; 1610; 1575; 1585]%N);
    (py "radio",
     [1575; 1582; 1578; 1610; 1575; 1585; 32; 1608; 1575; 1581; 1583]%N);
    (py "file", [1605; 1604; 1601]%N);
    (py "submit", [1573; 1585; 1587; 1575; 1604]%N);
    (py "reset",
     [1573; 1593; 1575; 1583; 1577; 32; 1578; 1593; 1610; 1610; 1606]%N);
    (py "button", [1586; 1585]%N) ].

(** [element.has_attr(name)] for a single-valued attribute. *)
Definition has_attr (element : Tag) (name : pystr) : bool :=
  match get_attribute (tag_attrs element) name with
  | Some _ => true
  | None => false
  end.

(** The [if]/[elif] chain on [href] that sets [link_type]. *)
Definition link_type_of (href : pystr) : pystr :=
  if startswith (py "#") href then py "internal_anchor"
  else if startswith (py "mailto:") href then py "email"
  else if startswith (py "tel:") href then py "phone"
  else if contains (py "javascript:") href then py "javascript"
  else if contains (py "http") href then py "external"
  else py "internal".

(** [int(tag_name[1])]; the source applies it to [h1] .. [h6] only. *)
Definition heading_level_of (tag_name : pystr) : Z :=
  match tag_name with
  | _ :: digit :: _ => (Z.of_N digit - 48)%Z
  | _ => 0%Z
  end.

(** [categorize_element_advanced]; [descendants] is the list of the tags
    below [element], which [element.find_all('li')] searches. *)
Definition categorize_element_advanced (lower : pystr -> pystr)
    (element : Tag) (descendants : list Tag) : pydict :=
  let tag := lower (tag_name element) in
  if str_in tag MEDIA_TAGS then
    [ (py "primary_type", VStr (py "media"));
      (py "media_subtype", VStr tag) ]
    ++ match get_attribute (tag_attrs element) (py "src") with
       | Some src => [ (py "source_url", VStr src) ]
       | None => []
       end
  else if str_in tag INTERACTIVE_TAGS || has_attr element (py "onclick")
  then
    [ (py "primary_type", VStr (py "interactive"));
      (py "interactive_subtype", VStr tag) ]
    ++ (if pystr_eqb tag (py "input") then
          let input_type :=
            match get_attribute (tag_attrs element) (py "type") with
            | Some t => t
            | None => py "text"
            end in
          [ (py "input_type", VStr input_type);
            (py "input_type_ar",
             VStr (dict_get_or INPUT_TYPES input_type input_type)) ]
        else if pystr_eqb tag (py "a") then
          match get_attribute (tag_attrs element) (py "href") with
          | Some href =>
              [ (py "link_url", VStr href);
                (py "link_type", VStr (link_type_of href)) ]
          | None => []
          end
        else [])
  else if str_in tag TEXT_TAGS then
    [ (py "primary_type", VStr (py "text"));
      (py "text_subtype", VStr tag) ]
    ++ (if str_in tag HEADING_TAGS then
          [ (py "heading_level", VInt (heading_level_of tag));
            (py "importance", VStr (py "high")) ]
        else if pystr_eqb tag (py "p") then
          [ (py "importance", VStr (py "medium")) ]
        else [ (py "importance", VStr (py "low")) ])
  else if str_in tag NAVIGATION_TAGS then
    [ (py "primary_type", VStr (py "navigation"));
      (py "nav_subtype", VStr tag) ]
  else if str_in tag LIST_TAGS then
    [ (py "primary_type", VStr (py "list"));
      (py "list_subtype", VStr tag);
      (py "list_items_count",
       VInt (Z.of_nat
               (List.length
                  (filter (fun t => pystr_eqb (tag_name t) (py "li"))
                          descendants)))) ]
  else
    [ (py "primary_type", VStr (py "container"));
      (py "container_subtype", VStr tag) ].

(** [category.get('primary_type', 'unknown')] *)
Definition primary_type_of (category : pydict) : pyvalue :=
  dict_get_or category (py "primary_type") (VStr (py "unknown")).

(** The fields [category], [subcategory] and [importance] of a row of
    [csv_data]. *)
Definition csv_subcategory (category : pydict) : pyvalue :=
  match primary_type_of category with
  | VStr primary_type =>
      dict_get_or category (primary_type ++ py "_subtype") (VStr [])
  | VInt _ => VStr []
  end.

Definition csv_importance (category : pydict) : pyvalue :=
  dict_get_or category (py "importance") (VStr (py "normal")).

(** [a or b] on optional strings. *)
Definition or_else (a b : option pystr) : option pystr :=
  match a with
  | Some s => if truthy s then a else b
  | None => b
  end.

(** The field [primary_selector] of a row of [csv_data]:
    [selectors.get('id_selector') or selectors.get('class_selector') or
    selectors.get('tag_selector')]. *)
Definition primary_selector (selectors : Selectors) : option pystr :=
  or_else (or_else (sel_id_selector selectors) (sel_class_selector selectors))
          (Some (sel_tag_selector selectors)).

(** [<h2 onclick="toggle()">News</h2>] *)
Definition clickable_heading : Tag :=
  {| tag_name := py "h2"; tag_attrs := [(py "onclick", py "toggle()")];
     tag_class := None; tag_text := py "News"; tag_parent := None |}.

(** [<nav>...</nav>] *)
Definition nav_bar : Tag := plain_tag (py "nav") None.

(** [<input type="color">] *)
Definition color_input : Tag :=
  {| tag_name := py "input"; tag_attrs := [(py "type", py "color")];
     tag_class := None; tag_text := []; tag_parent := None |}.

(** ** Page structure and element statistics: [extract_page_structure] and
    the element loop of [analyze_page_content] *)

Definition pyvalue_eqb (a b : pyvalue) : bool :=
  match a, b with
  | VStr x, VStr y => pystr_eqb x y
  | VInt x, VInt y => Z.eqb x y
  | _, _ => false
  end.

(** A [defaultdict(int)], as the list of its items. *)
Definition counter := list (pyvalue * Z).

(** [d[key]], without inserting the key. *)
Fixpoint counter_get (d : counter) (key : pyvalue) : Z :=
  match d with
  | [] => 0%Z
  | (k, v) :: rest => if pyvalue_eqb k key then v else counter_get rest key
  end.

(** [d[key] += 1] *)
Fixpoint counter_incr (d : counter) (key : pyvalue) : counter :=
  match d with
  | [] => [(key, 1%Z)]
  | (k, v) :: rest =>
      if pyvalue_eqb k key then (k, (v + 1)%Z) :: rest
      else (k, v) :: counter_incr rest key
  end.

(** [sum(d.values())] *)
Definition counter_total (d : counter) : Z :=
  fold_right (fun kv acc => (snd kv + acc)%Z) 0%Z d.

(** A document as the analyzer walks it: the tags of [soup.find_all(True)]
    in document order, each with the tags below it. *)
Definition Document := list (Tag * list Tag).

(** [len(soup.find_all(name))] *)
Definition count_tags (doc : Document) (name : pystr) : Z :=
  Z.of_nat
    (List.length (filter (fun e => pystr_eqb (tag_name (fst e)) name) doc)).

(** The dictionary returned by [extract_page_structure]. *)
Record PageStructure : Type :=
  mkPageStructure {
    ps_page_title : option pystr;
    ps_meta_description : option pystr;
    ps_sections : list (pystr * Z);
    ps_forms_count : Z;
    ps_tables_count : Z;
    ps_images_count : Z;
    ps_links_count : Z;
    ps_headings_hierarchy : list (pystr * Z)
  }.

Definition main_sections : list pystr :=
  [ py "header"; py "nav"; py "main"; py "aside"; py "footer"; py "section";
    py "article" ].

(** [extract_page_structure]; [title_string] is what
    [soup.title.string if soup.title else None] evaluates to. *)
Definition extract_page_structure (doc : Document)
    (title_string : option pystr) : PageStructure :=
  let meta_desc :=
    find (fun e =>
            pystr_eqb (tag_name (fst e)) (py "meta")
            && match get_attribute (tag_attrs (fst e)) (py "name") with
               | Some v => pystr_eqb v (py "description")
               | None => false
               end) doc in
  {| ps_page_title := title_string;
     ps_meta_description :=
       match meta_desc with
       | Some e => get_attribute (tag_attrs (fst e)) (py "content")
       | None => None
       end;
     ps_sections :=
       List.map (fun section => (section, count_tags doc section)) main_sections;
     ps_forms_count := count_tags doc (py "form");
     ps_tables_count := count_tags doc (py "table");
     ps_images_count := count_tags doc (py "img");
     ps_links_count := count_tags doc (py "a");
     ps_headings_hierarchy :=
       List.map (fun i => (py "h" ++ str_of_int i, count_tags doc (py "h" ++ str_of_int i)))
                [1; 2; 3; 4; 5; 6]%Z |}.

(** [summary_stats] *)
Record SummaryStats : Type :=
  mkSummaryStats {
    st_total_elements : Z;
    st_by_category : counter;
    st_interactive_elements : Z;
    st_media_elements : Z;
    st_text_elements : Z;
    st_high_priority_elements : Z
  }.

Definition option_pystr_eqb (a : option pystr) (b : pystr) : bool :=
  match a with Some x => pystr_eqb x b | None => false end.

(** What one turn of the element loop does to [summary_stats]. *)
Definition update_stats (lower : pystr -> pystr) (stats : SummaryStats)
    (entry : Tag * list Tag) : SummaryStats :=
  let selectors := generate_advanced_selector (fst entry) in
  let category := categorize_element_advanced lower (fst entry) (snd entry) in
  let primary_type := primary_type_of category in
  let of_type (name : pystr) := pyvalue_eqb primary_type (VStr name) in
  {| st_total_elements := st_total_elements stats;
     st_by_category := counter_incr (st_by_category stats) primary_type;
     st_interactive_elements :=
       if of_type (py "interactive") then (st_interactive_elements stats + 1)%Z
       else st_interactive_elements stats;
     st_media_elements :=
       if of_type (py "interactive") then st_media_elements stats
       else if of_type (py "media") then (st_media_elements stats + 1)%Z
       else st_media_elements stats;
     st_text_elements :=
       if of_type (py "interactive") then st_text_elements stats
       else if of_type (py "media") then st_text_elements stats
       else if of_type (py "text") then (st_text_elements stats + 1)%Z
       else st_text_elements stats;
     st_high_priority_elements :=
       if option_pystr_eqb (sel_priority selectors) (py "high")
       then (st_high_priority_elements stats + 1)%Z
       else st_high_priority_elements stats |}.

(** [summary_stats] at the end of the element loop. *)
Definition summarize_elements (lower : pystr -> pystr) (doc : Document)
  : SummaryStats :=
  fold_left (update_stats lower) doc
    {| st_total_elements := Z.of_nat (List.length doc);
       st_by_category := [];
       st_interactive_elements := 0%Z;
       st_media_elements := 0%Z;
       st_text_elements := 0%Z;
       st_high_priority_elements := 0%Z |}.

(** The number of elements of the document that satisfy [p]. *)
Definition count_where (p : Tag * list Tag -> bool) (doc : Document) : Z :=
  Z.of_nat (List.length (filter p doc)).

(** A page with the headings h1, h2, h2, h3, a paragraph and an image. *)
Definition headings_page : Document :=
  List.map (fun t => (t, @nil Tag))
    [ plain_tag (py "h1") None; plain_tag (py "h2") None;
      plain_tag (py "p") None; plain_tag (py "h2") None;
      main_div; plain_tag (py "h3") None; plain_tag (py "img") None ].

(** [sum(d.values())] for a dictionary of counts. *)
Definition dict_total (d : list (pystr * Z)) : Z :=
  fold_right (fun kv acc => (snd kv + acc)%Z) 0%Z d.

(** The tag is a heading. *)
Definition is_heading (e : Tag * list Tag) : bool :=
  str_in (tag_name (fst e)) HEADING_TAGS.

(** The importance written to the row of the element is high. *)
Definition is_high (lower : pystr -> pystr) (e : Tag * list Tag) : bool :=
  pyvalue_eqb
    (csv_importance (categorize_element_advanced lower (fst e) (snd e)))
    (VStr (py "high")).

(** ** Form fields: [FormFiller.get_field_info] and
    [FormFiller.interactive_fill_form] of [playwright_form_filler.py] *)

(** The dictionary returned by [get_field_info]. *)
Record FieldInfo : Type :=
  mkFieldInfo {
    fi_element : Node;
    fi_type : pystr;
    fi_display_name : pystr;
    fi_placeholder : pystr;
    fi_name : pystr;
    fi_id : pystr;
    fi_class : pystr;
    fi_input_type : pystr
  }.

(** The [if]/[elif] chain of [get_field_info]: field type and display
    name.  [tag_name] is what reading [element.tag_name] gives, [None] when
    the read raises; the chain reads it in the test for a text area, and
    only when [selector] is not ['textarea'].  The answer is [None] when the
    chain raises. *)
Definition field_type_of (lower : pystr -> pystr)
    (input_type placeholder name field_class selector : pystr)
    (tag_name : option pystr) : option (pystr * pystr) :=
  if contains (py "search") (lower input_type)
     || contains (py "search") (lower placeholder)
     || contains (py "search") (lower name)
     || contains (py "search") (lower field_class)
  then Some (py "search", py "Search Box")
  else if pystr_eqb input_type (py "email")
          || contains (py "email") (lower placeholder)
          || contains (py "mail") (lower name)
          || contains (py "email") (lower field_class)
  then Some (py "email", py "Email Input")
  else if pystr_eqb input_type (py "password")
          || contains (py "password") (lower placeholder)
          || contains (py "pass") (lower name)
          || contains (py "password") (lower field_class)
  then Some (py "password", py "Password Input")
  else if pystr_eqb input_type (py "url")
          || contains (py "url") (lower placeholder)
          || contains (py "website") (lower placeholder)
  then Some (py "url", py "URL Input")
  else
    match (if pystr_eqb selector (py "textarea") then Some true
           else
             match tag_name with
             | Some t => Some (pystr_eqb (lower t) (py "textarea"))
             | None => None
             end) with
    | None => None
    | Some true =>
        Some (py "textarea",
              if contains (py "comment") (lower placeholder)
                 || contains (py "comment") (lower name)
              then py "Comments Box"
              else if contains (py "message") (lower placeholder)
                      || contains (py "message") (lower name)
              then py "Message Box"
              else if contains (py "description") (lower placeholder)
                      || contains (py "description") (lower name)
              then py "Description Box"
              else py "Text Area")
    | Some false =>
        Some
          (if pystr_eqb input_type (py "tel")
              || contains (py "phone") (lower placeholder)
              || contains (py "tel") (lower name)
           then (py "phone", py "Phone Number Input")
           else if pystr_eqb input_type (py "number")
                   || contains (py "number") (lower placeholder)
           then (py "number", py "Number Input")
           else if pystr_eqb input_type (py "date") then (py "date", py "Date Input")
           else if pystr_eqb input_type (py "time") then (py "time", py "Time Input")
           else if contains (py "name") (lower placeholder)
                   || contains (py "name") (lower name)
           then (py "name", py "Name Input")
           else if contains (py "username") (lower placeholder)
                   || contains (py "username") (lower name)
                   || contains (py "user") (lower name)
           then (py "username", py "Username Input")
           else if contains (py "address") (lower placeholder)
                   || contains (py "address") (lower name)
           then (py "address", py "Address Input")
           else if contains (py "age") (lower placeholder)
                   || contains (py "age") (lower name)
           then (py "age", py "Age Input")
           else if contains (py "title") (lower placeholder)
                   || contains (py "title") (lower name)
           then (py "title", py "Title Input")
           else (py "text", py "Text Input"))
    end.

(** The attributes [get_field_info] reads before the chain. *)
Definition get_field_info_reads : list read :=
  [ReadAttribute (py "placeholder"); ReadAttribute (py "name");
   ReadAttribute (py "id"); ReadAttribute (py "class");
   ReadAttribute (py "type")].

(** [get_field_info]: the whole body is inside
    [try: ... except Exception as e: ... return None]. *)
Definition get_field_info (lower : pystr -> pystr) (raises : Faults)
    (element : Node) (selector : pystr) : option FieldInfo :=
  if existsb (raises element) get_field_info_reads then None
  else
    let placeholder := attr_or element (py "placeholder") [] in
    let name := attr_or element (py "name") [] in
    let field_id := attr_or element (py "id") [] in
    let field_class := attr_or element (py "class") [] in
    let input_type := attr_or element (py "type") (py "text") in
    match field_type_of lower input_type placeholder name field_class selector
            (if raises element ReadTagName then None
             else Some (node_tag element)) with
    | Some r =>
        Some {| fi_element := element;
                fi_type := fst r;
                fi_display_name := snd r;
                fi_placeholder := placeholder;
                fi_name := name;
                fi_id := field_id;
                fi_class := field_class;
                fi_input_type := input_type |}
    | None => None
    end.

(** The field types that the chain gives after its test for a text area. *)
Definition types_after_textarea : list pystr :=
  [ py "phone"; py "number"; py "date"; py "time"; py "name"; py "username";
    py "address"; py "age"; py "title"; py "text" ].

(** The field types and the display names that go with them. *)
Definition field_table : list (pystr * pystr) :=
  [ (py "search", py "Search Box"); (py "email", py "Email Input");
    (py "password", py "Password Input"); (py "url", py "URL Input");
    (py "textarea", py "Comments Box"); (py "textarea", py "Message Box");
    (py "textarea", py "Description Box"); (py "textarea", py "Text Area");
    (py "phone", py "Phone Number Input"); (py "number", py "Number Input");
    (py "date", py "Date Input"); (py "time", py "Time Input");
    (py "name", py "Name Input"); (py "username", py "Username Input");
    (py "address", py "Address Input"); (py "age", py "Age Input");
    (py "title", py "Title Input"); (py "text", py "Text Input") ].

(** The dictionary returned by [interactive_fill_form]; the three counts are
    the entries of [stats], present in a success. *)
Record FillReport : Type :=
  mkFillReport {
    fr_success : bool;
    fr_message : pystr;
    fr_total_fields : option Z;
    fr_filled_fields : option Z;
    fr_skipped_fields : option Z
  }.

(** The [for i, field in enumerate(input_fields, 1)] loop: [answers i] is
    the line the user types at the prompt for field [i], and [fill_ok i]
    tells whether [fill_field] then succeeds. *)
Fixpoint fill_loop (isspace : N -> bool) (answers : nat -> pystr)
    (fill_ok : nat -> bool) (input_fields : list FieldInfo) (i : nat)
    (filled_fields skipped_fields : Z) : Z * Z :=
  match input_fields with
  | [] => (filled_fields, skipped_fields)
  | field :: rest =>
      let user_input := strip isspace (answers i) in
      if truthy user_input then
        if fill_ok i then
          fill_loop isspace answers fill_ok rest (S i)
            (filled_fields + 1)%Z skipped_fields
        else
          fill_loop isspace answers fill_ok rest (S i)
            filled_fields skipped_fields
      else
        fill_loop isspace answers fill_ok rest (S i)
          filled_fields (skipped_fields + 1)%Z
  end.

(** [interactive_fill_form]: [loaded] is what [navigate_to_url(url)]
    returned and [input_fields] what [find_input_fields()] returned.  The
    console output and the half-second pause after a field is filled are
    not recorded. *)
Definition interactive_fill_form (isspace : N -> bool)
    (answers : nat -> pystr) (fill_ok : nat -> bool) (loaded : bool)
    (input_fields : list FieldInfo) : FillReport :=
  if negb loaded then
    {| fr_success := false; fr_message := py "Failed to load page";
       fr_total_fields := None; fr_filled_fields := None;
       fr_skipped_fields := None |}
  else
    match input_fields with
    | [] =>
        {| fr_success := false; fr_message := py "No input fields found";
           fr_total_fields := None; fr_filled_fields := None;
           fr_skipped_fields := None |}
    | _ :: _ =>
        let (filled_fields, skipped_fields) :=
          fill_loop isspace answers fill_ok input_fields 1 0%Z 0%Z in
        {| fr_success := true; fr_message := py "Form filling completed";
           fr_total_fields := Some (Z.of_nat (List.length input_fields));
           fr_filled_fields := Some filled_fields;
           fr_skipped_fields := Some skipped_fields |}
    end.

(** The prompts [from], [from + 1], ..., [from + n - 1]. *)
Definition prompts (from n : nat) : list nat := seq from n.

(** The user left the prompt [i] empty. *)
Definition left_blank (isspace : N -> bool) (answers : nat -> pystr)
    (i : nat) : bool :=
  negb (truthy (strip isspace (answers i))).

(** [<input placeholder="Username">] and [<input name="user_id">] *)
Definition username_box : Node :=
  leaf 41 (py "input") [] [(py "placeholder", py "Username")].

Definition user_id_box : Node :=
  leaf 42 (py "input") [] [(py "name", py "user_id")].

(** A browser whose fields always hold [v]; every click returns and nobody
    is typing. *)
Definition steady_browser (v : pystr) : Browser :=
  {| input_value := fun _ _ => Some v;
     click := fun _ _ => None;
     is_typing_in_progress := fun _ => false |}.

(** * Properties *)

(** ** Facts about strings *)

Lemma pystr_eqb_eq (a b : pystr) : pystr_eqb a b = true <-> a = b.
Proof.
  revert b; induction a as [|x a IH]; intros [|y b]; simpl; split;
    try congruence; try reflexivity.
  - rewrite andb_true_iff, N.eqb_eq, IH. intros [-> ->]; reflexivity.
  - intros H; injection H as -> ->. rewrite N.eqb_refl.
    apply IH; reflexivity.
Qed.

Lemma pystr_eqb_refl (a : pystr) : pystr_eqb a a = true.
Proof. apply pystr_eqb_eq; reflexivity. Qed.

Lemma first_pattern_in_none (patterns : list pystr) (ct : pystr) :
  first_pattern_in patterns ct = None <-> matches_any patterns ct = false.
Proof.
  unfold first_pattern_in, matches_any.
  induction patterns as [|p ps IH]; simpl; [tauto|].
  destruct (contains p ct); simpl; [split; discriminate | exact IH].
Qed.

Lemma first_pattern_in_some (patterns : list pystr) (ct : pystr) :
  matches_any patterns ct = true ->
  exists pattern, first_pattern_in patterns ct = Some pattern.
Proof.
  intros H. destruct (first_pattern_in patterns ct) as [p|] eqn:E.
  - exists p; reflexivity.
  - apply first_pattern_in_none in E. congruence.
Qed.

(** ** Theorems: ButtonPrioritizer *)

(** C1: [categorize_button] is the first-match-wins scan of the table in the
    order cookie_consent, terms_agreement, submit, navigation, search, choice,
    cancel; and a combined text holding both a cookie-consent keyword and a
    cancel keyword is categorized cookie_consent with priority 10. *)
Theorem categorize_button_first_match :
  forall combined_text type_attr tag_name : pystr,
    (category_of (categorize_button combined_text type_attr tag_name),
     priority_of (categorize_button combined_text type_attr tag_name))
      = first_match category_table combined_text type_attr tag_name
    /\ (matches_any cookie_patterns combined_text = true ->
        matches_any cancel_patterns combined_text = true ->
        category_of (categorize_button combined_text type_attr tag_name)
          = py "cookie_consent"
        /\ priority_of (categorize_button combined_text type_attr tag_name)
          = 10%Z).
Proof.
  intros ct ty tg. split.
  - unfold categorize_button, category_table, first_match.
    repeat match goal with
    | |- context [first_pattern_in ?ps ct] =>
        let E := fresh "E" in
        destruct (first_pattern_in ps ct) eqn:E;
        [ assert (matches_any ps ct = true) as ->
            by (destruct (matches_any ps ct) eqn:M; [reflexivity|];
                apply first_pattern_in_none in M; congruence);
          reflexivity
        | apply first_pattern_in_none in E; rewrite E ]
    | |- context [is_form_submit ct ty tg] =>
        destruct (is_form_submit ct ty tg); [reflexivity|]
    end.
    reflexivity.
  - intros Hcookie _.
    destruct (first_pattern_in_some _ _ Hcookie) as [p Hp].
    unfold categorize_button. rewrite Hp. split; reflexivity.
Qed.

Lemma categorize_button_first_match_witness :
  category_of (categorize_button (py "accept cookies or close") [] (py "a"))
    = py "cookie_consent"
  /\ priority_of (categorize_button (py "accept cookies or close") [] (py "a"))
    = 10%Z.
Proof.
  apply (categorize_button_first_match (py "accept cookies or close") []
           (py "a")); reflexivity.
Defined.

(** Every row of the priority table is the answer to some input. *)
Lemma categorize_button_attains_every_row :
  Forall (fun row =>
            exists ct ty tg,
              (category_of (categorize_button ct ty tg),
               priority_of (categorize_button ct ty tg)) = row)
         priority_table.
Proof.
  unfold priority_table.
  repeat constructor.
  - exists (py "cookie"), [], []; reflexivity.
  - exists (py "terms"), [], []; reflexivity.
  - exists [], (py "submit"), []; reflexivity.
  - exists (py "next"), [], []; reflexivity.
  - exists (py "find"), [], []; reflexivity.
  - exists (py "yes"), [], []; reflexivity.
  - exists (py "skip"), [], []; reflexivity.
  - exists [], [], []; reflexivity.
Qed.

(** The category and priority of an answer of [categorize_button] form a
    row of the priority table. *)
Lemma categorize_button_row (ct ty tg : pystr) :
  In (category_of (categorize_button ct ty tg),
      priority_of (categorize_button ct ty tg)) priority_table.
Proof.
  unfold categorize_button.
  repeat match goal with
  | |- context [first_pattern_in ?ps ct] => destruct (first_pattern_in ps ct)
  | |- context [is_form_submit ct ty tg] => destruct (is_form_submit ct ty tg)
  end;
  unfold category_of, priority_of, priority_table; simpl fst; simpl snd;
  simpl In; tauto.
Qed.

Lemma priority_table_lookup (c : pystr) (p : Z) :
  In (c, p) priority_table ->
  priority_for priority_table c = Some p /\ (2 <= p <= 10)%Z.
Proof.
  unfold priority_table. simpl In. intros H.
  repeat (destruct H as [H|H]; [injection H as <- <-; split; [reflexivity|lia]|]).
  contradiction.
Qed.

(** C2: [categorize_button] answers on every input, and its category and
    priority are one of the eight rows (cookie_consent, 10),
    (terms_agreement, 9), (submit, 8), (navigation, 7), (search, 6),
    (choice, 5), (cancel, 2), (general, 3); the priority is the one the table
    gives for the category, and lies between 2 and 10. *)
Theorem categorize_button_priority_table :
  forall combined_text type_attr tag_name : pystr,
    let r := categorize_button combined_text type_attr tag_name in
    In (category_of r, priority_of r) priority_table
    /\ priority_for priority_table (category_of r) = Some (priority_of r)
    /\ (2 <= priority_of r <= 10)%Z.
Proof.
  intros ct ty tg r. subst r.
  split; [apply categorize_button_row|].
  apply priority_table_lookup, categorize_button_row.
Qed.

Lemma startswith_app (a b s : pystr) :
  startswith (a ++ b) s = true -> startswith a s = true.
Proof.
  revert s; induction a as [|x a IH]; intros s H; [reflexivity|].
  destruct s as [|y s]; simpl in *; [discriminate|].
  apply andb_true_iff in H as [-> H]. simpl. exact (IH _ H).
Qed.

Lemma contains_app (a b s : pystr) :
  contains (a ++ b) s = true -> contains a s = true.
Proof.
  induction s as [|y s IH]; simpl; intros H.
  - rewrite orb_false_r in *. exact (startswith_app _ _ _ H).
  - apply orb_true_iff in H as [H|H]; apply orb_true_iff.
    + left. exact (startswith_app _ _ _ H).
    + right. exact (IH H).
Qed.

Lemma matches_any_intro (patterns : list pystr) (p ct : pystr) :
  In p patterns -> contains p ct = true -> matches_any patterns ct = true.
Proof.
  intros Hin Hc. unfold matches_any. apply existsb_exists.
  exists p; split; assumption.
Qed.

(** C9: a combined text that contains "not now" and sets off none of the
    cookie, terms, submit, navigation and search rows matches the cancel
    keywords, yet is categorized choice with priority 5: it contains the
    choice keyword "no", and the choice keywords are tried first. *)
Theorem not_now_is_choice :
  forall combined_text type_attr tag_name : pystr,
    contains (py "not now") combined_text = true ->
    matches_any cookie_patterns combined_text = false ->
    matches_any terms_patterns combined_text = false ->
    is_form_submit combined_text type_attr tag_name = false ->
    matches_any navigation_patterns combined_text = false ->
    matches_any search_patterns combined_text = false ->
    matches_any cancel_patterns combined_text = true
    /\ category_of (categorize_button combined_text type_attr tag_name)
       = py "choice"
    /\ priority_of (categorize_button combined_text type_attr tag_name) = 5%Z.
Proof.
  intros ct ty tg Hnn Hc Ht Hs Hn Hse.
  split; [apply (matches_any_intro _ (py "not now")); [simpl; tauto | exact Hnn]|].
  assert (Hno : contains (py "no") ct = true)
    by (apply (contains_app (py "no") (py "t now")); exact Hnn).
  assert (Hch : matches_any choice_patterns ct = true)
    by (apply (matches_any_intro _ (py "no")); [simpl; tauto | exact Hno]).
  destruct (first_pattern_in_some _ _ Hch) as [p Hp].
  unfold categorize_button.
  apply first_pattern_in_none in Hc, Ht, Hn, Hse.
  rewrite Hc, Ht, Hs, Hn, Hse, Hp. split; reflexivity.
Qed.

Lemma not_now_is_choice_witness :
  matches_any cancel_patterns (py "not now") = true
  /\ category_of (categorize_button (py "not now") [] (py "button")) = py "choice"
  /\ priority_of (categorize_button (py "not now") [] (py "button")) = 5%Z.
Proof.
  apply (not_now_is_choice (py "not now") [] (py "button")); reflexivity.
Defined.

(** ** Sorting *)

Section Sorting.

Context {A : Type} (key : A -> Z).

Lemma insert_desc_perm (x : A) (l : list A) :
  Permutation (x :: l) (insert_desc key x l).
Proof.
  induction l as [|y l IH]; simpl; [reflexivity|].
  destruct (key x <? key y)%Z; [|reflexivity].
  rewrite perm_swap. apply perm_skip. exact IH.
Qed.

Lemma sort_reverse_perm (l : list A) : Permutation l (sort_reverse key l).
Proof.
  induction l as [|x l IH]; simpl; [constructor|].
  rewrite <- insert_desc_perm. apply perm_skip. exact IH.
Qed.

Lemma insert_desc_hd (x a : A) (l : list A) :
  (descending key) a x -> HdRel (descending key) a l ->
  HdRel (descending key) a (insert_desc key x l).
Proof.
  intros Hax Hal. destruct l as [|y l]; simpl; [constructor; exact Hax|].
  destruct (key x <? key y)%Z; constructor; [|exact Hax].
  inversion Hal; assumption.
Qed.

Lemma insert_desc_sorted (x : A) (l : list A) :
  Sorted (descending key) l -> Sorted (descending key) (insert_desc key x l).
Proof.
  induction 1 as [|y l Hs IH Hhd]; simpl; [repeat constructor|].
  destruct (key x <? key y)%Z eqn:E.
  - constructor; [exact IH|].
    apply insert_desc_hd; [|exact Hhd].
    unfold descending. apply Z.ltb_lt in E. lia.
  - constructor; [constructor; assumption|].
    constructor. unfold descending. apply Z.ltb_ge in E. exact E.
Qed.

Lemma sort_reverse_sorted (l : list A) : Sorted (descending key) (sort_reverse key l).
Proof.
  induction l as [|x l IH]; simpl; [constructor|].
  apply insert_desc_sorted; exact IH.
Qed.

Lemma sort_reverse_strongly_sorted (l : list A) :
  StronglySorted (descending key) (sort_reverse key l).
Proof.
  apply Sorted_StronglySorted; [|apply sort_reverse_sorted].
  intros a b c; unfold descending; lia.
Qed.

Lemma filter_insert_desc (p : Z) (x : A) (l : list A) :
  filter (has_key key p) (insert_desc key x l) = filter (has_key key p) (x :: l).
Proof.
  induction l as [|y l IH]; [reflexivity|].
  simpl insert_desc. destruct (key x <? key y)%Z eqn:E; [|reflexivity].
  simpl in *. rewrite IH. unfold has_key.
  destruct (key x =? p)%Z eqn:Ex; [|reflexivity].
  destruct (key y =? p)%Z eqn:Ey; [|reflexivity].
  apply Z.eqb_eq in Ex, Ey. apply Z.ltb_lt in E. lia.
Qed.

(** Stability: the elements of each key appear in their original order. *)
Lemma sort_reverse_stable (p : Z) (l : list A) :
  filter (has_key key p) (sort_reverse key l) = filter (has_key key p) l.
Proof.
  induction l as [|x l IH]; [reflexivity|].
  simpl sort_reverse. rewrite filter_insert_desc. simpl. rewrite IH.
  reflexivity.
Qed.

Lemma filter_has_key_in (p : Z) (x : A) (l : list A) :
  In x (filter (has_key key p) l) <-> In x l /\ key x = p.
Proof.
  rewrite filter_In. unfold has_key. rewrite Z.eqb_eq. tauto.
Qed.

(** A list in (descending key) key order is determined by the order of the
    elements of each key: a stable sort in (descending key) order has one possible
    result. *)
Lemma stable_sort_unique (l1 l2 : list A) :
  StronglySorted (descending key) l1 -> StronglySorted (descending key) l2 ->
  (forall p, filter (has_key key p) l1 = filter (has_key key p) l2) ->
  l1 = l2.
Proof.
  intros S1; revert l2.
  induction S1 as [|x l1 S1 IH F1]; intros l2 S2 Hf.
  - destruct l2 as [|y l2]; [reflexivity|].
    specialize (Hf (key y)). simpl in Hf. unfold has_key in Hf at 1.
    rewrite Z.eqb_refl in Hf. discriminate.
  - destruct S2 as [|y l2 S2 F2].
    + specialize (Hf (key x)). simpl in Hf. unfold has_key in Hf at 1.
      rewrite Z.eqb_refl in Hf. discriminate.
    + assert (Hxy : key x = key y).
      { assert (In x (y :: l2)) as Hx.
        { apply (filter_has_key_in (key x)). rewrite <- Hf.
          apply filter_has_key_in. split; [left|]; reflexivity. }
        assert (In y (x :: l1)) as Hy.
        { apply (filter_has_key_in (key y)). rewrite Hf.
          apply filter_has_key_in. split; [left|]; reflexivity. }
        rewrite Forall_forall in F1, F2. unfold descending in F1, F2.
        destruct Hx as [->|Hx]; [reflexivity|].
        destruct Hy as [->|Hy]; [reflexivity|].
        specialize (F1 _ Hy). specialize (F2 _ Hx). lia. }
      assert (Hhead := Hf (key x)). simpl in Hhead.
      unfold has_key in Hhead. rewrite <- Hxy, Z.eqb_refl in Hhead.
      injection Hhead as -> _.
      f_equal. apply IH; [exact S2|].
      intros p. specialize (Hf p). simpl in Hf.
      destruct (has_key key p y); [injection Hf as Hf|]; exact Hf.
Qed.

(** Whatever list is in descending key order and keeps the elements of each
    key in the order they have in [l] is [sort_reverse key l]. *)
Corollary sort_reverse_characterized (l sorted : list A) :
  StronglySorted (descending key) sorted ->
  (forall p, filter (has_key key p) sorted = filter (has_key key p) l) ->
  sorted = sort_reverse key l.
Proof.
  intros Hs Hf. apply stable_sort_unique;
    [exact Hs | apply sort_reverse_strongly_sorted |].
  intros p. rewrite sort_reverse_stable. apply Hf.
Qed.

End Sorting.

(** Among the rows of the priority table, a priority at least as high means
    a place at least as early in [category_order]. *)
Lemma rank_follows_priority (c1 c2 : pystr) (p1 p2 : Z) :
  In (c1, p1) priority_table -> In (c2, p2) priority_table ->
  (p2 <= p1)%Z -> category_rank c1 <= category_rank c2.
Proof.
  unfold priority_table. simpl In. intros H1 H2 Hle.
  repeat (destruct H1 as [H1|H1]; [injection H1 as <- <-|]); try contradiction;
    repeat (destruct H2 as [H2|H2]; [injection H2 as <- <-|]);
    try contradiction; vm_compute; lia.
Qed.

Lemma StronglySorted_weaken {A : Type} (R R' : A -> A -> Prop) (P : A -> Prop)
    (l : list A) :
  (forall a b, P a -> P b -> R a b -> R' a b) ->
  Forall P l -> StronglySorted R l -> StronglySorted R' l.
Proof.
  intros Himp HP HS. induction HS as [|x l HS IH HF]; [constructor|].
  inversion HP as [|? ? Px Pl]; subst.
  constructor; [exact (IH Pl)|].
  rewrite Forall_forall in *. intros y Hy.
  apply Himp; [exact Px | exact (Pl _ Hy) | exact (HF _ Hy)].
Qed.

Lemma button_record_row (isspace : N -> bool) (lower : pystr -> pystr)
    (raises : Faults) (element : Element) :
  In (bi_category (button_record isspace lower raises element),
      bi_priority (button_record isspace lower raises element)) priority_table.
Proof. unfold button_record; simpl. apply categorize_button_row. Qed.

Lemma analyze_button_row (isspace : N -> bool) (lower : pystr -> pystr)
    (raises : Faults) (element : Element) (info : ButtonInfo) :
  analyze_button isspace lower raises element = Some info ->
  In (bi_category info, bi_priority info) priority_table.
Proof.
  unfold analyze_button.
  destruct (existsb _ _); [discriminate|].
  intros H; injection H as <-. apply button_record_row.
Qed.

(** C7: sorting a list of Button Records by priority, highest first, always
    succeeds and rearranges the list; the result is in descending priority
    order, which for records categorized by the table is the order
    cookie_consent, terms_agreement, submit, navigation, search, choice,
    general, cancel; and the records of each priority keep the order they
    were found in. *)
Theorem sort_by_priority_total_stable :
  forall (A : Type) (category : A -> pystr) (priority : A -> Z)
         (records : list A),
    Forall (fun r => In (category r, priority r) priority_table) records ->
    Permutation records (sort_reverse priority records)
    /\ StronglySorted (descending priority) (sort_reverse priority records)
    /\ StronglySorted
         (fun a b => category_rank (category a) <= category_rank (category b))
         (sort_reverse priority records)
    /\ (forall p : Z,
          filter (has_key priority p) (sort_reverse priority records)
          = filter (has_key priority p) records).
Proof.
  intros A category priority records Hrows.
  split; [apply sort_reverse_perm|].
  split; [apply sort_reverse_strongly_sorted|].
  split; [|intros p; apply sort_reverse_stable].
  apply (StronglySorted_weaken (descending priority) _
           (fun r => In (category r, priority r) priority_table)).
  - intros a b Ha Hb Hab. exact (rank_follows_priority _ _ _ _ Ha Hb Hab).
  - exact (Permutation_Forall (sort_reverse_perm priority records) Hrows).
  - apply sort_reverse_strongly_sorted.
Qed.

Lemma sort_by_priority_total_stable_witness :
  let records :=
    List.map (button_record ascii_isspace ascii_lower no_faults)
      [help_button; send_button; close_button; share_button; cookie_button] in
  Permutation records (sort_reverse bi_priority records)
  /\ StronglySorted (descending bi_priority) (sort_reverse bi_priority records)
  /\ StronglySorted
       (fun a b => category_rank (bi_category a) <= category_rank (bi_category b))
       (sort_reverse bi_priority records)
  /\ (forall p : Z,
        filter (has_key bi_priority p) (sort_reverse bi_priority records)
        = filter (has_key bi_priority p) records).
Proof.
  intros records.
  apply (sort_by_priority_total_stable ButtonInfo bi_category bi_priority records).
  subst records. simpl List.map.
  repeat constructor; apply button_record_row.
Defined.

(** The records of the same scenario after sorting: the cookie button first,
    the cancel button last, and the two general buttons in the order they
    were found in. *)
Example sort_scenario :
  List.map (fun b => (bi_text b, bi_priority b))
    (sort_reverse bi_priority
       (List.map (button_record ascii_isspace ascii_lower no_faults)
          [help_button; send_button; close_button; share_button; cookie_button]))
  = [ (py "accept all cookies", 10%Z); (py "send", 8%Z); (py "help", 3%Z);
      (py "share", 3%Z); (py "close", 2%Z) ].
Proof. reflexivity. Qed.

Lemma insert_desc_map {A B : Type} (f : A -> B) (key : B -> Z) (x : A)
    (l : list A) :
  insert_desc key (f x) (List.map f l)
  = List.map f (insert_desc (fun a => key (f a)) x l).
Proof.
  induction l as [|y l IH]; [reflexivity|].
  simpl. destruct (key (f x) <? key (f y))%Z; simpl; [rewrite IH|]; reflexivity.
Qed.

(** The list of [/scan_buttons] is the sorted list of [process_all_buttons],
    summarized. *)
Lemma scan_buttons_info_sorted (buttons : list ButtonInfo) :
  scan_buttons_info buttons
  = List.map summarize (sort_reverse bi_priority buttons).
Proof.
  unfold scan_buttons_info.
  induction buttons as [|b bs IH]; [reflexivity|].
  simpl. rewrite IH. apply (insert_desc_map summarize bs_priority).
Qed.

(** ** TypingGuard *)

Section Guard.

Variable isspace : N -> bool.
Variable B : Browser.

Lemma monitor_typing_succeeds (input_element : handle) (cycles : nat) :
  forall (last_value : pystr) (stable_count : Z) (h : history),
    fst (monitor_typing B input_element cycles last_value stable_count h) = true.
Proof.
  induction cycles as [|cycles IH]; intros last_value stable_count h;
    [reflexivity|].
  simpl.
  destruct (input_value B (Sleep 1 :: h) input_element) as [v|]; [|reflexivity].
  destruct (pystr_eqb v last_value); [|apply IH].
  destruct (3 <=? stable_count + 1)%Z; [reflexivity | apply IH].
Qed.

Lemma wait_for_typing_completion_succeeds (input_element : handle)
    (max_wait : Z) (h : history) :
  fst (wait_for_typing_completion isspace B input_element max_wait h) = true.
Proof.
  unfold wait_for_typing_completion.
  destruct (negb (truthy (strip isspace _))); [|apply monitor_typing_succeeds].
  destruct (input_value B _ input_element) as [v|]; [|reflexivity].
  destruct (negb (truthy (strip isspace v)));
    [reflexivity | apply monitor_typing_succeeds].
Qed.

Lemma click_and_settle_category (button_info : ButtonInfo) (h : history) :
  cr_category (fst (click_and_settle B button_info h)) = bi_category button_info.
Proof.
  unfold click_and_settle. destruct (click B h _); reflexivity.
Qed.

Lemma click_and_settle_message (button_info : ButtonInfo) (h : history) :
  pystr_eqb (cr_message (fst (click_and_settle B button_info h)))
            (py "Timeout waiting for typing completion") = false.
Proof.
  unfold click_and_settle. destruct (click B h _); reflexivity.
Qed.


(** Apart from that, it is the click alone. *)
Lemma smart_button_click_cases (button_info : ButtonInfo) (h : history) :
  exists h', smart_button_click isspace B button_info h
             = click_and_settle B button_info h'.
Proof.
  unfold smart_button_click.
  destruct (bi_associated_input button_info) as [ai|]; [|exists h; reflexivity].
  destruct (str_in _ guarded_categories); [|exists h; reflexivity].
  destruct (_ || _); [|exists h; reflexivity].
  pose proof (wait_for_typing_completion_succeeds
                (node_handle (ai_element ai)) 30%Z h) as Hs.
  destruct (wait_for_typing_completion _ _ _ _ _) as [success h'].
  simpl in Hs. subst success. exists h'. reflexivity.
Qed.

Lemma smart_button_click_category (button_info : ButtonInfo) (h : history) :
  cr_category (fst (smart_button_click isspace B button_info h))
  = bi_category button_info.
Proof.
  destruct (smart_button_click_cases button_info h) as [h' ->].
  apply click_and_settle_category.
Qed.

End Guard.

(** C5: whatever the field answers and however long it keeps changing,
    [wait_for_typing_completion] returns [True], and the result of
    [smart_button_click] never carries the message "Timeout waiting for
    typing completion". *)
Theorem typing_guard_fails_open :
  forall (isspace : N -> bool) (B : Browser) (input_element : handle)
         (max_wait : Z) (button_info : ButtonInfo) (h : history),
    fst (wait_for_typing_completion isspace B input_element max_wait h) = true
    /\ pystr_eqb
         (cr_message (fst (smart_button_click isspace B button_info h)))
         (py "Timeout waiting for typing completion") = false.
Proof.
  intros isspace B input_element max_wait button_info h. split.
  - apply wait_for_typing_completion_succeeds.
  - destruct (smart_button_click_cases isspace B button_info h) as [h' ->].
    apply click_and_settle_message.
Qed.

(** A field that never settles, and one whose every read raises. *)
Example guard_times_out :
  wait_for_typing_completion ascii_isspace
    (successive_reads [py "a"; py "b"; py "a"; py "b"; py "a"] failing_browser)
    0 4 []
  = (true,
     [ Print MsgMaxWait;
       Print (MsgTypingProgress 1); InputValue 0; Sleep 1;
       Print (MsgTypingProgress 1); InputValue 0; Sleep 1;
       Print (MsgTypingProgress 1); InputValue 0; Sleep 1;
       Print (MsgTypingProgress 1); InputValue 0; Sleep 1;
       InputValue 0; Print MsgWaiting ]).
Proof. reflexivity. Qed.

Example guard_read_raises :
  wait_for_typing_completion ascii_isspace failing_browser 0 30 []
  = (true,
     [ InputValue 0; Sleep 5; Print MsgFieldEmpty; InputValue 0;
       Print MsgWaiting ])
  /\ wait_for_typing_completion ascii_isspace
       (successive_reads [py "a"] failing_browser) 0 30 []
     = (true,
        [ Print MsgMaxWait; Print MsgMonitorError; InputValue 0; Sleep 1;
          InputValue 0; Print MsgWaiting ]).
Proof. split; reflexivity. Qed.

(** C4, as stated, fails: on the stream "", "", "", "a", "ab", "ab", "ab",
    "ab" the guard finds the field empty at its first read, sleeps 5 seconds,
    finds it empty at its second read and returns at once.  It never polls
    and never reports typing complete. *)
Lemma typing_guard_spec_stream_counterexample :
  wait_for_typing_completion ascii_isspace
    (successive_reads spec_stream quiet_browser) 0 30 []
  = (true,
     [ Print MsgNoTyping; InputValue 0; Sleep 5; Print MsgFieldEmpty;
       InputValue 0; Print MsgWaiting ])
  /\ reads_so_far
       (snd (wait_for_typing_completion ascii_isspace
               (successive_reads spec_stream quiet_browser) 0 30 [])) = 2
  /\ existsb (fun e => match e with Print MsgTypingComplete => true | _ => false end)
       (snd (wait_for_typing_completion ascii_isspace
               (successive_reads spec_stream quiet_browser) 0 30 [])) = false.
Proof. repeat split. Qed.

(** The same stream read by the clock, one value per second and "ab" from
    then on: the guard reads at seconds 0, 5, 6, 7, 8 and 9.  At second 7,
    the last value of the stream, it has seen "ab" unchanged once, and it
    reports typing complete at second 9. *)
Example typing_guard_spec_stream_by_the_clock :
  wait_for_typing_completion ascii_isspace
    (timed_reads spec_stream quiet_browser) 0 30 []
  = (true,
     [ Print MsgTypingComplete; InputValue 0; Sleep 1; InputValue 0; Sleep 1;
       InputValue 0; Sleep 1; Print (MsgTypingProgress 2); InputValue 0;
       Sleep 1; InputValue 0; Sleep 5; Print MsgFieldEmpty; InputValue 0;
       Print MsgWaiting ])
  /\ seconds_so_far
       (snd (wait_for_typing_completion ascii_isspace
               (timed_reads spec_stream quiet_browser) 0 30 [])) = 9.
Proof. split; reflexivity. Qed.

(** C4, amended: on the readings "a", "ab", "ab", "ab", "ab" (the stream from
    its first non-empty value on) the guard polls four times and reports
    typing complete after the fourth poll, the third in a row to answer "ab"
    unchanged, and after no earlier one; on readings that begin "", "" it
    returns at the second read without polling. *)
Theorem typing_guard_stable_after_three_repeats :
  forall (B : Browser) (input_element : handle) (max_wait : Z)
         (rest : list pystr),
    (4 <= max_wait)%Z ->
    wait_for_typing_completion ascii_isspace
      (successive_reads typed_stream B) input_element max_wait []
    = (true,
       [ Print MsgTypingComplete; InputValue input_element; Sleep 1;
         InputValue input_element; Sleep 1;
         InputValue input_element; Sleep 1;
         Print (MsgTypingProgress 2); InputValue input_element; Sleep 1;
         InputValue input_element; Print MsgWaiting ])
    /\ wait_for_typing_completion ascii_isspace
         (successive_reads ([] :: [] :: rest) B) input_element max_wait []
       = (true,
          [ Print MsgNoTyping; InputValue input_element; Sleep 5;
            Print MsgFieldEmpty; InputValue input_element; Print MsgWaiting ]).
Proof.
  intros B input_element max_wait rest Hmax.
  split; [|reflexivity].
  unfold wait_for_typing_completion.
  destruct (Z.to_nat max_wait) as [|[|[|[|cycles]]]] eqn:E; try lia.
  reflexivity.
Qed.

Lemma typing_guard_stable_after_three_repeats_witness :
  wait_for_typing_completion ascii_isspace
    (successive_reads typed_stream quiet_browser) 0 30 []
  = (true,
     [ Print MsgTypingComplete; InputValue 0; Sleep 1;
       InputValue 0; Sleep 1; InputValue 0; Sleep 1;
       Print (MsgTypingProgress 2); InputValue 0; Sleep 1;
       InputValue 0; Print MsgWaiting ])
  /\ wait_for_typing_completion ascii_isspace
       (successive_reads ([] :: [] :: skipn 2 spec_stream) quiet_browser) 0 30 []
     = (true,
        [ Print MsgNoTyping; InputValue 0; Sleep 5;
          Print MsgFieldEmpty; InputValue 0; Print MsgWaiting ]).
Proof.
  apply (typing_guard_stable_after_three_repeats quiet_browser 0 30
           (skipn 2 spec_stream)).
  lia.
Defined.

(** ** InteractionOrchestrator *)

Section Orchestrator.

Variable isspace : N -> bool.
Variable B : Browser.

Lemma clicks_cons (e : event) (h : history) :
  clicks (e :: h)
  = clicks h ++ match e with Click el => [el] | _ => [] end.
Proof.
  unfold clicks. simpl. rewrite rev_app_distr.
  destruct e; simpl; try rewrite app_nil_r; reflexivity.
Qed.

Ltac no_click := repeat (rewrite clicks_cons; simpl; rewrite ?app_nil_r).

Lemma monitor_typing_clicks (input_element : handle) (cycles : nat) :
  forall (last_value : pystr) (stable_count : Z) (h : history),
    clicks (snd (monitor_typing B input_element cycles last_value
                   stable_count h)) = clicks h.
Proof.
  induction cycles as [|cycles IH]; intros last_value stable_count h; simpl.
  - no_click. reflexivity.
  - destruct (input_value B (Sleep 1 :: h) input_element) as [v|]; simpl.
    + destruct (pystr_eqb v last_value).
      * destruct (3 <=? stable_count + 1)%Z; simpl;
          [|rewrite IH]; no_click; reflexivity.
      * rewrite IH. no_click. reflexivity.
    + no_click. reflexivity.
Qed.

Lemma wait_for_typing_completion_clicks (input_element : handle)
    (max_wait : Z) (h : history) :
  clicks (snd (wait_for_typing_completion isspace B input_element max_wait h))
  = clicks h.
Proof.
  unfold wait_for_typing_completion.
  destruct (negb (truthy (strip isspace _))).
  - destruct (input_value B _ input_element) as [v|]; simpl.
    + destruct (negb (truthy (strip isspace v))); simpl;
        [|rewrite monitor_typing_clicks]; no_click; reflexivity.
    + no_click. reflexivity.
  - rewrite monitor_typing_clicks. no_click. reflexivity.
Qed.

Lemma click_and_settle_clicks (button_info : ButtonInfo) (h : history) :
  clicks (snd (click_and_settle B button_info h))
  = clicks h ++ [node_handle (bi_element button_info)].
Proof.
  unfold click_and_settle. destruct (click B h _); simpl;
    repeat (rewrite clicks_cons; simpl; rewrite ?app_nil_r); reflexivity.
Qed.

(** Each call of [smart_button_click] clicks its button once, and nothing
    else. *)
Lemma smart_button_click_clicks (button_info : ButtonInfo) (h : history) :
  clicks (snd (smart_button_click isspace B button_info h))
  = clicks h ++ [node_handle (bi_element button_info)].
Proof.
  unfold smart_button_click.
  destruct (bi_associated_input button_info) as [ai|];
    [|apply click_and_settle_clicks].
  destruct (str_in _ guarded_categories); [|apply click_and_settle_clicks].
  destruct (_ || _); [|apply click_and_settle_clicks].
  pose proof (wait_for_typing_completion_succeeds isspace B
                (node_handle (ai_element ai)) 30%Z h) as Hs.
  pose proof (wait_for_typing_completion_clicks
                (node_handle (ai_element ai)) 30%Z h) as Hc.
  destruct (wait_for_typing_completion _ _ _ _ _) as [success h'].
  simpl in Hs, Hc. subst success. simpl.
  rewrite click_and_settle_clicks, Hc. reflexivity.
Qed.

(** The buttons behind a navigation or submit button do not matter. *)
Lemma process_loop_stops (b : ButtonInfo) (post : list ButtonInfo) :
  is_exit b = true ->
  forall (pre : list ButtonInfo) (results : list ClickResult)
         (processed_count : Z) (h : history),
    process_loop isspace B (pre ++ b :: post) results processed_count h
    = process_loop isspace B (pre ++ [b]) results processed_count h.
Proof.
  unfold is_exit. intros Hb pre.
  induction pre as [|a pre IH]; intros results processed_count h; simpl.
  - destruct (smart_button_click isspace B b h) as [result h1].
    destruct (cr_success result); rewrite Hb; reflexivity.
  - destruct (smart_button_click isspace B a h) as [result h1].
    destruct (cr_success result);
      destruct (str_in (bi_category a) exit_categories);
      try reflexivity; apply IH.
Qed.

(** Up to and including the first navigation or submit button, every button
    is processed, in order, and clicked once. *)
Lemma process_loop_prefix (b : ButtonInfo) :
  is_exit b = true ->
  forall (pre : list ButtonInfo) (results : list ClickResult)
         (processed_count : Z) (h : history),
    existsb is_exit pre = false ->
    let r := process_loop isspace B (pre ++ [b]) results processed_count h in
    List.map cr_category (fst (fst r))
    = List.map cr_category results ++ List.map bi_category (pre ++ [b])
    /\ clicks (snd r) = clicks h ++ List.map button_handle (pre ++ [b]).
Proof.
  unfold is_exit. intros Hb pre.
  induction pre as [|a pre IH]; intros results processed_count h Hpre; simpl.
  - pose proof (smart_button_click_category isspace B b h) as Hc.
    pose proof (smart_button_click_clicks b h) as Hk.
    destruct (smart_button_click isspace B b h) as [result h1].
    simpl in Hc, Hk.
    destruct (cr_success result); rewrite Hb; simpl; rewrite map_app; simpl;
      rewrite Hc; no_click; rewrite Hk; split; reflexivity.
  - simpl in Hpre. apply orb_false_iff in Hpre as [Ha Hpre].
    unfold is_exit in Ha.
    pose proof (smart_button_click_category isspace B a h) as Hc.
    pose proof (smart_button_click_clicks a h) as Hk.
    destruct (smart_button_click isspace B a h) as [result h1].
    simpl in Hc, Hk. rewrite Ha.
    destruct (cr_success result);
      (edestruct IH as [IH1 IH2]; [exact Hpre|]; rewrite IH1, IH2;
       rewrite map_app; simpl; rewrite Hc; no_click; rewrite Hk, <- !app_assoc;
       split; reflexivity).
Qed.

End Orchestrator.

(** C6: when the sorted list [process_all_buttons] iterates over has a
    navigation or submit button, the buttons up to and including the first
    such button are processed, whether their clicks succeed or raise, and the
    loop stops: its outcome is the one of the list cut after that button, the
    results reported are those of the processed buttons, and no later button
    is clicked. *)
Theorem process_all_buttons_early_exit :
  forall (isspace : N -> bool) (B : Browser) (found : list ButtonInfo)
         (categories_filter : option (list pystr))
         (pre : list ButtonInfo) (b : ButtonInfo) (post : list ButtonInfo)
         (h : history),
    filter_and_sort found categories_filter = pre ++ b :: post ->
    existsb is_exit pre = false ->
    is_exit b = true ->
    let r := process_all_buttons isspace B true found categories_filter h in
    process_loop isspace B (pre ++ b :: post) [] 0%Z h
    = process_loop isspace B (pre ++ [b]) [] 0%Z h
    /\ option_map (List.map cr_category) (pr_results (fst r))
       = Some (List.map bi_category (pre ++ [b]))
    /\ clicks (snd r) = clicks h ++ List.map button_handle (pre ++ [b])
    /\ pr_total_buttons (fst r)
       = Some (Z.of_nat (List.length (pre ++ b :: post))).
Proof.
  intros isspace B found categories_filter pre b post h Hsorted Hpre Hb r.
  pose proof (process_loop_stops isspace B b post Hb pre [] 0%Z h) as Hstop.
  split; [exact Hstop|].
  pose proof (process_loop_prefix isspace B b Hb pre [] 0%Z h Hpre) as Hprefix.
  cbv zeta in Hprefix. rewrite <- Hstop in Hprefix.
  subst r. unfold process_all_buttons. cbn [negb].
  destruct found as [|f found].
  - exfalso. unfold filter_and_sort in Hsorted.
    destruct categories_filter as [[|c cs]|]; simpl in Hsorted;
      destruct pre; discriminate.
  - rewrite Hsorted.
    destruct (process_loop isspace B (pre ++ b :: post) [] 0%Z h)
      as [[results processed_count] h'].
    simpl in Hprefix. destruct Hprefix as [Hresults Hclicks].
    simpl. rewrite Hresults, Hclicks. repeat split.
Qed.

Lemma process_all_buttons_early_exit_witness :
  let cookie := button_record ascii_isspace ascii_lower no_faults cookie_button in
  let send := button_record ascii_isspace ascii_lower no_faults send_button in
  let close := button_record ascii_isspace ascii_lower no_faults close_button in
  let r := process_all_buttons ascii_isspace failing_browser true
             [close; send; cookie] None [] in
  process_loop ascii_isspace failing_browser ([cookie] ++ send :: [close]) [] 0%Z []
  = process_loop ascii_isspace failing_browser ([cookie] ++ [send]) [] 0%Z []
  /\ option_map (List.map cr_category) (pr_results (fst r))
     = Some (List.map bi_category ([cookie] ++ [send]))
  /\ clicks (snd r) = clicks [] ++ List.map button_handle ([cookie] ++ [send])
  /\ pr_total_buttons (fst r)
     = Some (Z.of_nat (List.length ([cookie] ++ send :: [close]))).
Proof.
  intros cookie send close.
  apply (process_all_buttons_early_exit ascii_isspace failing_browser
           [close; send; cookie] None [cookie] send [close] []); reflexivity.
Defined.

(** The early-exit scenario of section 8: of the buttons general, submit,
    cancel, found in this order, the submit button is sorted first and is the
    only one processed. *)
Example early_exit_scenario :
  let found :=
    List.map (button_record ascii_isspace ascii_lower no_faults)
      [help_button; send_button; close_button] in
  List.map bi_category found = [py "general"; py "submit"; py "cancel"]
  /\ List.map bi_category (sort_reverse bi_priority found)
     = [py "submit"; py "general"; py "cancel"]
  /\ process_all_buttons ascii_isspace quiet_browser true found None []
     = ({| pr_success := true;
           pr_message := py "Processed 1 buttons successfully";
           pr_total_buttons := Some 3%Z;
           pr_processed_buttons := Some 1%Z;
           pr_results :=
             Some [ {| cr_success := true;
                       cr_message := py "Successfully clicked submit button";
                       cr_category := py "submit";
                       cr_button_text := Some (py "send") |} ] |},
        [ Sleep 2; Sleep 1; WaitForLoadState; Sleep 2; Click 2 ]).
Proof. repeat split. Qed.

(** ** Associated input *)







(** The same scenario, run: the guard reads the textarea twice, five seconds
    apart, before the button is clicked. *)
Example textarea_guard_scenario :
  snd (smart_button_click ascii_isspace quiet_browser
         (button_record ascii_isspace ascii_lower no_faults comment_send_button) [])
  = [ WaitForLoadState; Sleep 2; Click 12;
      Print MsgNoTyping; InputValue 11; Sleep 5; Print MsgFieldEmpty;
      InputValue 11; Print MsgWaiting ].
Proof. reflexivity. Qed.

(** On handles without [tag_name] the textarea is still found, but
    [analyze_button] answers no record for the button. *)
Example textarea_without_tag_name_scenario :
  find_associated_input no_tag_name comment_send_button
  = Some {| ai_element := comment_box; ai_type := py "text";
            ai_placeholder := []; ai_value := [] |}
  /\ analyze_button ascii_isspace ascii_lower no_tag_name comment_send_button
     = None.
Proof. split; reflexivity. Qed.

(** ** SelectorBuilder *)

(** Induction along the parent chain. *)
Lemma Tag_parent_ind (P : Tag -> Prop) :
  (forall name attrs class text, P (mkTag name attrs class text None)) ->
  (forall name attrs class text parent,
      P parent -> P (mkTag name attrs class text (Some parent))) ->
  forall t, P t.
Proof.
  intros Hroot Hchild. fix IH 1.
  intros [name attrs class text [parent|]];
    [apply Hchild, IH | apply Hroot].
Qed.

Lemma build_path_length (current : Tag) :
  forall path_parts : list pystr,
    List.length path_parts <= 5 ->
    List.length (build_path current path_parts) <= 6.
Proof.
  induction current as [name attrs class text | name attrs class text parent IH]
    using Tag_parent_ind; intros path_parts Hlen; simpl;
    (destruct (truthy name); simpl; [|lia]);
    (destruct (get_attribute attrs (py "id"));
       [rewrite length_app; simpl; lia|]);
    (destruct (5 <? List.length (path_parts ++ [class_or_tag name class])) eqn:E;
       [rewrite length_app; simpl; lia|]).
  - rewrite length_app; simpl; lia.
  - apply IH. apply Nat.ltb_ge in E. exact E.
Qed.

Lemma ancestry_cons (element t : Tag) (rest : list Tag) :
  ancestry element = t :: rest ->
  element = t
  /\ rest = match tag_parent element with Some p => ancestry p | None => [] end.
Proof.
  destruct element as [name attrs class text parent]. simpl.
  intros H; injection H as <- <-. split; reflexivity.
Qed.

Lemma build_path_stops_at_id (t : Tag) (above : list Tag) (id : pystr) :
  truthy (tag_name t) = true ->
  get_attribute (tag_attrs t) (py "id") = Some id ->
  forall (below : list Tag) (element : Tag) (path_parts : list pystr),
    ancestry element = below ++ t :: above ->
    Forall (fun a => truthy (tag_name a) = true
                     /\ get_attribute (tag_attrs a) (py "id") = None) below ->
    List.length path_parts + List.length below <= 5 ->
    build_path element path_parts
    = path_parts ++ List.map descriptor below ++ [tag_name t ++ py "#" ++ id].
Proof.
  intros Hname Hid below.
  induction below as [|a below IH]; intros element path_parts Hanc Hbelow Hlen.
  - apply ancestry_cons in Hanc as [-> _].
    destruct t as [name attrs class text parent]; simpl in *.
    rewrite Hname, Hid. reflexivity.
  - simpl in Hanc. apply ancestry_cons in Hanc as [-> Hrest].
    inversion Hbelow as [|? ? [Ha_name Ha_id] Hbelow']; subst.
    unfold descriptor at 1. simpl List.map. rewrite Ha_id.
    destruct a as [name attrs class text parent]; simpl in *.
    rewrite Ha_name, Ha_id. simpl.
    replace (5 <? List.length (path_parts ++ [class_or_tag name class]))
      with false
      by (symmetry; apply Nat.ltb_ge; rewrite length_app; simpl; lia).
    destruct parent as [p|]; [|destruct below; discriminate].
    rewrite (IH p (path_parts ++ [class_or_tag name class]));
      [ rewrite <- app_assoc; reflexivity
      | symmetry; exact Hrest
      | exact Hbelow'
      | rewrite length_app; simpl; lia ].
Qed.

(** C3, as stated, fails: the path of an element six levels below [html]
    names the element and five ancestors, six descriptors in all. *)
Lemma hierarchical_path_six_counterexample :
  List.length (sel_path_parts (generate_advanced_selector deep_link)) = 6
  /\ sel_hierarchical_path (generate_advanced_selector deep_link)
     = py "body > div > div > ul > li > a".
Proof. split; reflexivity. Qed.

(** The first element with an [id] is named only when the loop gets to it:
    here [html] has [id="root"] and the path is the same as without. *)
Example hierarchical_path_misses_far_id :
  sel_hierarchical_path (generate_advanced_selector deep_link_rooted)
  = py "body > div > div > ul > li > a".
Proof. reflexivity. Qed.

(** C3, amended: the path names at most six elements, the element itself and
    at most five of its ancestors; and when the first element with an [id],
    counting from the element itself upwards, is the element or one of its
    first five ancestors, the path stops there: it names the elements below
    it, then that element as [tag#id], and nothing above it. *)
Theorem hierarchical_path_bounded :
  forall element : Tag,
    List.length (sel_path_parts (generate_advanced_selector element)) <= 6
    /\ forall (below : list Tag) (t : Tag) (above : list Tag) (id : pystr),
         ancestry element = below ++ t :: above ->
         Forall (fun a => truthy (tag_name a) = true
                          /\ get_attribute (tag_attrs a) (py "id") = None)
                below ->
         truthy (tag_name t) = true ->
         get_attribute (tag_attrs t) (py "id") = Some id ->
         List.length below <= 5 ->
         sel_path_parts (generate_advanced_selector element)
         = List.map descriptor below ++ [tag_name t ++ py "#" ++ id].
Proof.
  intros element. split.
  - apply build_path_length. simpl. lia.
  - intros below t above id Hanc Hbelow Hname Hid Hlen.
    exact (build_path_stops_at_id t above id Hname Hid below element []
             Hanc Hbelow Hlen).
Qed.

Lemma hierarchical_path_bounded_witness :
  sel_path_parts (generate_advanced_selector inner_span)
  = List.map descriptor [inner_span; lead_paragraph]
    ++ [tag_name main_div ++ py "#" ++ py "main"].
Proof.
  apply (proj2 (hierarchical_path_bounded inner_span)
           [inner_span; lead_paragraph] main_div
           [plain_tag (py "body") None] (py "main")).
  - reflexivity.
  - repeat constructor.
  - reflexivity.
  - reflexivity.
  - simpl. lia.
Defined.

Example hierarchical_path_scenario :
  sel_hierarchical_path (generate_advanced_selector inner_span)
  = py "div#main > p.lead > span".
Proof. reflexivity. Qed.

(** ** SemanticTagger *)

(** C8, as stated, fails: the text "HTTP://EXAMPLE" starts with "http" once
    lower-cased, but [extract_semantic_info] tests the text as it is and
    leaves [text_type] unset. *)
Lemma text_type_lowered_counterexample :
  truthy (tag_text shouting_link) = true
  /\ sem_text_type
       (extract_semantic_info ascii_lower ascii_isword ascii_isdigit
          shouting_link) = None
  /\ first_true
       (text_type_patterns_lowered ascii_lower ascii_isword ascii_isdigit
          (tag_text shouting_link)) = Some (py "url").
Proof. repeat split. Qed.

(** The email test is made on the text as it is, too. *)
Example text_type_email_case :
  text_type_of ascii_lower ascii_isword ascii_isdigit (py "INFO@EXAMPLE.COM")
  = None
  /\ text_type_of ascii_lower ascii_isword ascii_isdigit (py "info@example.com")
     = Some (py "email").
Proof. split; reflexivity. Qed.

(** C8, amended: for an element with non-empty text, [text_type] is the first
    match in the order login phrases, search phrases, submit phrases, cancel
    phrases (these four on the lower-cased text of the element), entirely
    digits, email-like substring, starts with "http" (these three on the text
    as it is); it is left unset when none matches, and when the text is
    empty. *)
Theorem text_type_first_match :
  forall (lower : pystr -> pystr) (isword isdigit : N -> bool) (element : Tag),
    sem_text_type (extract_semantic_info lower isword isdigit element)
    = if truthy (tag_text element)
      then first_true (text_type_patterns lower isword isdigit (tag_text element))
      else None.
Proof.
  intros lower isword isdigit element.
  unfold extract_semantic_info. cbn [sem_text_type].
  destruct (truthy (tag_text element)); [|reflexivity].
  unfold text_type_of, text_type_patterns, first_true.
  repeat match goal with
  | |- (if ?c then _ else _) = (if ?c then _ else _) =>
      destruct c; [reflexivity|]
  end.
  reflexivity.
Qed.

(** * Further properties *)

(** ** Button discovery *)

Lemma str_in_iff (x : pystr) (l : list pystr) : str_in x l = true <-> In x l.
Proof.
  unfold str_in. rewrite existsb_exists. split.
  - intros [y [Hy He]]. apply pystr_eqb_eq in He. subst y. exact Hy.
  - intros H. exists x. split; [exact H | apply pystr_eqb_refl].
Qed.

Lemma str_in_false (x : pystr) (l : list pystr) :
  str_in x l = false -> ~ In x l.
Proof.
  intros H Hin. apply str_in_iff in Hin. congruence.
Qed.

Section Discovery.

Variable isspace : N -> bool.
Variable lower : pystr -> pystr.
Variable raises : Faults.

Lemma analyze_button_element (element : Element) (info : ButtonInfo) :
  analyze_button isspace lower raises element = Some info ->
  bi_element info = el_node element.
Proof.
  unfold analyze_button. destruct (existsb _ _); [discriminate|].
  intros H; injection H as <-. reflexivity.
Qed.

(** What is true of the hashes seen and of the buttons built before the
    loop over the elements of a selector, and is kept by every element that
    adds a hash, is true after the loop, however it ends. *)
Lemma scan_elements_invariant (I : list pystr -> list ButtonInfo -> Prop)
    (elements : list Element) :
  (forall (element : Element) (found : list pystr) (buttons : list ButtonInfo),
      In element elements ->
      node_visible (el_node element) = true ->
      node_enabled (el_node element) = true ->
      str_in (element_hash (el_node element)) found = false ->
      I found buttons ->
      match analyze_button isspace lower raises element with
      | Some info => I (element_hash (el_node element) :: found) (buttons ++ [info])
      | None => I (element_hash (el_node element) :: found) buttons
      end) ->
  forall (found : list pystr) (buttons : list ButtonInfo),
    I found buttons ->
    I (fst (scan_elements isspace lower raises elements found buttons))
      (snd (scan_elements isspace lower raises elements found buttons)).
Proof.
  induction elements as [|element rest IH]; intros Hstep found buttons HI;
    [exact HI|].
  assert (Hrest : forall found buttons, I found buttons ->
            I (fst (scan_elements isspace lower raises rest found buttons))
              (snd (scan_elements isspace lower raises rest found buttons))).
  { apply IH. intros e f b Hin. apply Hstep. right; exact Hin. }
  cbn [scan_elements].
  destruct (raises (el_node element) ReadVisible); [exact HI|].
  destruct (node_visible (el_node element)) eqn:Ev; [|apply Hrest; exact HI].
  destruct (raises (el_node element) ReadEnabled); [exact HI|].
  destruct (node_enabled (el_node element)) eqn:Ee; [|apply Hrest; exact HI].
  destruct (existsb (raises (el_node element)) element_hash_reads); [exact HI|].
  destruct (str_in (element_hash (el_node element)) found) eqn:Es;
    [apply Hrest; exact HI|].
  pose proof (Hstep element found buttons (or_introl eq_refl) Ev Ee Es HI) as H.
  destruct (analyze_button isspace lower raises element); apply Hrest; exact H.
Qed.

(** When [tag_name] cannot be read, the loop adds no button. *)
Lemma scan_elements_without_tag_name (elements : list Element) :
  (forall n : Node, raises n ReadTagName = true) ->
  forall (found : list pystr) (buttons : list ButtonInfo),
    snd (scan_elements isspace lower raises elements found buttons) = buttons.
Proof.
  intros Ht. induction elements as [|element rest IH]; intros found buttons;
    [reflexivity|].
  cbn [scan_elements].
  destruct (raises (el_node element) ReadVisible); [reflexivity|].
  destruct (node_visible (el_node element)); [|apply IH].
  destruct (raises (el_node element) ReadEnabled); [reflexivity|].
  destruct (node_enabled (el_node element)); [|apply IH].
  unfold element_hash_reads. cbn [existsb]. rewrite Ht. reflexivity.
Qed.

Section Answered.

Hypothesis Hanswer : reads_answer raises.

Lemma analyze_button_answered (element : Element) :
  analyze_button isspace lower raises element
  = Some (button_record isspace lower raises element).
Proof.
  unfold analyze_button, analyze_button_reads. cbn [existsb].
  rewrite !Hanswer. reflexivity.
Qed.

Lemma scan_elements_grows (elements : list Element) :
  forall (found : list pystr) (buttons : list ButtonInfo) (x : pystr),
    In x found ->
    In x (fst (scan_elements isspace lower raises elements found buttons)).
Proof.
  induction elements as [|element rest IH]; intros found buttons x Hx;
    [exact Hx|].
  cbn [scan_elements]. unfold element_hash_reads. cbn [existsb].
  rewrite !Hanswer. cbn [orb]. rewrite analyze_button_answered.
  destruct (node_visible (el_node element)); [|apply IH; exact Hx].
  destruct (node_enabled (el_node element)); [|apply IH; exact Hx].
  destruct (str_in (element_hash (el_node element)) found);
    apply IH; [|right]; exact Hx.
Qed.

Lemma scan_elements_covers (elements : list Element) :
  forall (found : list pystr) (buttons : list ButtonInfo) (element : Element),
    In element elements ->
    node_visible (el_node element) = true ->
    node_enabled (el_node element) = true ->
    In (element_hash (el_node element))
       (fst (scan_elements isspace lower raises elements found buttons)).
Proof.
  induction elements as [|e rest IH]; intros found buttons element Hin Hv He;
    [contradiction|].
  cbn [scan_elements]. unfold element_hash_reads. cbn [existsb].
  rewrite !Hanswer. cbn [orb]. rewrite analyze_button_answered.
  destruct Hin as [->|Hin].
  - rewrite Hv, He.
    destruct (str_in (element_hash (el_node element)) found) eqn:Es;
      apply scan_elements_grows;
      [apply str_in_iff; exact Es | left; reflexivity].
  - destruct (node_visible (el_node e)); [|apply IH; assumption].
    destruct (node_enabled (el_node e)); [|apply IH; assumption].
    destruct (str_in (element_hash (el_node e)) found); apply IH; assumption.
Qed.

End Answered.

Variable page : Page.

Lemma scan_selectors_invariant (I : list pystr -> list ButtonInfo -> Prop)
    (selectors : list pystr) :
  (forall (selector : pystr) (elements : list Element) (element : Element)
          (found : list pystr) (buttons : list ButtonInfo),
      In selector selectors ->
      page selector = Some elements ->
      In element elements ->
      node_visible (el_node element) = true ->
      node_enabled (el_node element) = true ->
      str_in (element_hash (el_node element)) found = false ->
      I found buttons ->
      match analyze_button isspace lower raises element with
      | Some info => I (element_hash (el_node element) :: found) (buttons ++ [info])
      | None => I (element_hash (el_node element) :: found) buttons
      end) ->
  forall state : list pystr * list ButtonInfo,
    I (fst state) (snd state) ->
    let r := fold_left (scan_selector isspace lower raises page) selectors state in
    I (fst r) (snd r).
Proof.
  induction selectors as [|selector rest IH]; intros Hstep state HI;
    [exact HI|].
  cbn [fold_left]. apply IH.
  - intros s els e f b Hs. apply Hstep. right; exact Hs.
  - unfold scan_selector.
    destruct (page selector) as [elements|] eqn:Ep; [|exact HI].
    apply scan_elements_invariant; [|exact HI].
    intros e f b Hin. apply (Hstep selector elements e f b);
      [left; reflexivity | exact Ep | exact Hin].
Qed.

Lemma scan_selectors_without_tag_name (selectors : list pystr) :
  (forall n : Node, raises n ReadTagName = true) ->
  forall state : list pystr * list ButtonInfo,
    snd (fold_left (scan_selector isspace lower raises page) selectors state)
    = snd state.
Proof.
  intros Ht. induction selectors as [|selector rest IH]; intros state;
    [reflexivity|].
  cbn [fold_left]. rewrite IH. unfold scan_selector.
  destruct (page selector); [|reflexivity].
  apply scan_elements_without_tag_name. exact Ht.
Qed.

Lemma scan_selectors_grow (selectors : list pystr) :
  reads_answer raises ->
  forall (state : list pystr * list ButtonInfo) (x : pystr),
    In x (fst state) ->
    In x (fst (fold_left (scan_selector isspace lower raises page) selectors
                 state)).
Proof.
  intros Hr. induction selectors as [|selector rest IH]; intros state x Hx;
    [exact Hx|].
  cbn [fold_left]. apply IH. unfold scan_selector.
  destruct (page selector); [apply scan_elements_grows; [exact Hr|]|]; exact Hx.
Qed.

Lemma scan_selectors_cover (selectors : list pystr) :
  reads_answer raises ->
  forall (state : list pystr * list ButtonInfo) (selector : pystr)
         (elements : list Element) (element : Element),
    In selector selectors ->
    page selector = Some elements ->
    In element elements ->
    node_visible (el_node element) = true ->
    node_enabled (el_node element) = true ->
    In (element_hash (el_node element))
       (fst (fold_left (scan_selector isspace lower raises page) selectors
               state)).
Proof.
  intros Hr. induction selectors as [|s rest IH];
    intros state selector elements element Hs Hp Hin Hv He; [contradiction|].
  cbn [fold_left]. destruct Hs as [->|Hs]; [|eapply IH; eassumption].
  apply scan_selectors_grow; [exact Hr|]. unfold scan_selector. rewrite Hp.
  apply scan_elements_covers; assumption.
Qed.

End Discovery.

(** X1: no two buttons returned by [find_all_buttons] have the same
    de-duplication hash (tag name, class attribute and text, joined by
    hyphens), so no two of them agree on all three; and each of them is a
    record that [analyze_button] answered for a visible, enabled element
    returned for one of the selectors.  This holds whichever reads raise. *)
Theorem find_all_buttons_distinct :
  forall (isspace : N -> bool) (lower : pystr -> pystr) (raises : Faults)
         (page : Page),
    NoDup (List.map button_hash (find_all_buttons isspace lower raises page))
    /\ Forall (from_page isspace lower raises page)
              (find_all_buttons isspace lower raises page).
Proof.
  intros isspace lower raises page. unfold find_all_buttons.
  pose proof
    (scan_selectors_invariant isspace lower raises page
       (fun found buttons =>
          NoDup (rev (List.map button_hash buttons))
          /\ incl (rev (List.map button_hash buttons)) found
          /\ Forall (from_page isspace lower raises page) buttons)
       button_selectors) as H.
  cbv beta zeta in H.
  destruct (H) with (state := (@nil pystr, @nil ButtonInfo))
    as (H1 & _ & H3).
  - intros selector elements element found buttons Hs Hp Hin Hv He Hnew
           (Hn & Hi & Hf).
    destruct (analyze_button isspace lower raises element) as [info|] eqn:Ea.
    + assert (Hh : button_hash info = element_hash (el_node element))
        by (unfold button_hash;
            rewrite (analyze_button_element _ _ _ _ _ Ea); reflexivity).
      rewrite map_app, rev_app_distr. cbn [List.map rev app]. rewrite Hh.
      split; [|split].
      * constructor; [|exact Hn].
        intros Hin'. apply Hi in Hin'. apply str_in_iff in Hin'. congruence.
      * intros x [<-|Hx]; [left; reflexivity | right; apply Hi; exact Hx].
      * apply Forall_app. split; [exact Hf|].
        constructor; [|constructor].
        exists selector, elements, element. repeat split; assumption.
    + split; [exact Hn|]. split; [|exact Hf].
      intros x Hx. right. apply Hi. exact Hx.
  - cbn. split; [constructor|]. split; [intros x []|constructor].
  - split; [|exact H3].
    apply NoDup_rev in H1. rewrite rev_involutive in H1. exact H1.
Qed.

(** X2: when no read raises, every visible, enabled element that the page
    returns for one of the selectors is represented in the result of
    [find_all_buttons] by a button with the same de-duplication hash: its own
    record, or that of an earlier element whose tag name, class and text
    give the same hash. *)
Theorem find_all_buttons_complete :
  forall (isspace : N -> bool) (lower : pystr -> pystr) (raises : Faults)
         (page : Page) (selector : pystr) (elements : list Element)
         (element : Element),
    reads_answer raises ->
    In selector button_selectors ->
    page selector = Some elements ->
    In element elements ->
    node_visible (el_node element) = true ->
    node_enabled (el_node element) = true ->
    exists b : ButtonInfo,
      In b (find_all_buttons isspace lower raises page)
      /\ button_hash b = element_hash (el_node element).
Proof.
  intros isspace lower raises page selector elements element
         Hr Hs Hp Hin Hv He.
  unfold find_all_buttons.
  pose proof
    (scan_selectors_invariant isspace lower raises page
       (fun found buttons => incl found (List.map button_hash buttons))
       button_selectors) as H.
  cbv beta zeta in H.
  assert (Hfound :
            incl (fst (fold_left (scan_selector isspace lower raises page)
                         button_selectors ([], [])))
                 (List.map button_hash
                    (snd (fold_left (scan_selector isspace lower raises page)
                            button_selectors ([], []))))).
  { apply H; [|intros x []].
    intros s els e found buttons _ _ _ _ _ _ Hi.
    rewrite (analyze_button_answered isspace lower raises Hr).
    rewrite map_app. cbn [List.map].
    intros x [<-|Hx]; apply in_or_app;
      [right; left; reflexivity | left; apply Hi; exact Hx]. }
  assert (Hcover :
            In (element_hash (el_node element))
               (fst (fold_left (scan_selector isspace lower raises page)
                       button_selectors ([], []))))
    by (eapply scan_selectors_cover; eassumption).
  apply Hfound, in_map_iff in Hcover.
  destruct Hcover as [b [Hb Hinb]]. exists b. split; assumption.
Qed.

Lemma find_all_buttons_complete_witness :
  exists b : ButtonInfo,
    In b (find_all_buttons ascii_isspace ascii_lower no_faults shop_page)
    /\ button_hash b = element_hash (el_node (add_button 22)).
Proof.
  apply (find_all_buttons_complete ascii_isspace ascii_lower no_faults
           shop_page (py "button")
           [add_button 21; add_button 22; hidden_button; send_button]
           (add_button 22)).
  - intros n r. reflexivity.
  - unfold button_selectors. left. reflexivity.
  - reflexivity.
  - right. left. reflexivity.
  - reflexivity.
  - reflexivity.
Defined.

(** On the shop page, with every read answered, the second "Add" button is
    dropped as a duplicate of the first, the hidden button is skipped, and
    the selector whose query raises costs nothing else. *)
Example find_all_buttons_scenario :
  List.map button_handle
    (find_all_buttons ascii_isspace ascii_lower no_faults shop_page)
  = [21; 2].
Proof. reflexivity. Qed.

(** The de-duplication hash does not tell apart class [a-b] with text [c]
    from class [a] with text [b-c]. *)
Example element_hash_collision :
  element_hash (leaf 51 (py "button") (py "c") [(py "class", py "a-b")])
  = element_hash (leaf 52 (py "button") (py "b-c") [(py "class", py "a")]).
Proof. reflexivity. Qed.

(** ** TypingGuard: how long it waits and when it reports completion *)

Lemma seconds_sleep (s : nat) (h : history) :
  seconds_so_far (Sleep s :: h) = s + seconds_so_far h.
Proof. reflexivity. Qed.

Lemma seconds_print (m : message) (h : history) :
  seconds_so_far (Print m :: h) = seconds_so_far h.
Proof. reflexivity. Qed.

Lemma seconds_read (el : handle) (h : history) :
  seconds_so_far (InputValue el :: h) = seconds_so_far h.
Proof. reflexivity. Qed.

Lemma seconds_click (el : handle) (h : history) :
  seconds_so_far (Click el :: h) = seconds_so_far h.
Proof. reflexivity. Qed.

Lemma seconds_load (h : history) :
  seconds_so_far (WaitForLoadState :: h) = seconds_so_far h.
Proof. reflexivity. Qed.

Lemma reads_read (el : handle) (h : history) :
  reads_so_far (InputValue el :: h) = S (reads_so_far h).
Proof. reflexivity. Qed.

Lemma reads_sleep (s : nat) (h : history) :
  reads_so_far (Sleep s :: h) = reads_so_far h.
Proof. reflexivity. Qed.

Lemma reads_print (m : message) (h : history) :
  reads_so_far (Print m :: h) = reads_so_far h.
Proof. reflexivity. Qed.

Lemma reads_click (el : handle) (h : history) :
  reads_so_far (Click el :: h) = reads_so_far h.
Proof. reflexivity. Qed.

Lemma reads_load (h : history) :
  reads_so_far (WaitForLoadState :: h) = reads_so_far h.
Proof. reflexivity. Qed.

Create Rewrite HintDb counters.

#[local] Hint Rewrite seconds_sleep seconds_print seconds_read seconds_click
  seconds_load reads_read reads_sleep reads_print reads_click reads_load
  : counters.

Ltac count := cbn [snd fst]; autorewrite with counters in *; try lia.

Section GuardBounds.

Variable isspace : N -> bool.
Variable B : Browser.

Lemma monitor_typing_bounded (input_element : handle) (cycles : nat) :
  forall (last_value : pystr) (stable_count : Z) (h : history),
    seconds_so_far (snd (monitor_typing B input_element cycles last_value
                           stable_count h))
    <= seconds_so_far h + cycles
    /\ reads_so_far (snd (monitor_typing B input_element cycles last_value
                            stable_count h))
       <= reads_so_far h + cycles.
Proof.
  induction cycles as [|cycles IH]; intros last_value stable_count h;
    cbn [monitor_typing]; [count|].
  destruct (input_value B (Sleep 1 :: h) input_element) as [v|]; [|count].
  destruct (pystr_eqb v last_value).
  - destruct (3 <=? stable_count + 1)%Z; [count|].
    specialize (IH v (stable_count + 1)%Z
                  (InputValue input_element :: Sleep 1 :: h)).
    count.
  - specialize (IH v 0%Z
                  (Print (MsgTypingProgress (List.length v))
                     :: InputValue input_element :: Sleep 1 :: h)).
    count.
Qed.

Lemma wait_for_typing_completion_bounded (input_element : handle)
    (max_wait : Z) (h : history) :
  seconds_so_far (snd (wait_for_typing_completion isspace B input_element
                         max_wait h))
  <= seconds_so_far h + 5 + Z.to_nat max_wait
  /\ reads_so_far (snd (wait_for_typing_completion isspace B input_element
                          max_wait h))
     <= reads_so_far h + 2 + Z.to_nat max_wait.
Proof.
  unfold wait_for_typing_completion.
  destruct (negb (truthy (strip isspace _))).
  - destruct (input_value B _ input_element) as [v|]; [|count].
    destruct (negb (truthy (strip isspace v))); [count|].
    match goal with
    | |- context [monitor_typing B input_element ?c ?l ?s ?hh] =>
        pose proof (monitor_typing_bounded input_element c l s hh) as Hm
    end.
    count.
  - match goal with
    | |- context [monitor_typing B input_element ?c ?l ?s ?hh] =>
        pose proof (monitor_typing_bounded input_element c l s hh) as Hm
    end.
    count.
Qed.

Lemma monitor_typing_complete (input_element : handle) (cycles : nat) :
  forall (last_value : pystr) (stable_count : Z) (h : history),
    (0 <= stable_count <= 2)%Z ->
    polls_agree B input_element last_value (Z.to_nat stable_count) h ->
    let h' := snd (monitor_typing B input_element cycles last_value
                     stable_count h) in
    reports_complete h' = true ->
    exists v h0,
      h' = Print MsgTypingComplete :: h0
      /\ polls_agree B input_element v 3 h0.
Proof.
  induction cycles as [|cycles IH]; intros last_value stable_count h Hsc Hag;
    [simpl; discriminate|].
  cbn [monitor_typing].
  destruct (input_value B (Sleep 1 :: h) input_element) as [v|] eqn:Ev;
    [|simpl; discriminate].
  destruct (pystr_eqb v last_value) eqn:Eq.
  - apply pystr_eqb_eq in Eq. subst v.
    assert (Hnext : polls_agree B input_element last_value
                      (S (Z.to_nat stable_count))
                      (InputValue input_element :: Sleep 1 :: h))
      by (simpl; auto).
    destruct (3 <=? stable_count + 1)%Z eqn:E3.
    + intros _. apply Z.leb_le in E3.
      exists last_value, (InputValue input_element :: Sleep 1 :: h).
      split; [reflexivity|].
      replace 3 with (S (Z.to_nat stable_count)) by lia. exact Hnext.
    + apply Z.leb_gt in E3. apply IH; [lia|].
      replace (Z.to_nat (stable_count + 1)) with (S (Z.to_nat stable_count))
        by lia.
      exact Hnext.
  - apply IH; [lia | exact I].
Qed.

End GuardBounds.

(** X3: [wait_for_typing_completion] sleeps at most [5 + max_wait] seconds,
    reads the field at most [2 + max_wait] times, and clicks nothing. *)
Theorem typing_guard_bounded_wait :
  forall (isspace : N -> bool) (B : Browser) (input_element : handle)
         (max_wait : Z) (h : history),
    let h' := snd (wait_for_typing_completion isspace B input_element
                     max_wait h) in
    seconds_so_far h' <= seconds_so_far h + 5 + Z.to_nat max_wait
    /\ reads_so_far h' <= reads_so_far h + 2 + Z.to_nat max_wait
    /\ clicks h' = clicks h.
Proof.
  intros isspace B input_element max_wait h h'.
  destruct (wait_for_typing_completion_bounded isspace B input_element
              max_wait h) as [Hs Hr].
  repeat split; [exact Hs | exact Hr |].
  apply wait_for_typing_completion_clicks.
Qed.

(** X4: when [wait_for_typing_completion] reports that typing is complete,
    its last three polls, one second apart, all answered the same value. *)
Theorem typing_complete_after_three_equal_polls :
  forall (isspace : N -> bool) (B : Browser) (input_element : handle)
         (max_wait : Z) (h : history),
    reports_complete
      (snd (wait_for_typing_completion isspace B input_element max_wait h))
    = true ->
    exists v h0,
      snd (wait_for_typing_completion isspace B input_element max_wait h)
      = Print MsgTypingComplete :: h0
      /\ polls_agree B input_element v 3 h0.
Proof.
  intros isspace B input_element max_wait h.
  unfold wait_for_typing_completion.
  destruct (negb (truthy (strip isspace _))).
  - destruct (input_value B _ input_element) as [v|]; [|simpl; discriminate].
    destruct (negb (truthy (strip isspace v))); [simpl; discriminate|].
    apply monitor_typing_complete; [lia | exact I].
  - apply monitor_typing_complete; [lia | exact I].
Qed.

Lemma typing_complete_after_three_equal_polls_witness :
  exists v h0,
    snd (wait_for_typing_completion ascii_isspace
           (successive_reads typed_stream quiet_browser) 0 30 [])
    = Print MsgTypingComplete :: h0
    /\ polls_agree (successive_reads typed_stream quiet_browser) 0 v 3 h0.
Proof.
  apply (typing_complete_after_three_equal_polls ascii_isspace
           (successive_reads typed_stream quiet_browser) 0 30 []).
  reflexivity.
Defined.

(** ** InteractionOrchestrator: what a click costs, and the report *)

Section ClickEffects.

Variable isspace : N -> bool.
Variable B : Browser.

Lemma click_and_settle_counters (button_info : ButtonInfo) (h : history) :
  seconds_so_far (snd (click_and_settle B button_info h))
  <= seconds_so_far h + 2
  /\ reads_so_far (snd (click_and_settle B button_info h)) = reads_so_far h.
Proof.
  unfold click_and_settle. destruct (click B h _); count.
Qed.

Lemma click_and_settle_text (button_info : ButtonInfo) (h : history) :
  cr_button_text (fst (click_and_settle B button_info h))
  = if cr_success (fst (click_and_settle B button_info h))
    then Some (bi_text button_info) else None.
Proof.
  unfold click_and_settle. destruct (click B h _); reflexivity.
Qed.

Lemma smart_button_click_unguarded (button_info : ButtonInfo) (h : history) :
  str_in (bi_category button_info) guarded_categories = false ->
  smart_button_click isspace B button_info h
  = click_and_settle B button_info h.
Proof.
  intros Hc. unfold smart_button_click. rewrite Hc.
  destruct (bi_associated_input button_info); reflexivity.
Qed.

Lemma smart_button_click_counters (button_info : ButtonInfo) (h : history) :
  seconds_so_far (snd (smart_button_click isspace B button_info h))
  <= seconds_so_far h + 37
  /\ reads_so_far (snd (smart_button_click isspace B button_info h))
     <= reads_so_far h + 32.
Proof.
  pose proof (click_and_settle_counters button_info h) as Hdirect.
  unfold smart_button_click.
  destruct (bi_associated_input button_info) as [ai|]; [|lia].
  destruct (str_in _ guarded_categories); [|lia].
  destruct (_ || _); [|lia].
  pose proof (wait_for_typing_completion_succeeds isspace B
                (node_handle (ai_element ai)) 30%Z h) as Hs.
  pose proof (wait_for_typing_completion_bounded isspace B
                (node_handle (ai_element ai)) 30%Z h) as Hb.
  destruct (wait_for_typing_completion _ _ _ _ _) as [success h'].
  simpl in Hs, Hb. subst success. cbn [negb].
  pose proof (click_and_settle_counters button_info h') as Hc.
  change (Z.to_nat 30) with 30 in Hb. lia.
Qed.

Lemma smart_button_click_text (button_info : ButtonInfo) (h : history) :
  cr_button_text (fst (smart_button_click isspace B button_info h))
  = if cr_success (fst (smart_button_click isspace B button_info h))
    then Some (bi_text button_info) else None.
Proof.
  destruct (smart_button_click_cases isspace B button_info h) as [h' ->].
  apply click_and_settle_text.
Qed.

(** What the loop of [process_all_buttons] has done when it ends: it has
    processed the first [n] buttons, in order. *)
Lemma process_loop_outcome (buttons : list ButtonInfo) :
  forall (results : list ClickResult) (processed_count : Z) (h : history),
    exists (n : nat) (new : list ClickResult),
      n <= List.length buttons
      /\ fst (fst (process_loop isspace B buttons results processed_count h))
         = results ++ new
      /\ List.map cr_category new = List.map bi_category (firstn n buttons)
      /\ snd (fst (process_loop isspace B buttons results processed_count h))
         = (processed_count + Z.of_nat (List.length (filter cr_success new)))%Z
      /\ clicks (snd (process_loop isspace B buttons results processed_count h))
         = clicks h ++ List.map button_handle (firstn n buttons)
      /\ (existsb is_exit buttons = false -> n = List.length buttons).
Proof.
  induction buttons as [|b buttons IH]; intros results processed_count h.
  - exists 0, []. simpl. rewrite !app_nil_r.
    repeat split; [lia | f_equal; lia].
  - cbn [process_loop].
    pose proof (smart_button_click_category isspace B b h) as Hc.
    pose proof (smart_button_click_clicks isspace B b h) as Hk.
    destruct (smart_button_click isspace B b h) as [result h1].
    cbn [fst snd] in Hc, Hk.
    destruct (str_in (bi_category b) exit_categories) eqn:Ex.
    + exists 1, [result].
      assert (Hno : existsb is_exit (b :: buttons) = false ->
                    1 = List.length (b :: buttons)).
      { intros Hno. cbn [existsb] in Hno. unfold is_exit at 1 in Hno.
        rewrite Ex in Hno. discriminate. }
      destruct (cr_success result) eqn:Es; cbn [fst snd firstn List.map filter];
        rewrite Es; cbn [List.length List.map]; rewrite Hc;
        rewrite !clicks_cons, Hk; cbn [app]; rewrite ?app_nil_r;
        (split; [lia|]); (split; [reflexivity|]); (split; [reflexivity|]);
        (split; [f_equal; lia|]); (split; [reflexivity | exact Hno]).
    + destruct (cr_success result) eqn:Es.
      * destruct (IH (results ++ [result]) (processed_count + 1)%Z
                     (Sleep 1 :: h1))
          as (n & new & Hn & Hr & Hcat & Hcount & Hclicks & Hall).
        exists (S n), (result :: new).
        rewrite Hr, Hcount, Hclicks, <- app_assoc.
        cbn [firstn List.map filter List.length app]. rewrite Es.
        cbn [List.length]. rewrite Hc, Hcat, clicks_cons, Hk, app_nil_r,
          <- app_assoc.
        repeat split; try reflexivity; try lia.
        intros Hno. cbn [existsb] in Hno. unfold is_exit at 1 in Hno.
        rewrite Ex in Hno. rewrite (Hall Hno). reflexivity.
      * destruct (IH (results ++ [result]) processed_count h1)
          as (n & new & Hn & Hr & Hcat & Hcount & Hclicks & Hall).
        exists (S n), (result :: new).
        rewrite Hr, Hcount, Hclicks, <- app_assoc.
        cbn [firstn List.map filter List.length app]. rewrite Es.
        rewrite Hc, Hcat, Hk, <- app_assoc.
        repeat split; try reflexivity; try lia.
        intros Hno. cbn [existsb] in Hno. unfold is_exit at 1 in Hno.
        rewrite Ex in Hno. rewrite (Hall Hno). reflexivity.
Qed.

End ClickEffects.

(** X5: one call of [smart_button_click] clicks its button once and no
    other, sleeps at most 37 seconds in all, reads a field at most 32
    times, answers with the category of the button, and gives the button's
    text exactly when it reports success. *)
Theorem smart_button_click_effects :
  forall (isspace : N -> bool) (B : Browser) (button_info : ButtonInfo)
         (h : history),
    let r := smart_button_click isspace B button_info h in
    clicks (snd r) = clicks h ++ [button_handle button_info]
    /\ seconds_so_far (snd r) <= seconds_so_far h + 37
    /\ reads_so_far (snd r) <= reads_so_far h + 32
    /\ cr_category (fst r) = bi_category button_info
    /\ cr_button_text (fst r)
       = if cr_success (fst r) then Some (bi_text button_info) else None.
Proof.
  intros isspace B button_info h r. subst r.
  split; [apply smart_button_click_clicks|].
  destruct (smart_button_click_counters isspace B button_info h) as [Hs Hr].
  split; [exact Hs|]. split; [exact Hr|].
  split; [apply smart_button_click_category | apply smart_button_click_text].
Qed.

(** X6: a cookie_consent, terms_agreement, choice, cancel or general button
    is clicked at once, even when an empty input stands next to it: no field
    is read and nothing is slept before the click. *)
Theorem unguarded_categories_click_at_once :
  forall (isspace : N -> bool) (B : Browser) (button_info : ButtonInfo)
         (h : history),
    str_in (bi_category button_info) unguarded_categories = true ->
    smart_button_click isspace B button_info h
    = click_and_settle B button_info h
    /\ reads_so_far (snd (smart_button_click isspace B button_info h))
       = reads_so_far h
    /\ seconds_so_far (snd (smart_button_click isspace B button_info h))
       <= seconds_so_far h + 2.
Proof.
  intros isspace B button_info h Hcat.
  assert (Hg : str_in (bi_category button_info) guarded_categories = false).
  { apply str_in_iff in Hcat.
    unfold unguarded_categories in Hcat. simpl in Hcat.
    repeat (destruct Hcat as [<-|Hcat]; [reflexivity|]). contradiction. }
  rewrite (smart_button_click_unguarded isspace B button_info h Hg).
  destruct (click_and_settle_counters B button_info h) as [Hs Hr].
  repeat split; assumption.
Qed.

Lemma unguarded_categories_click_at_once_witness :
  let info := button_record ascii_isspace ascii_lower no_faults banner_button in
  (exists input, bi_associated_input info = Some input /\ ai_value input = [])
  /\ smart_button_click ascii_isspace quiet_browser info []
     = click_and_settle quiet_browser info []
  /\ reads_so_far (snd (smart_button_click ascii_isspace quiet_browser info []))
     = reads_so_far []
  /\ seconds_so_far (snd (smart_button_click ascii_isspace quiet_browser info []))
     <= seconds_so_far [] + 2.
Proof.
  intros info. split.
  - eexists. split; reflexivity.
  - apply (unguarded_categories_click_at_once ascii_isspace quiet_browser
             info []).
    reflexivity.
Defined.

(** X7: the report of [process_all_buttons].  When the page loaded and
    buttons were found, the report is a success: [processed_buttons] is the
    number of results that succeeded, [total_buttons] is the number of
    buttons left after filtering, and there are no more results than that.
    Otherwise the report is a failure without results, and nothing was done
    on the page. *)
Theorem process_all_buttons_report :
  forall (isspace : N -> bool) (B : Browser) (loaded : bool)
         (found : list ButtonInfo) (categories_filter : option (list pystr))
         (h : history),
    let r := process_all_buttons isspace B loaded found categories_filter h in
    let buttons := filter_and_sort found categories_filter in
    if loaded && match found with [] => false | _ :: _ => true end then
      pr_success (fst r) = true
      /\ pr_total_buttons (fst r) = Some (Z.of_nat (List.length buttons))
      /\ exists results,
           pr_results (fst r) = Some results
           /\ pr_processed_buttons (fst r)
              = Some (Z.of_nat (List.length (filter cr_success results)))
           /\ List.length results <= List.length buttons
    else
      pr_success (fst r) = false
      /\ pr_results (fst r) = None
      /\ pr_total_buttons (fst r) = None
      /\ pr_processed_buttons (fst r) = None
      /\ snd r = h.
Proof.
  intros isspace B loaded found categories_filter h r buttons. subst r.
  unfold process_all_buttons.
  destruct loaded; cbn [negb andb]; [|repeat split].
  destruct found as [|f found]; [repeat split|].
  fold buttons.
  destruct (process_loop_outcome isspace B buttons [] 0%Z h)
    as (n & new & Hn & Hr & Hcat & Hcount & _ & _).
  destruct (process_loop isspace B buttons [] 0%Z h)
    as [[results processed_count] h'].
  cbn [fst snd] in Hr, Hcount |- *. subst results processed_count.
  cbn [pr_success pr_total_buttons pr_results pr_processed_buttons app].
  split; [reflexivity|]. split; [reflexivity|].
  exists new. split; [reflexivity|]. split; [reflexivity|].
  assert (Hlen : List.length new = List.length (firstn n buttons))
    by (rewrite <- (length_map cr_category), Hcat, length_map; reflexivity).
  rewrite Hlen, length_firstn. lia.
Qed.

(** X8: when no button left after filtering is a navigation or submit
    button, [process_all_buttons] processes every one of them, in
    descending priority order, and clicks each once. *)
Theorem process_all_buttons_without_exit :
  forall (isspace : N -> bool) (B : Browser) (found : list ButtonInfo)
         (categories_filter : option (list pystr)) (h : history),
    found <> [] ->
    existsb is_exit (filter_and_sort found categories_filter) = false ->
    let r := process_all_buttons isspace B true found categories_filter h in
    option_map (List.map cr_category) (pr_results (fst r))
    = Some (List.map bi_category (filter_and_sort found categories_filter))
    /\ clicks (snd r)
       = clicks h
         ++ List.map button_handle (filter_and_sort found categories_filter).
Proof.
  intros isspace B found categories_filter h Hfound Hno r. subst r.
  unfold process_all_buttons. cbn [negb].
  destruct found as [|f found]; [contradiction Hfound; reflexivity|].
  destruct (process_loop_outcome isspace B
              (filter_and_sort (f :: found) categories_filter) [] 0%Z h)
    as (n & new & _ & Hr & Hcat & _ & Hclicks & Hall).
  destruct (process_loop isspace B
              (filter_and_sort (f :: found) categories_filter) [] 0%Z h)
    as [[results processed_count] h'].
  cbn [fst snd] in Hr, Hclicks |- *. subst results.
  rewrite (Hall Hno), firstn_all in Hcat, Hclicks.
  cbn [pr_results option_map app]. rewrite Hcat, Hclicks. split; reflexivity.
Qed.

Lemma process_all_buttons_without_exit_witness :
  let found :=
    List.map (button_record ascii_isspace ascii_lower no_faults)
      [close_button; help_button; cookie_button] in
  let r := process_all_buttons ascii_isspace failing_browser true found None [] in
  option_map (List.map cr_category) (pr_results (fst r))
  = Some (List.map bi_category (filter_and_sort found None))
  /\ clicks (snd r)
     = clicks [] ++ List.map button_handle (filter_and_sort found None).
Proof.
  intros found.
  apply (process_all_buttons_without_exit ascii_isspace failing_browser found
           None []).
  - discriminate.
  - reflexivity.
Defined.

Lemma Forall_firstn_of {A : Type} (P : A -> Prop) (n : nat) (l : list A) :
  Forall P l -> Forall P (firstn n l).
Proof.
  intros H. rewrite <- (firstn_skipn n l) in H.
  apply Forall_app in H. exact (proj1 H).
Qed.

(** X9: with a non-empty category filter, every result of
    [process_all_buttons] carries one of the categories of the filter; an
    empty filter list filters nothing, like no filter. *)
Theorem process_all_buttons_filter :
  forall (isspace : N -> bool) (B : Browser) (loaded : bool)
         (found : list ButtonInfo) (c : pystr) (cs : list pystr) (h : history),
    match pr_results
            (fst (process_all_buttons isspace B loaded found
                    (Some (c :: cs)) h)) with
    | Some results =>
        Forall (fun x => str_in (cr_category x) (c :: cs) = true) results
    | None => True
    end
    /\ process_all_buttons isspace B loaded found (Some []) h
       = process_all_buttons isspace B loaded found None h.
Proof.
  intros isspace B loaded found c cs h. split; [|reflexivity].
  unfold process_all_buttons.
  destruct loaded; cbn [negb fst pr_results]; [|exact I].
  destruct found as [|f found]; [exact I|].
  set (buttons := filter_and_sort (f :: found) (Some (c :: cs))).
  assert (Hall : Forall (fun b => str_in (bi_category b) (c :: cs) = true)
                        buttons).
  { unfold buttons, filter_and_sort.
    eapply Permutation_Forall; [apply sort_reverse_perm|].
    apply Forall_forall. intros b Hb. apply filter_In in Hb. exact (proj2 Hb). }
  destruct (process_loop_outcome isspace B buttons [] 0%Z h)
    as (n & new & _ & Hr & Hcat & _ & _ & _).
  destruct (process_loop isspace B buttons [] 0%Z h)
    as [[results processed_count] h'].
  cbn [fst snd] in Hr |- *. subst results. cbn [app].
  apply (Forall_firstn_of _ n) in Hall.
  apply (Forall_map bi_category (fun x => str_in x (c :: cs) = true)) in Hall.
  rewrite <- Hcat in Hall.
  apply (Forall_map cr_category (fun x => str_in x (c :: cs) = true)).
  exact Hall.
Qed.

(** X10: the list [/scan_buttons] reports is the summary, in the same
    order, of the list [process_all_buttons] walks through when no filter is
    given; it has one entry for each button found. *)
Theorem scan_buttons_matches_process_order :
  forall found : list ButtonInfo,
    scan_buttons_info found
    = List.map summarize (filter_and_sort found None)
    /\ List.length (scan_buttons_info found) = List.length found
    /\ Permutation (List.map summarize found) (scan_buttons_info found).
Proof.
  intros found. split; [apply scan_buttons_info_sorted|].
  split.
  - rewrite scan_buttons_info_sorted, length_map.
    symmetry. apply Permutation_length, sort_reverse_perm.
  - unfold scan_buttons_info. apply sort_reverse_perm.
Qed.

(** ** The route [/click_specific_button] *)

Lemma find_target_by_category (lower : pystr -> pystr) (c : pystr)
    (button_text : option pystr) (buttons : list ButtonInfo) :
  truthy c = true ->
  given button_text = false ->
  find_target lower (Some c) button_text buttons
  = find (fun b => pystr_eqb (bi_category b) c) buttons.
Proof.
  intros Hc Ht. induction buttons as [|b buttons IH]; [reflexivity|].
  simpl. rewrite Hc. simpl.
  destruct (pystr_eqb (bi_category b) c); [reflexivity|].
  unfold text_matches. destruct button_text as [t|]; [|exact IH].
  simpl in Ht. rewrite Ht. exact IH.
Qed.

(** X11: asked for a category alone, [/click_specific_button] clicks the
    first of the buttons that [find_all_buttons] answers, in discovery
    order, that has this category, and answers with that category; when
    none of them has it, the answer is "Button not found" and nothing is
    clicked.  This holds whichever reads raise. *)
Theorem click_specific_button_by_category :
  forall (isspace : N -> bool) (lower : pystr -> pystr) (raises : Faults)
         (B : Browser) (url c : pystr) (button_text : option pystr)
         (page : Page) (h : history),
    truthy url = true ->
    truthy c = true ->
    given button_text = false ->
    let r := click_specific_button isspace lower raises B (Some url) (Some c)
               button_text true true page h in
    match find (fun b => pystr_eqb (bi_category b) c)
               (find_all_buttons isspace lower raises page) with
    | Some b =>
        rs_category (fst r) = Some c
        /\ clicks (snd r) = clicks h ++ [button_handle b]
    | None => r = (failure (py "Button not found"), h)
    end.
Proof.
  intros isspace lower raises B url c button_text page h Hurl Hc Ht r. subst r.
  unfold click_specific_button. cbn [given]. rewrite Hurl, Hc. cbn [negb andb].
  rewrite (find_target_by_category lower c button_text _ Hc Ht).
  destruct (find _ _) as [b|] eqn:Ef; [|reflexivity].
  apply find_some in Ef. destruct Ef as [_ Ecat]. apply pystr_eqb_eq in Ecat.
  pose proof (smart_button_click_category isspace B b h) as Hcat.
  pose proof (smart_button_click_clicks isspace B b h) as Hk.
  destruct (smart_button_click isspace B b h) as [result h'].
  cbn [fst snd] in *. unfold response_of. cbn [rs_category].
  rewrite Hcat, Ecat, Hk. split; reflexivity.
Qed.

Lemma click_specific_button_by_category_witness :
  let r := click_specific_button ascii_isspace ascii_lower no_faults
             failing_browser (Some (py "http://shop")) (Some (py "submit"))
             None true true shop_page [] in
  match find (fun b => pystr_eqb (bi_category b) (py "submit"))
             (find_all_buttons ascii_isspace ascii_lower no_faults shop_page) with
  | Some b =>
      rs_category (fst r) = Some (py "submit")
      /\ clicks (snd r) = clicks [] ++ [button_handle b]
  | None => r = (failure (py "Button not found"), [])
  end.
Proof.
  apply (click_specific_button_by_category ascii_isspace ascii_lower no_faults
           failing_browser (py "http://shop") (py "submit") None shop_page []);
    reflexivity.
Defined.

(** X27: on element handles whose [tag_name] cannot be read,
    [find_all_buttons] answers the empty list whatever the page holds, and
    [/click_specific_button], with a session open, the page loaded, a URL
    and a category or a text given, answers "Button not found" and clicks
    nothing. *)
Theorem find_all_buttons_without_tag_name :
  forall (isspace : N -> bool) (lower : pystr -> pystr) (raises : Faults)
         (page : Page),
    (forall n : Node, raises n ReadTagName = true) ->
    find_all_buttons isspace lower raises page = []
    /\ forall (B : Browser) (url button_category button_text : option pystr)
              (h : history),
         given url = true ->
         given button_category || given button_text = true ->
         click_specific_button isspace lower raises B url button_category
           button_text true true page h
         = (failure (py "Button not found"), h).
Proof.
  intros isspace lower raises page Ht.
  assert (Hnone : find_all_buttons isspace lower raises page = []).
  { unfold find_all_buttons.
    rewrite (scan_selectors_without_tag_name isspace lower raises page
               button_selectors Ht).
    reflexivity. }
  split; [exact Hnone|].
  intros B url button_category button_text h Hurl Hgiven.
  unfold click_specific_button. rewrite Hurl, Hnone. cbn [negb].
  destruct (given button_category); destruct (given button_text);
    try discriminate; reflexivity.
Qed.

Lemma find_all_buttons_without_tag_name_witness :
  find_all_buttons ascii_isspace ascii_lower no_tag_name shop_page = []
  /\ click_specific_button ascii_isspace ascii_lower no_tag_name quiet_browser
       (Some (py "http://shop")) (Some (py "submit")) None true true
       shop_page []
     = (failure (py "Button not found"), []).
Proof.
  destruct (find_all_buttons_without_tag_name ascii_isspace ascii_lower
              no_tag_name shop_page) as [H1 H2].
  - intros n. reflexivity.
  - split; [exact H1|]. apply H2; reflexivity.
Defined.

(** ** ButtonPrioritizer: keywords that never decide *)

Lemma startswith_iff (p s : pystr) :
  startswith p s = true <-> exists b, s = p ++ b.
Proof.
  revert s. induction p as [|x p IH]; intros s; simpl.
  - split; [intros _; exists s; reflexivity | reflexivity].
  - destruct s as [|y s]; [split; [discriminate | intros [b Hb]; discriminate]|].
    rewrite andb_true_iff, N.eqb_eq, IH. split.
    + intros [-> [b ->]]. exists b. reflexivity.
    + intros [b Hb]. injection Hb as -> ->. split; [reflexivity|].
      exists b. reflexivity.
Qed.

Lemma contains_iff (p s : pystr) :
  contains p s = true <-> exists a b, s = a ++ p ++ b.
Proof.
  induction s as [|y s IH]; simpl.
  - rewrite orb_false_r, startswith_iff. split.
    + intros [b Hb]. exists [], b. exact Hb.
    + intros [a [b Hb]]. destruct a; [exists b; exact Hb | discriminate].
  - rewrite orb_true_iff, startswith_iff, IH. split.
    + intros [[b Hb] | [a [b Hb]]].
      * exists [], b. exact Hb.
      * exists (y :: a), b. rewrite Hb. reflexivity.
    + intros [[|x a] [b Hb]].
      * left. exists b. exact Hb.
      * right. injection Hb as -> ->. exists a, b. reflexivity.
Qed.

Lemma contains_trans (q p s : pystr) :
  contains q p = true -> contains p s = true -> contains q s = true.
Proof.
  rewrite !contains_iff. intros [a [b ->]] [a' [b' ->]].
  exists (a' ++ a), (b ++ b'). rewrite <- !app_assoc. reflexivity.
Qed.

(** X12: a terms or choice keyword that contains a cookie keyword never
    decides: every combined text that contains it is categorized
    cookie_consent with priority 10.  These keywords are "i agree to terms",
    the two Arabic terms phrases that begin with the Arabic cookie keyword,
    and the Arabic choice keyword equal to it. *)
Theorem shadowed_keywords_are_cookie_consent :
  forall (pattern combined_text type_attr tag_name : pystr),
    In pattern (shadowed_by cookie_patterns (terms_patterns ++ choice_patterns)) ->
    contains pattern combined_text = true ->
    category_of (categorize_button combined_text type_attr tag_name)
    = py "cookie_consent"
    /\ priority_of (categorize_button combined_text type_attr tag_name) = 10%Z.
Proof.
  intros p ct ty tg Hin Hc.
  unfold shadowed_by in Hin. apply filter_In in Hin as [_ Hsh].
  apply existsb_exists in Hsh as [q [Hq Hqp]].
  assert (Hm : matches_any cookie_patterns ct = true)
    by (apply (matches_any_intro _ q); [exact Hq | exact (contains_trans _ _ _ Hqp Hc)]).
  destruct (first_pattern_in_some _ _ Hm) as [x Hx].
  unfold categorize_button. rewrite Hx. split; reflexivity.
Qed.

Lemma shadowed_keywords_are_cookie_consent_witness :
  category_of (categorize_button (py "yes, i agree to terms") [] (py "button"))
  = py "cookie_consent"
  /\ priority_of (categorize_button (py "yes, i agree to terms") [] (py "button"))
     = 10%Z.
Proof.
  apply (shadowed_keywords_are_cookie_consent (py "i agree to terms")
           (py "yes, i agree to terms") [] (py "button")).
  - unfold shadowed_by. apply filter_In. split; [|reflexivity].
    apply in_or_app. left. unfold terms_patterns.
    do 4 right. left. reflexivity.
  - reflexivity.
Defined.

(** The keywords in question. *)
Example shadowed_keywords :
  shadowed_by cookie_patterns (terms_patterns ++ choice_patterns)
  = [ py "i agree to terms";
      [1605; 1608; 1575; 1601; 1602; 32; 1593; 1604; 1609; 32;
       1575; 1604; 1588; 1585; 1608; 1591]%N;
      [1605; 1608; 1575; 1601; 1602; 1577; 32; 1593; 1604; 1609; 32;
       1575; 1604; 1588; 1585; 1608; 1591]%N;
      [1605; 1608; 1575; 1601; 1602]%N ].
Proof. reflexivity. Qed.

(** X13: [categorize_button] answers submit for a form submit button only:
    when no cookie or terms keyword matches and either the [type] attribute
    is "submit" or a [button] tag has "submit" in its combined text.  The
    keywords "send", "post" and "save" of [submit_patterns] play no part. *)
Theorem submit_only_for_form_buttons :
  forall combined_text type_attr tag_name : pystr,
    pystr_eqb (category_of (categorize_button combined_text type_attr tag_name))
              (py "submit")
    = negb (matches_any cookie_patterns combined_text)
      && negb (matches_any terms_patterns combined_text)
      && is_form_submit combined_text type_attr tag_name.
Proof.
  intros ct ty tg. unfold categorize_button.
  destruct (first_pattern_in cookie_patterns ct) eqn:Ec.
  { destruct (matches_any cookie_patterns ct) eqn:M; [reflexivity|].
    apply first_pattern_in_none in M. congruence. }
  apply first_pattern_in_none in Ec. rewrite Ec.
  destruct (first_pattern_in terms_patterns ct) eqn:Et.
  { destruct (matches_any terms_patterns ct) eqn:M; [reflexivity|].
    apply first_pattern_in_none in M. congruence. }
  apply first_pattern_in_none in Et. rewrite Et.
  destruct (is_form_submit ct ty tg); [reflexivity|].
  repeat match goal with
  | |- context [first_pattern_in ?ps ct] => destruct (first_pattern_in ps ct)
  end; reflexivity.
Qed.

(** A button that says "send" and is not of type submit is a general
    button. *)
Example send_is_general :
  category_of (categorize_button (py "send message") [] (py "button"))
  = py "general".
Proof. reflexivity. Qed.

(** ** ElementClassifier *)

Ltac member_cases H :=
  apply str_in_iff in H; simpl in H;
  repeat (destruct H as [<-|H]; [reflexivity|]); contradiction.

(** The five tag sets have no tag in common. *)
Lemma media_only (t : pystr) :
  str_in t MEDIA_TAGS = true ->
  str_in t INTERACTIVE_TAGS = false /\ str_in t TEXT_TAGS = false
  /\ str_in t NAVIGATION_TAGS = false /\ str_in t LIST_TAGS = false.
Proof. intros H. repeat split; member_cases H. Qed.

Lemma interactive_only (t : pystr) :
  str_in t INTERACTIVE_TAGS = true ->
  str_in t MEDIA_TAGS = false /\ str_in t TEXT_TAGS = false
  /\ str_in t NAVIGATION_TAGS = false /\ str_in t LIST_TAGS = false.
Proof. intros H. repeat split; member_cases H. Qed.

Lemma text_only (t : pystr) :
  str_in t TEXT_TAGS = true ->
  str_in t MEDIA_TAGS = false /\ str_in t INTERACTIVE_TAGS = false
  /\ str_in t NAVIGATION_TAGS = false /\ str_in t LIST_TAGS = false.
Proof. intros H. repeat split; member_cases H. Qed.

Lemma navigation_only (t : pystr) :
  str_in t NAVIGATION_TAGS = true ->
  str_in t MEDIA_TAGS = false /\ str_in t INTERACTIVE_TAGS = false
  /\ str_in t TEXT_TAGS = false /\ str_in t LIST_TAGS = false.
Proof. intros H. repeat split; member_cases H. Qed.

Lemma list_only (t : pystr) :
  str_in t LIST_TAGS = true ->
  str_in t MEDIA_TAGS = false /\ str_in t INTERACTIVE_TAGS = false
  /\ str_in t TEXT_TAGS = false /\ str_in t NAVIGATION_TAGS = false.
Proof. intros H. repeat split; member_cases H. Qed.

Lemma heading_is_text (t : pystr) :
  str_in t HEADING_TAGS = true ->
  str_in t TEXT_TAGS = true /\ (1 <= heading_level_of t <= 6)%Z.
Proof.
  intros H. apply str_in_iff in H; simpl in H.
  repeat (destruct H as [<-|H]; [split; [reflexivity | vm_compute; split; discriminate]|]).
  contradiction.
Qed.

(** Case analysis on the tag sets a tag belongs to. *)
Ltac by_tag_set t :=
  let M := fresh "M" in let I := fresh "I" in let T := fresh "T" in
  let V := fresh "V" in let L := fresh "L" in
  destruct (str_in t MEDIA_TAGS) eqn:M;
    [destruct (media_only t M) as (I & T & V & L)|];
  [|destruct (str_in t INTERACTIVE_TAGS) eqn:I;
      [destruct (interactive_only t I) as (_ & T & V & L)|]];
  [| |destruct (str_in t TEXT_TAGS) eqn:T;
        [destruct (text_only t T) as (_ & _ & V & L)|]];
  [| | |destruct (str_in t NAVIGATION_TAGS) eqn:V;
          [destruct (navigation_only t V) as (_ & _ & _ & L)|]];
  [| | | |destruct (str_in t LIST_TAGS) eqn:L].

(** X14: the primary type of an element.  With an [onclick] attribute it is
    interactive, unless the tag is a media tag; without, it is decided by
    the one tag set the tag belongs to, whatever the order in which the sets
    are tried, and it is container when the tag belongs to none. *)
Theorem primary_type_by_tag_set :
  forall (lower : pystr -> pystr) (element : Tag) (descendants : list Tag),
    let tag := lower (tag_name element) in
    primary_type_of (categorize_element_advanced lower element descendants)
    = VStr
        (if has_attr element (py "onclick") then
           if str_in tag MEDIA_TAGS then py "media" else py "interactive"
         else if str_in tag LIST_TAGS then py "list"
         else if str_in tag NAVIGATION_TAGS then py "navigation"
         else if str_in tag TEXT_TAGS then py "text"
         else if str_in tag INTERACTIVE_TAGS then py "interactive"
         else if str_in tag MEDIA_TAGS then py "media"
         else py "container").
Proof.
  intros lower element descendants tag.
  unfold categorize_element_advanced. fold tag.
  by_tag_set tag; destruct (has_attr element (py "onclick"));
    rewrite ?I, ?T, ?V, ?L; reflexivity.
Qed.

Lemma csv_importance_value (lower : pystr -> pystr) (element : Tag)
    (descendants : list Tag) :
  csv_importance (categorize_element_advanced lower element descendants)
  = VStr
      (if str_in (lower (tag_name element)) TEXT_TAGS
          && negb (has_attr element (py "onclick")) then
         if str_in (lower (tag_name element)) HEADING_TAGS then py "high"
         else if pystr_eqb (lower (tag_name element)) (py "p") then py "medium"
         else py "low"
       else py "normal").
Proof.
  unfold categorize_element_advanced.
  set (tag := lower (tag_name element)).
  by_tag_set tag; rewrite ?I, ?T, ?V, ?L;
    destruct (has_attr element (py "onclick")); cbn [orb andb negb];
    try reflexivity;
    try (destruct (pystr_eqb tag (py "input")); [reflexivity|];
         destruct (pystr_eqb tag (py "a")); [|reflexivity];
         destruct (get_attribute (tag_attrs element) (py "href")); reflexivity);
    try (destruct (get_attribute (tag_attrs element) (py "src")); reflexivity);
    try (destruct (str_in tag HEADING_TAGS); [reflexivity|];
         destruct (pystr_eqb tag (py "p")); reflexivity).
Qed.

(** X15: importance and heading level.  The importance written to a row of
    [csv_data] is high for [h1] .. [h6], medium for [p] and low for the
    other text tags, provided the element has no [onclick] attribute; for
    every other element, a heading with [onclick] included, it is normal.
    The heading level is recorded for the same headings and is the digit
    of the tag, between 1 and 6. *)
Theorem importance_of_element :
  forall (lower : pystr -> pystr) (element : Tag) (descendants : list Tag),
    let tag := lower (tag_name element) in
    let category := categorize_element_advanced lower element descendants in
    csv_importance category
    = VStr
        (if str_in tag TEXT_TAGS && negb (has_attr element (py "onclick")) then
           if str_in tag HEADING_TAGS then py "high"
           else if pystr_eqb tag (py "p") then py "medium"
           else py "low"
         else py "normal")
    /\ dict_get category (py "heading_level")
       = (if str_in tag HEADING_TAGS && negb (has_attr element (py "onclick"))
          then Some (VInt (heading_level_of tag)) else None)
    /\ (if str_in tag HEADING_TAGS then (1 <= heading_level_of tag <= 6)%Z
        else True).
Proof.
  intros lower element descendants tag category. subst category.
  assert (Hlevel : if str_in tag HEADING_TAGS
                   then (1 <= heading_level_of tag <= 6)%Z else True).
  { destruct (str_in tag HEADING_TAGS) eqn:H; [|exact I].
    exact (proj2 (heading_is_text tag H)). }
  split; [apply csv_importance_value|]. split; [|exact Hlevel].
  unfold categorize_element_advanced. fold tag.
  destruct (str_in tag HEADING_TAGS) eqn:H.
  - destruct (heading_is_text tag H) as [T _].
    destruct (text_only tag T) as (M & I & _ & _).
    rewrite M, I, T. cbn [orb andb].
    destruct (has_attr element (py "onclick")); cbn [negb].
    + destruct (pystr_eqb tag (py "input")); [reflexivity|].
      destruct (pystr_eqb tag (py "a")); [|reflexivity].
      destruct (get_attribute (tag_attrs element) (py "href")); reflexivity.
    + reflexivity.
  - cbn [andb].
    by_tag_set tag; rewrite ?I, ?T, ?V, ?L;
      destruct (has_attr element (py "onclick")); cbn [orb];
      try reflexivity;
      try (destruct (pystr_eqb tag (py "input")); [reflexivity|];
           destruct (pystr_eqb tag (py "a")); [|reflexivity];
           destruct (get_attribute (tag_attrs element) (py "href")); reflexivity);
      try (destruct (get_attribute (tag_attrs element) (py "src")); reflexivity);
      try (destruct (pystr_eqb tag (py "p")); reflexivity).
Qed.

(** A heading that carries [onclick] is an interactive element of normal
    importance. *)
Example clickable_heading_scenario :
  let category := categorize_element_advanced ascii_lower clickable_heading [] in
  primary_type_of category = VStr (py "interactive")
  /\ csv_importance category = VStr (py "normal")
  /\ dict_get category (py "heading_level") = None.
Proof. repeat split. Qed.

(** X16: the subcategory written to a row of [csv_data] is the tag name of
    the element, except for navigation elements, where it is empty:
    their subtype is stored under [nav_subtype], and the row looks for
    [navigation_subtype]. *)
Theorem csv_subcategory_of_element :
  forall (lower : pystr -> pystr) (element : Tag) (descendants : list Tag),
    let tag := lower (tag_name element) in
    csv_subcategory (categorize_element_advanced lower element descendants)
    = VStr (if str_in tag NAVIGATION_TAGS
               && negb (has_attr element (py "onclick"))
            then [] else tag).
Proof.
  intros lower element descendants tag.
  unfold categorize_element_advanced. fold tag.
  by_tag_set tag; rewrite ?I, ?T, ?V, ?L;
    destruct (has_attr element (py "onclick")); reflexivity.
Qed.

Example nav_bar_scenario :
  let category := categorize_element_advanced ascii_lower nav_bar [] in
  primary_type_of category = VStr (py "navigation")
  /\ dict_get category (py "nav_subtype") = Some (VStr (py "nav"))
  /\ csv_subcategory category = VStr [].
Proof. repeat split. Qed.

(** ** SelectorBuilder: the primary selector and the shape of the path *)

(** X17: the primary selector of a row of [csv_data] is ["#" + id] for an
    element with an [id] attribute, else the tag and its classes joined by
    dots for an element with a non-empty class, else the tag name: no
    selector that is present is passed over by the [or] chain. *)
Theorem primary_selector_choice :
  forall element : Tag,
    primary_selector (generate_advanced_selector element)
    = Some
        match get_attribute (tag_attrs element) (py "id") with
        | Some id => py "#" ++ id
        | None =>
            match tag_class element with
            | Some cl =>
                match filter truthy cl with
                | [] => tag_name element
                | c :: cs =>
                    tag_name element ++ py "." ++ join (py ".") (c :: cs)
                end
            | None => tag_name element
            end
        end.
Proof.
  intros element. unfold primary_selector, generate_advanced_selector.
  cbn [sel_id_selector sel_class_selector sel_tag_selector].
  destruct (get_attribute (tag_attrs element) (py "id")) as [id|];
    [reflexivity|].
  cbn [option_map or_else].
  destruct (tag_class element) as [cl|]; [|reflexivity].
  destruct (filter truthy cl) as [|c cs]; [reflexivity|].
  cbn [option_map or_else].
  destruct (tag_name element); reflexivity.
Qed.

Lemma build_path_prefix (current : Tag) :
  forall path_parts : list pystr,
    List.length path_parts <= 5 ->
    exists k,
      List.length path_parts + k <= 6
      /\ (if truthy (tag_name current) then 1 else 0) <= k
      /\ build_path current path_parts
         = path_parts ++ List.map descriptor (firstn k (ancestry current)).
Proof.
  induction current as [name attrs class text | name attrs class text parent IH]
    using Tag_parent_ind; intros path_parts Hlen; simpl build_path;
    cbn [tag_name].
  - destruct (truthy name);
      [|exists 0; rewrite app_nil_r; repeat split; lia].
    exists 1. unfold descriptor. cbn [ancestry firstn List.map tag_attrs
                                        tag_name tag_class].
    destruct (get_attribute attrs (py "id"));
      [repeat split; lia|].
    destruct (5 <? _); repeat split; lia.
  - destruct (truthy name);
      [|exists 0; rewrite app_nil_r; repeat split; lia].
    destruct (get_attribute attrs (py "id")) as [id|] eqn:Eid.
    + exists 1. unfold descriptor. cbn [ancestry firstn List.map tag_attrs
                                          tag_name tag_class].
      rewrite Eid. repeat split; lia.
    + destruct (5 <? List.length (path_parts ++ [class_or_tag name class]))
        eqn:E.
      * exists 1. unfold descriptor. cbn [ancestry firstn List.map tag_attrs
                                            tag_name tag_class].
        rewrite Eid. repeat split; lia.
      * apply Nat.ltb_ge in E.
        destruct (IH (path_parts ++ [class_or_tag name class]) E)
          as (k & Hk & _ & Hpath).
        rewrite length_app in Hk. simpl in Hk.
        exists (S k). split; [lia|]. split; [lia|].
        rewrite Hpath, <- app_assoc.
        cbn [ancestry firstn List.map app]. unfold descriptor at 2.
        cbn [tag_attrs tag_name tag_class]. rewrite Eid. reflexivity.
Qed.

(** X18: the parts of the hierarchical path are the descriptors of the
    element, its parent, its grandparent and so on, in this order and
    without a gap, for the first [k] of them, where [k] is at most 6 and at
    least 1 when the element has a name. *)
Theorem hierarchical_path_is_ancestry_prefix :
  forall element : Tag,
    exists k,
      k <= 6
      /\ (if truthy (tag_name element) then 1 else 0) <= k
      /\ sel_path_parts (generate_advanced_selector element)
         = List.map descriptor (firstn k (ancestry element))
      /\ sel_hierarchical_path (generate_advanced_selector element)
         = join (py " > ")
             (rev (List.map descriptor (firstn k (ancestry element)))).
Proof.
  intros element.
  destruct (build_path_prefix element []) as (k & Hk & H1 & Hpath);
    [simpl; lia|].
  exists k. unfold generate_advanced_selector.
  cbn [sel_path_parts sel_hierarchical_path]. rewrite Hpath.
  repeat split; [simpl in Hk; lia | exact H1].
Qed.

(** ** Element statistics and page structure *)

Lemma pyvalue_eqb_eq (a b : pyvalue) : pyvalue_eqb a b = true <-> a = b.
Proof.
  destruct a as [x|x], b as [y|y]; simpl; split; try discriminate.
  - intros H. apply pystr_eqb_eq in H. congruence.
  - intros H. injection H as ->. apply pystr_eqb_refl.
  - intros H. apply Z.eqb_eq in H. congruence.
  - intros H. injection H as ->. apply Z.eqb_refl.
Qed.

Lemma counter_total_incr (d : counter) (key : pyvalue) :
  counter_total (counter_incr d key) = (counter_total d + 1)%Z.
Proof.
  induction d as [|[k v] d IH]; simpl; [reflexivity|].
  destruct (pyvalue_eqb k key); simpl; [|rewrite IH]; lia.
Qed.

Lemma counter_get_incr (d : counter) (key key' : pyvalue) :
  counter_get (counter_incr d key) key'
  = (counter_get d key' + if pyvalue_eqb key key' then 1 else 0)%Z.
Proof.
  induction d as [|[k v] d IH]; simpl.
  - destruct (pyvalue_eqb key key'); reflexivity.
  - destruct (pyvalue_eqb k key) eqn:E; simpl.
    + apply pyvalue_eqb_eq in E. subst k.
      destruct (pyvalue_eqb key key'); lia.
    + destruct (pyvalue_eqb k key') eqn:E'; [|exact IH].
      apply pyvalue_eqb_eq in E'. subst k.
      destruct (pyvalue_eqb key key') eqn:E''; [|lia].
      apply pyvalue_eqb_eq in E''. subst key'.
      assert (pyvalue_eqb key key = true) by (apply pyvalue_eqb_eq; reflexivity).
      congruence.
Qed.

Lemma high_priority_iff_id (element : Tag) :
  option_pystr_eqb (sel_priority (generate_advanced_selector element)) (py "high")
  = has_attr element (py "id").
Proof.
  unfold generate_advanced_selector, has_attr. cbn [sel_priority].
  destruct (get_attribute (tag_attrs element) (py "id")); reflexivity.
Qed.

Lemma update_stats_step (lower : pystr -> pystr) (s : SummaryStats)
    (entry : Tag * list Tag) :
  let s' := update_stats lower s entry in
  st_total_elements s' = st_total_elements s
  /\ counter_total (st_by_category s')
     = (counter_total (st_by_category s) + 1)%Z
  /\ (st_interactive_elements s' - counter_get (st_by_category s')
                                     (VStr (py "interactive"))
      = st_interactive_elements s - counter_get (st_by_category s)
                                      (VStr (py "interactive")))%Z
  /\ (st_media_elements s' - counter_get (st_by_category s') (VStr (py "media"))
      = st_media_elements s - counter_get (st_by_category s) (VStr (py "media")))%Z
  /\ (st_text_elements s' - counter_get (st_by_category s') (VStr (py "text"))
      = st_text_elements s - counter_get (st_by_category s) (VStr (py "text")))%Z
  /\ (st_interactive_elements s <= st_interactive_elements s'
      /\ st_media_elements s <= st_media_elements s'
      /\ st_text_elements s <= st_text_elements s'
      /\ st_interactive_elements s' + st_media_elements s' + st_text_elements s'
         <= st_interactive_elements s + st_media_elements s
            + st_text_elements s + 1)%Z
  /\ st_high_priority_elements s'
     = (st_high_priority_elements s
        + if has_attr (fst entry) (py "id") then 1 else 0)%Z.
Proof.
  intros s'. subst s'. unfold update_stats.
  cbn [st_total_elements st_by_category st_interactive_elements
       st_media_elements st_text_elements st_high_priority_elements].
  rewrite high_priority_iff_id, counter_total_incr, !counter_get_incr.
  set (p := primary_type_of _).
  split; [reflexivity|]. split; [reflexivity|].
  destruct (has_attr (fst entry) (py "id"));
    (destruct (pyvalue_eqb p (VStr (py "interactive"))) eqn:Ei;
      [apply pyvalue_eqb_eq in Ei; rewrite Ei; cbn; repeat split; lia|]);
    (destruct (pyvalue_eqb p (VStr (py "media"))) eqn:Em;
      [apply pyvalue_eqb_eq in Em; rewrite Em; cbn; repeat split; lia|]);
    destruct (pyvalue_eqb p (VStr (py "text"))) eqn:Et; repeat split; lia.
Qed.

Lemma summarize_from (lower : pystr -> pystr) (doc : Document) :
  forall s : SummaryStats,
    let s' := fold_left (update_stats lower) doc s in
    st_total_elements s' = st_total_elements s
    /\ counter_total (st_by_category s')
       = (counter_total (st_by_category s) + Z.of_nat (List.length doc))%Z
    /\ (st_interactive_elements s' - counter_get (st_by_category s')
                                       (VStr (py "interactive"))
        = st_interactive_elements s - counter_get (st_by_category s)
                                        (VStr (py "interactive")))%Z
    /\ (st_media_elements s' - counter_get (st_by_category s') (VStr (py "media"))
        = st_media_elements s - counter_get (st_by_category s) (VStr (py "media")))%Z
    /\ (st_text_elements s' - counter_get (st_by_category s') (VStr (py "text"))
        = st_text_elements s - counter_get (st_by_category s) (VStr (py "text")))%Z
    /\ (st_interactive_elements s <= st_interactive_elements s'
        /\ st_media_elements s <= st_media_elements s'
        /\ st_text_elements s <= st_text_elements s'
        /\ st_interactive_elements s' + st_media_elements s' + st_text_elements s'
           <= st_interactive_elements s + st_media_elements s
              + st_text_elements s + Z.of_nat (List.length doc))%Z
    /\ st_high_priority_elements s'
       = (st_high_priority_elements s
          + count_where (fun e => has_attr (fst e) (py "id")) doc)%Z.
Proof.
  induction doc as [|entry doc IH]; intros s.
  - cbn. repeat split; lia.
  - cbn [fold_left].
    destruct (update_stats_step lower s entry)
      as (H1 & H2 & H3 & H4 & H5 & H6 & H7).
    destruct (IH (update_stats lower s entry))
      as (I1 & I2 & I3 & I4 & I5 & I6 & I7).
    cbv zeta in *.
    assert (Hc : count_where (fun e => has_attr (fst e) (py "id")) (entry :: doc)
                 = ((if has_attr (fst entry) (py "id") then 1 else 0)
                    + count_where (fun e => has_attr (fst e) (py "id")) doc)%Z).
    { unfold count_where. cbn [filter].
      destruct (has_attr (fst entry) (py "id")); cbn [List.length]; lia. }
    rewrite Hc. cbn [List.length]. repeat split; lia.
Qed.

(** X19: the statistics of the element loop add up.  [total_elements] is
    the number of elements, the counts of [by_category] sum to it, the
    counters of interactive, media and text elements are the entries of
    [by_category] for these types and together do not exceed the total, and
    [high_priority_elements] is the number of elements with an [id]
    attribute. *)
Theorem summary_stats_add_up :
  forall (lower : pystr -> pystr) (doc : Document),
    let s := summarize_elements lower doc in
    st_total_elements s = Z.of_nat (List.length doc)
    /\ counter_total (st_by_category s) = st_total_elements s
    /\ st_interactive_elements s
       = counter_get (st_by_category s) (VStr (py "interactive"))
    /\ st_media_elements s = counter_get (st_by_category s) (VStr (py "media"))
    /\ st_text_elements s = counter_get (st_by_category s) (VStr (py "text"))
    /\ (0 <= st_interactive_elements s /\ 0 <= st_media_elements s
        /\ 0 <= st_text_elements s
        /\ st_interactive_elements s + st_media_elements s + st_text_elements s
           <= st_total_elements s)%Z
    /\ st_high_priority_elements s
       = count_where (fun e => has_attr (fst e) (py "id")) doc.
Proof.
  intros lower doc s. subst s. unfold summarize_elements.
  match goal with
  | |- context [fold_left _ doc ?s0] =>
      destruct (summarize_from lower doc s0)
        as (H1 & H2 & H3 & H4 & H5 & H6 & H7)
  end.
  cbv zeta in *.
  cbn [st_total_elements st_by_category st_interactive_elements
       st_media_elements st_text_elements st_high_priority_elements
       counter_total counter_get fold_right] in *.
  repeat split; lia.
Qed.

Lemma count_tags_cons (e : Tag * list Tag) (doc : Document) (name : pystr) :
  count_tags (e :: doc) name
  = ((if pystr_eqb (tag_name (fst e)) name then 1 else 0)
     + count_tags doc name)%Z.
Proof.
  unfold count_tags. cbn [filter].
  destruct (pystr_eqb (tag_name (fst e)) name); cbn [List.length]; lia.
Qed.

Lemma count_where_cons (p : Tag * list Tag -> bool) (e : Tag * list Tag)
    (doc : Document) :
  count_where p (e :: doc)
  = ((if p e then 1 else 0) + count_where p doc)%Z.
Proof.
  unfold count_where. cbn [filter]. destruct (p e); cbn [List.length]; lia.
Qed.

Lemma heading_indicator (name : pystr) :
  ((if pystr_eqb name (py "h1") then 1 else 0)
   + (if pystr_eqb name (py "h2") then 1 else 0)
   + (if pystr_eqb name (py "h3") then 1 else 0)
   + (if pystr_eqb name (py "h4") then 1 else 0)
   + (if pystr_eqb name (py "h5") then 1 else 0)
   + (if pystr_eqb name (py "h6") then 1 else 0))%Z
  = if str_in name HEADING_TAGS then 1%Z else 0%Z.
Proof.
  unfold str_in, HEADING_TAGS. cbn [existsb].
  repeat match goal with
  | |- context [pystr_eqb name ?h] =>
      let E := fresh "E" in
      destruct (pystr_eqb name h) eqn:E;
      [apply pystr_eqb_eq in E; subst name; reflexivity|]
  end.
  reflexivity.
Qed.

Lemma heading_counts_total (doc : Document) :
  (count_tags doc (py "h1") + count_tags doc (py "h2")
   + count_tags doc (py "h3") + count_tags doc (py "h4")
   + count_tags doc (py "h5") + count_tags doc (py "h6"))%Z
  = count_where is_heading doc.
Proof.
  induction doc as [|e doc IH]; [reflexivity|].
  rewrite !count_tags_cons, count_where_cons. unfold is_heading at 1.
  rewrite <- heading_indicator. lia.
Qed.

Lemma is_high_heading (lower : pystr -> pystr) (e : Tag * list Tag) :
  lower (tag_name (fst e)) = tag_name (fst e) ->
  is_heading e && has_attr (fst e) (py "onclick") = false ->
  is_high lower e = is_heading e.
Proof.
  intros Hlow Hclick. unfold is_high, is_heading in *.
  rewrite csv_importance_value, Hlow.
  destruct (str_in (tag_name (fst e)) HEADING_TAGS) eqn:H.
  - destruct (heading_is_text _ H) as [T _]. rewrite T.
    cbn [andb] in Hclick. rewrite Hclick. reflexivity.
  - destruct (str_in (tag_name (fst e)) TEXT_TAGS && _); [|reflexivity].
    destruct (pystr_eqb (tag_name (fst e)) (py "p")); reflexivity.
Qed.

(** X20: [headings_hierarchy] always has the six keys [h1] .. [h6], zero
    counts included, and its counts always sum to the number of heading tags
    of the page.  When the tag names are in lower case and no heading
    carries [onclick], that sum is also the number of elements whose row
    gets importance high. *)
Theorem headings_hierarchy_counts :
  forall (lower : pystr -> pystr) (doc : Document) (title : option pystr),
    List.map fst (ps_headings_hierarchy (extract_page_structure doc title))
    = HEADING_TAGS
    /\ dict_total (ps_headings_hierarchy (extract_page_structure doc title))
       = count_where is_heading doc
    /\ (Forall (fun e => lower (tag_name (fst e)) = tag_name (fst e)
                         /\ is_heading e && has_attr (fst e) (py "onclick")
                            = false)
               doc ->
        dict_total (ps_headings_hierarchy (extract_page_structure doc title))
        = count_where (is_high lower) doc).
Proof.
  intros lower doc title.
  assert (Htotal :
            dict_total (ps_headings_hierarchy (extract_page_structure doc title))
            = count_where is_heading doc).
  { rewrite <- heading_counts_total. cbn. lia. }
  split; [reflexivity|]. split; [exact Htotal|].
  intros Hdoc.
  rewrite Htotal. unfold count_where. f_equal. f_equal.
  apply filter_ext_in. intros e He.
  rewrite Forall_forall in Hdoc. destruct (Hdoc e He) as [Hlow Hclick].
  symmetry. apply is_high_heading; assumption.
Qed.

Lemma headings_hierarchy_counts_witness :
  List.map fst (ps_headings_hierarchy (extract_page_structure headings_page None))
  = HEADING_TAGS
  /\ dict_total (ps_headings_hierarchy (extract_page_structure headings_page None))
     = count_where is_heading headings_page
  /\ dict_total (ps_headings_hierarchy (extract_page_structure headings_page None))
     = count_where (is_high ascii_lower) headings_page.
Proof.
  destruct (headings_hierarchy_counts ascii_lower headings_page None)
    as (H1 & H2 & H3).
  split; [exact H1|]. split; [exact H2|].
  apply H3. unfold headings_page. simpl List.map.
  repeat constructor.
Defined.

(** The headings h1, h2, h2, h3 of section 8. *)
Example headings_scenario :
  ps_headings_hierarchy (extract_page_structure headings_page None)
  = [ (py "h1", 1%Z); (py "h2", 2%Z); (py "h3", 1%Z); (py "h4", 0%Z);
      (py "h5", 0%Z); (py "h6", 0%Z) ].
Proof. reflexivity. Qed.

(** ** Form fields *)

(** X21: when [get_field_info] answers a dictionary, its type and
    display name are one of the rows of the table: fourteen types with one
    display name each, and "textarea" with one of four; and a type that the
    chain gives after its test for a text area ("phone", "number", "date",
    "time", "name", "username", "address", "age", "title", "text") is
    answered only when the selector is not ['textarea'] and the element's
    [tag_name] could be read.  It answers [None] only when one of its reads
    raised. *)
Theorem field_type_in_table :
  forall (lower : pystr -> pystr) (raises : Faults) (element : Node)
         (selector : pystr),
    match get_field_info lower raises element selector with
    | Some info =>
        In (fi_type info, fi_display_name info) field_table
        /\ str_in (fi_type info) types_after_textarea
           && (pystr_eqb selector (py "textarea")
               || raises element ReadTagName) = false
    | None =>
        existsb (raises element) get_field_info_reads
        || (raises element ReadTagName
            && negb (pystr_eqb selector (py "textarea"))) = true
    end.
Proof.
  intros lower raises element selector.
  unfold get_field_info.
  destruct (existsb (raises element) get_field_info_reads); [reflexivity|].
  unfold field_type_of.
  repeat match goal with
  | |- context [if ?c then _ else _] =>
      destruct c;
      try reflexivity;
      try (cbn [fi_type fi_display_name fst snd];
           split; [unfold field_table; simpl In; tauto | reflexivity])
  end.
Qed.

Lemma username_after_name (lower : pystr -> pystr) (raises : Faults)
    (element : Node) (selector : pystr) :
  let placeholder := lower (attr_or element (py "placeholder") []) in
  let name := lower (attr_or element (py "name") []) in
  match get_field_info lower raises element selector with
  | Some info =>
      pystr_eqb (fi_type info) (py "username") = true ->
      contains (py "user") name = true
      /\ contains (py "name") name = false
      /\ contains (py "name") placeholder = false
      /\ contains (py "username") name = false
      /\ contains (py "username") placeholder = false
      /\ raises element ReadTagName = false
  | None => True
  end.
Proof.
  intros placeholder name.
  unfold get_field_info.
  destruct (existsb (raises element) get_field_info_reads); [exact I|].
  unfold field_type_of. fold placeholder name.
  assert (Hsub : forall s, contains (py "name") s = false ->
                           contains (py "username") s = false).
  { intros s Hs. destruct (contains (py "username") s) eqn:E; [|reflexivity].
    assert (contains (py "name") s = true)
      by (apply (contains_trans _ (py "username")); [reflexivity | exact E]).
    congruence. }
  repeat match goal with
  | |- context [if ?c then Some (?a, _) else _] =>
      destruct c; [cbn [fi_type fst]; discriminate|]
  end.
  destruct (pystr_eqb selector (py "textarea"));
    [cbn [fi_type fst]; discriminate|].
  destruct (raises element ReadTagName); [exact I|].
  destruct (pystr_eqb (lower (node_tag element)) (py "textarea"));
    [cbn [fi_type fst]; discriminate|].
  repeat match goal with
  | |- context [if ?c then (?a, _) else _] =>
      lazymatch a with
      | py "name" => fail
      | py "username" => fail
      | _ => destruct c; cbn [fi_type fst]; [discriminate|]
      end
  end.
  destruct (contains (py "name") placeholder) eqn:Ep; cbn [orb fi_type fst];
    [discriminate|].
  destruct (contains (py "name") name) eqn:En; cbn [fi_type fst];
    [discriminate|].
  rewrite (Hsub _ Ep), (Hsub _ En). cbn [orb].
  destruct (contains (py "user") name); cbn [fi_type fst];
    [intros _; repeat split|].
  repeat match goal with
  | |- context [if ?c then _ else _] => destruct c; cbn [fi_type fst]
  end; discriminate.
Qed.

(** X22: a field whose placeholder or name contains "username" is never
    given the type "username": the test for "name" comes first and takes it.
    When [get_field_info] answers the type "username", the field's name
    contains "user", neither its name nor its placeholder contains "name",
    and the element's [tag_name] could be read: the test lies behind the one
    for a text area, which reads it. *)
Theorem username_is_shadowed_by_name :
  forall (lower : pystr -> pystr) (raises : Faults) (element : Node)
         (selector : pystr) (info : FieldInfo),
    let placeholder := lower (attr_or element (py "placeholder") []) in
    let name := lower (attr_or element (py "name") []) in
    get_field_info lower raises element selector = Some info ->
    fi_type info = py "username" ->
    contains (py "user") name = true
    /\ contains (py "name") name = false
    /\ contains (py "name") placeholder = false
    /\ contains (py "username") name = false
    /\ contains (py "username") placeholder = false
    /\ raises element ReadTagName = false.
Proof.
  intros lower raises element selector info placeholder name Hget Htype.
  pose proof (username_after_name lower raises element selector) as H.
  cbv zeta in H. rewrite Hget in H. apply H.
  rewrite Htype. reflexivity.
Qed.

Lemma username_is_shadowed_by_name_witness :
  contains (py "user") (ascii_lower (attr_or user_id_box (py "name") []))
  = true
  /\ contains (py "name") (ascii_lower (attr_or user_id_box (py "name") []))
     = false
  /\ contains (py "name")
       (ascii_lower (attr_or user_id_box (py "placeholder") [])) = false
  /\ contains (py "username")
       (ascii_lower (attr_or user_id_box (py "name") [])) = false
  /\ contains (py "username")
       (ascii_lower (attr_or user_id_box (py "placeholder") [])) = false
  /\ no_faults user_id_box ReadTagName = false.
Proof.
  apply (username_is_shadowed_by_name ascii_lower no_faults user_id_box
           (py "input")
           {| fi_element := user_id_box; fi_type := py "username";
              fi_display_name := py "Username Input"; fi_placeholder := [];
              fi_name := py "user_id"; fi_id := []; fi_class := [];
              fi_input_type := py "text" |});
    reflexivity.
Defined.

(** A field that announces itself as "Username" is taken for a name; one
    named [user_id] is a "username" when its [tag_name] can be read, and gets
    no dictionary when it cannot. *)
Example username_box_scenario :
  option_map fi_type (get_field_info ascii_lower no_faults username_box (py "input"))
  = Some (py "name")
  /\ option_map fi_type
       (get_field_info ascii_lower no_faults user_id_box (py "input"))
     = Some (py "username")
  /\ get_field_info ascii_lower no_tag_name user_id_box (py "input") = None.
Proof. repeat split. Qed.

Lemma fill_loop_counts (isspace : N -> bool) (answers : nat -> pystr)
    (fill_ok : nat -> bool) (input_fields : list FieldInfo) :
  forall (i : nat) (filled skipped : Z),
    let r := fill_loop isspace answers fill_ok input_fields i filled skipped in
    let asked := prompts i (List.length input_fields) in
    snd r
    = (skipped
       + Z.of_nat (List.length (filter (left_blank isspace answers) asked)))%Z
    /\ fst r
       = (filled
          + Z.of_nat
              (List.length
                 (filter (fun k => negb (left_blank isspace answers k)
                                   && fill_ok k) asked)))%Z.
Proof.
  induction input_fields as [|field rest IH]; intros i filled skipped.
  - cbn. split; lia.
  - cbn [fill_loop List.length prompts seq filter].
    replace (truthy (strip isspace (answers i)))
      with (negb (left_blank isspace answers i))
      by (unfold left_blank; apply negb_involutive).
    destruct (left_blank isspace answers i); cbn [negb andb].
    + destruct (IH (S i) filled (skipped + 1)%Z) as [H1 H2].
      cbv zeta in H1, H2. unfold prompts in H1, H2.
      rewrite H1, H2. cbn [List.length]. split; lia.
    + destruct (fill_ok i); cbn [List.length].
      * destruct (IH (S i) (filled + 1)%Z skipped) as [H1 H2].
        cbv zeta in H1, H2. unfold prompts in H1, H2.
        rewrite H1, H2. split; lia.
      * destruct (IH (S i) filled skipped) as [H1 H2].
        cbv zeta in H1, H2. unfold prompts in H1, H2.
        rewrite H1, H2. split; lia.
Qed.

(** X23: the statistics of [interactive_fill_form].  [skipped_fields] is the
    number of prompts the user left blank, [filled_fields] the number of
    prompts answered whose field was then filled with success, and together
    they do not exceed [total_fields]: the fields that were answered but
    could not be filled are counted in neither. *)
Theorem fill_form_statistics :
  forall (isspace : N -> bool) (answers : nat -> pystr) (fill_ok : nat -> bool)
         (field : FieldInfo) (rest : list FieldInfo),
    let input_fields := field :: rest in
    let report := interactive_fill_form isspace answers fill_ok true
                    input_fields in
    let asked := prompts 1 (List.length input_fields) in
    let blank := List.length (filter (left_blank isspace answers) asked) in
    let done :=
      List.length
        (filter (fun k => negb (left_blank isspace answers k) && fill_ok k)
                asked) in
    fr_success report = true
    /\ fr_total_fields report = Some (Z.of_nat (List.length input_fields))
    /\ fr_skipped_fields report = Some (Z.of_nat blank)
    /\ fr_filled_fields report = Some (Z.of_nat done)
    /\ blank + done <= List.length input_fields.
Proof.
  intros isspace answers fill_ok field rest input_fields report asked blank done.
  subst report. unfold interactive_fill_form. cbn [negb].
  subst input_fields.
  destruct (fill_loop_counts isspace answers fill_ok (field :: rest) 1 0%Z 0%Z)
    as [H1 H2].
  cbv zeta in H1, H2. fold asked in H1, H2. fold blank in H1. fold done in H2.
  destruct (fill_loop isspace answers fill_ok (field :: rest) 1 0 0)
    as [filled skipped].
  cbn [fst snd] in H1, H2. subst filled skipped.
  cbn [fr_success fr_total_fields fr_skipped_fields fr_filled_fields].
  repeat split.
  assert (Hlen : List.length asked = List.length (field :: rest))
    by (unfold asked, prompts; apply length_seq).
  rewrite <- Hlen. subst blank done.
  clear Hlen. induction asked as [|k asked IH]; [simpl; lia|].
  cbn [filter]. destruct (left_blank isspace answers k); cbn [negb andb];
    [|destruct (fill_ok k)]; cbn [List.length]; lia.
Qed.

(** ** Associated input, idle fields and the time a run takes *)





(** X25: a field that holds a non-blank value and does not change delays
    the click by three seconds: the guard reads it, polls three times, one
    second apart, and reports that typing is complete. *)
Theorem idle_field_waits_three_seconds :
  forall (isspace : N -> bool) (B : Browser) (input_element : handle)
         (v : pystr) (max_wait : Z) (h : history),
    (forall h', input_value B h' input_element = Some v) ->
    truthy (strip isspace v) = true ->
    (3 <= max_wait)%Z ->
    wait_for_typing_completion isspace B input_element max_wait h
    = (true,
       Print MsgTypingComplete
         :: InputValue input_element :: Sleep 1
         :: InputValue input_element :: Sleep 1
         :: InputValue input_element :: Sleep 1
         :: InputValue input_element :: Print MsgWaiting :: h).
Proof.
  intros isspace B input_element v max_wait h Hv Hnb Hmax.
  unfold wait_for_typing_completion. rewrite !Hv, Hnb. cbn [negb].
  destruct (Z.to_nat max_wait) as [|[|[|cycles]]] eqn:E; try lia.
  cbn [monitor_typing]. rewrite !Hv, pystr_eqb_refl. reflexivity.
Qed.

Lemma idle_field_waits_three_seconds_witness :
  wait_for_typing_completion ascii_isspace (steady_browser (py "hello")) 7 30 []
  = (true,
     [ Print MsgTypingComplete; InputValue 7; Sleep 1; InputValue 7; Sleep 1;
       InputValue 7; Sleep 1; InputValue 7; Print MsgWaiting ]).
Proof.
  apply (idle_field_waits_three_seconds ascii_isspace
           (steady_browser (py "hello")) 7 (py "hello") 30 []).
  - reflexivity.
  - reflexivity.
  - lia.
Defined.

Lemma process_loop_seconds (isspace : N -> bool) (B : Browser)
    (buttons : list ButtonInfo) :
  forall (results : list ClickResult) (processed_count : Z) (h : history),
    seconds_so_far (snd (process_loop isspace B buttons results
                           processed_count h))
    <= seconds_so_far h + 38 * List.length buttons + 2
    /\ reads_so_far (snd (process_loop isspace B buttons results
                            processed_count h))
       <= reads_so_far h + 32 * List.length buttons.
Proof.
  induction buttons as [|b buttons IH]; intros results processed_count h.
  - cbn [process_loop snd List.length]. lia.
  - cbn [process_loop List.length].
    destruct (smart_button_click_counters isspace B b h) as [Hs Hr].
    destruct (smart_button_click isspace B b h) as [result h1].
    cbn [snd] in Hs, Hr.
    destruct (cr_success result);
      destruct (str_in (bi_category b) exit_categories);
      try (count; fail).
    + destruct (IH (results ++ [result]) (processed_count + 1)%Z
                   (Sleep 1 :: h1)) as [I1 I2].
      autorewrite with counters in I1, I2. lia.
    + destruct (IH (results ++ [result]) processed_count h1) as [I1 I2]. lia.
Qed.

(** X26: a run of [process_all_buttons] over [n] buttons (after filtering)
    sleeps at most [38 * n + 2] seconds and reads fields at most [32 * n]
    times. *)
Theorem process_all_buttons_time_bound :
  forall (isspace : N -> bool) (B : Browser) (loaded : bool)
         (found : list ButtonInfo) (categories_filter : option (list pystr))
         (h : history),
    let r := process_all_buttons isspace B loaded found categories_filter h in
    let n := List.length (filter_and_sort found categories_filter) in
    seconds_so_far (snd r) <= seconds_so_far h + 38 * n + 2
    /\ reads_so_far (snd r) <= reads_so_far h + 32 * n.
Proof.
  intros isspace B loaded found categories_filter h r n. subst r.
  unfold process_all_buttons.
  destruct loaded; cbn [negb snd]; [|lia].
  destruct found as [|f found]; cbn [snd]; [lia|].
  destruct (process_loop_seconds isspace B
              (filter_and_sort (f :: found) categories_filter) [] 0%Z h)
    as [Hs Hr].
  fold n in Hs, Hr.
  destruct (process_loop isspace B
              (filter_and_sort (f :: found) categories_filter) [] 0%Z h)
    as [[results processed_count] h'].
  cbn [snd] in *. lia.
Qed.
